(** * packet-test: UDP path-quality measurement

    A shallow embedding of the measurement core of the packet-test tool:
    the wire codec ([Packet.Encode], [DecodePacket]), the statistics
    aggregator ([Stats]) with its summary arithmetic on binary64 floats,
    the CSV export and the column lookup of the plot generator.

    The repository carries two protocol variants side by side: the basic
    one (16-byte header, latency only) and the extended one (24-byte
    header with the server processing time, late threshold, net latency).
    They are embedded in the modules [Basic] and [Extended]. *)

From Stdlib Require Import ZArith Lia List String Ascii Sorted.
From Stdlib Require Import PrimFloat SpecFloat FloatOps.
From Stdlib Require Import DecimalString DecimalPos DecimalZ.
From Stdlib.Strings Require Byte.
From stdpp Require Import base option list gmap strings.

Local Open Scope Z_scope.

(** ** Results of code that may panic *)

(** A Go function either returns or panics (slice bounds, index out of
    range, [make] with a negative length). *)
Inductive result (A : Type) : Type :=
  | Ok (a : A)
  | Panic.
Arguments Ok {A} a.
Arguments Panic {A}.

Definition rbind {A B} (r : result A) (k : A -> result B) : result B :=
  match r with
  | Ok a => k a
  | Panic => Panic
  end.

Notation "x <-! r ; k" := (rbind r (fun x => k))
  (at level 100, r at next level, right associativity).

(** ** Machine integers *)

Module Int.

Definition two64 : Z := 2 ^ 64.
Definition two63 : Z := 2 ^ 63.

Definition is_uint64 (v : Z) : Prop := 0 <= v < two64.
Definition is_int64 (v : Z) : Prop := - two63 <= v < two63.

(** [uint64(x)] of an [int64] (or of a wider intermediate value). *)
Definition to_uint64 (v : Z) : Z := v mod two64.

(** [int64(x)] of a [uint64]: two's complement reinterpretation. *)
Definition to_int64 (v : Z) : Z :=
  let u := v mod two64 in
  if u <? two63 then u else u - two64.

(** [x + y] and [x - y] on [uint64] wrap around. *)
Definition add64 (x y : Z) : Z := to_uint64 (x + y).
Definition sub64 (x y : Z) : Z := to_uint64 (x - y).

(** [x - y] on [int64] wraps around. *)
Definition isub64 (x y : Z) : Z := to_int64 (x - y).

(** [x / y] on [int64] truncates toward zero. *)
Definition idiv64 (x y : Z) : Z := to_int64 (Z.quot x y).

End Int.

(** ** encoding/binary, big endian *)

Module BigEndian.

(** [byte(v)]: the low eight bits. *)
Definition byte_of (v : Z) : Byte.byte :=
  match Byte.of_N (Z.to_N (Z.land v 255)) with
  | Some b => b
  | None => Byte.x00
  end.

(** [uint64(b)] of a byte. *)
Definition of_byte (b : Byte.byte) : Z := Z.of_N (Byte.to_N b).

(** The eight bytes [PutUint64] stores, most significant first. *)
Definition bytes64 (v : Z) : list Byte.byte :=
  [ byte_of (Z.shiftr v 56); byte_of (Z.shiftr v 48);
    byte_of (Z.shiftr v 40); byte_of (Z.shiftr v 32);
    byte_of (Z.shiftr v 24); byte_of (Z.shiftr v 16);
    byte_of (Z.shiftr v 8); byte_of v ].

(** [PutUint64(buf[lo:lo+8], v)]: slicing panics when the buffer is
    shorter than [lo+8]; otherwise the eight bytes at [lo] are
    overwritten and the rest of the buffer is kept. *)
Definition PutUint64 (lo : nat) (v : Z) (buf : list Byte.byte)
  : result (list Byte.byte) :=
  if decide (lo + 8 <= length buf)%nat
  then Ok (take lo buf ++ bytes64 v ++ drop (lo + 8) buf)
  else Panic.

(** [Uint64(data[lo:lo+8])]. *)
Definition Uint64 (lo : nat) (data : list Byte.byte) : result Z :=
  match take 8 (drop lo data) with
  | [b0; b1; b2; b3; b4; b5; b6; b7] =>
      Ok (Z.lor (of_byte b7)
         (Z.lor (Z.shiftl (of_byte b6) 8)
         (Z.lor (Z.shiftl (of_byte b5) 16)
         (Z.lor (Z.shiftl (of_byte b4) 24)
         (Z.lor (Z.shiftl (of_byte b3) 32)
         (Z.lor (Z.shiftl (of_byte b2) 40)
         (Z.lor (Z.shiftl (of_byte b1) 48)
                (Z.shiftl (of_byte b0) 56))))))))
  | _ => Panic
  end.

(** The number a byte string denotes when read most significant byte
    first (the meaning of big endian, independent of the bit operations
    above). *)
Definition be_value (bs : list Byte.byte) : Z :=
  fold_left (fun acc b => acc * 256 + of_byte b) bs 0.

End BigEndian.

(** ** float64 *)

(** Go's [float64] is IEEE 754 binary64, which is what the primitive
    floats are. Every operation is rounded on its own, as the compiler
    does on amd64 (it may fuse a multiplication and an addition on other
    targets). *)
Module F64.

Local Open Scope float_scope.

(** [float64(z)] of an integer: rounding to nearest, ties to even. *)
Definition of_Z (z : Z) : float :=
  SF2Prim (binary_normalize prec emax z 0 false).

(** [math.MaxFloat64]. *)
Definition MaxFloat64 : float := 0x1.fffffffffffffp+1023.

(** [float64(time.Millisecond)]: a millisecond in nanoseconds. *)
Definition Millisecond : float := of_Z 1000000.

(** The integer [math.Floor] yields on a finite argument. *)
Definition floorZ (x : float) : option Z :=
  match Prim2SF x with
  | S754_zero _ => Some 0%Z
  | S754_finite s m e =>
      let v := if s then Zneg m else Zpos m in
      Some (if (0 <=? e)%Z then v * 2 ^ e else v / 2 ^ (- e))%Z
  | _ => None
  end.

(** [math.Floor]: zeros, infinities and NaN are returned as they are. *)
Definition Floor (x : float) : float :=
  match floorZ x with
  | Some z => if is_zero x then x else of_Z z
  | None => x
  end.

(** [math.Ceil(x)] is [-Floor(-x)]. *)
Definition Ceil (x : float) : float := - Floor (- x).

(** [int(x)]: truncation toward zero. The language leaves the result
    open when the value does not fit (NaN, infinities, beyond int64): on
    amd64 it is the least [int64], and indexing with it panics. No value
    is given for those. *)
Definition to_int (x : float) : result Z :=
  match Prim2SF x with
  | S754_zero _ => Ok 0%Z
  | S754_finite s m e =>
      let v := (if (0 <=? e)%Z then Zpos m * 2 ^ e
                else Zpos m / 2 ^ (- e))%Z in
      let z := if s then (- v)%Z else v in
      if ((- Int.two63 <=? z) && (z <? Int.two63))%Z then Ok z else Panic
  | _ => Panic
  end.

(** [math.Abs]. *)
Definition Abs (x : float) : float := abs x.

(** [var sum float64; for _, v := range values { sum += v }]. *)
Definition sum (values : list float) : float :=
  fold_left (fun acc v => acc + v) values 0.

(** The order of [sort.Float64s]: NaN sorts before every number. *)
Definition less (x y : float) : bool :=
  (x <? y) || (is_nan x && negb (is_nan y)).

Fixpoint insert_sorted (x : float) (l : list float) : list float :=
  match l with
  | [] => [x]
  | y :: l' => if less y x then y :: insert_sorted x l' else x :: l
  end.

(** [sort.Float64s] on a copy of the slice. *)
Definition Float64s (l : list float) : list float :=
  fold_right insert_sorted [] l.

(** The mean of a sample, and the mean absolute deviation from it: the
    glossary's definition of jitter, to compare the code with. *)
Definition mean (l : list float) : float :=
  sum l / of_Z (Z.of_nat (length l)).

Definition mean_abs_deviation (l : list float) : float :=
  sum (map (fun x => Abs (x - mean l)) l) / of_Z (Z.of_nat (length l)).

(** A sample in ascending order: every element is at most every later
    one. *)
Definition ascending (l : list float) : Prop :=
  StronglySorted (fun x y => (x <=? y) = true) l.

(** [s[i]]: an index outside the slice panics. *)
Definition index (s : list float) (i : Z) : result float :=
  if (i <? 0)%Z then Panic
  else match s !! Z.to_nat i with
       | Some v => Ok v
       | None => Panic
       end.

End F64.

(** ** strconv and fmt *)

Module strconv.

Local Open Scope string_scope.

(** [strconv.FormatInt(v, 10)] and [strconv.FormatUint(v, 10)]. *)
Definition FormatInt (v : Z) : string := NilZero.string_of_int (Z.to_int v).
Definition FormatUint (v : Z) : string := NilZero.string_of_int (Z.to_int v).

(** The number a decimal string denotes, to read a formatted cell
    back. *)
Definition ParseInt (s : string) : option Z :=
  option_map Z.of_int (NilZero.int_of_string s).

(** [strconv.FormatBool], also the verb [%t]. *)
Definition FormatBool (b : bool) : string := if b then "true" else "false".

(** The decimal digits of [n], padded with zeros on the left to [d]
    digits. *)
Fixpoint digits (d : nat) (n : Z) : string :=
  match d with
  | O => EmptyString
  | S d' => digits d' (n / 10) ++ FormatInt (n mod 10)
  end.

(** [m * 2^e * 10^d] rounded to the nearest integer, ties to even. *)
Definition scaled (d : nat) (m : positive) (e : Z) : Z :=
  let num := Zpos m * 10 ^ Z.of_nat d in
  if (0 <=? e)%Z then num * 2 ^ e
  else
    let den := 2 ^ (- e) in
    let q := num / den in
    let r := num mod den in
    if (2 * r <? den)%Z then q
    else if (den <? 2 * r)%Z then q + 1
    else if Z.even q then q else q + 1.

Definition fixed (d : nat) (neg : bool) (n : Z) : string :=
  (if neg then "-" else EmptyString)
  ++ FormatInt (n / 10 ^ Z.of_nat d)
  ++ (match d with
      | O => EmptyString
      | _ => "." ++ digits d (n mod 10 ^ Z.of_nat d)
      end).

(** [fmt.Sprintf("%.<d>f", x)]. *)
Definition Sprintf_f (d : nat) (x : float) : string :=
  match Prim2SF x with
  | S754_nan => "NaN"
  | S754_infinity false => "+Inf"
  | S754_infinity true => "-Inf"
  | S754_zero s => fixed d s 0
  | S754_finite s m e => fixed d s (scaled d m e)
  end.

End strconv.

(** ** time *)

Module time.

Definition Second : Z := 1000000000.

(** [Duration.Seconds()]: whole seconds plus the rest over 1e9. *)
Definition Seconds (d : Z) : float :=
  (F64.of_Z (Z.quot d Second)
   + F64.of_Z (Z.rem d Second) / F64.of_Z Second)%float.

(** [time.NewTicker(d)] panics unless [d] is positive; the ticker is
    given by its period. *)
Definition NewTicker (d : Z) : result Z :=
  if d <=? 0 then Panic else Ok d.

End time.

(** ** The basic variant: 16-byte header, latency only *)

Module Basic.

(** *** packet.go *)
Module packet.

Definition SeqNumSize : Z := 8.
Definition TimestampSize : Z := 8.
Definition HeaderSize : Z := SeqNumSize + TimestampSize.

Record Packet : Type := mkPacket {
  SeqNum : Z;                  (* uint64 *)
  Timestamp : Z;               (* int64, Unix nanoseconds *)
  Payload : list Byte.byte
}.

(** [make([]byte, size)] panics on a negative size (and gives the zeroed
    slice otherwise, memory permitting). *)
Definition make_bytes (size : Z) : result (list Byte.byte) :=
  if size <? 0 then Panic else Ok (replicate (Z.to_nat size) Byte.x00).

Definition Encode (p : Packet) (size : Z) : result (list Byte.byte) :=
  buf <-! make_bytes size;
  buf <-! BigEndian.PutUint64 0 (SeqNum p) buf;
  buf <-! BigEndian.PutUint64 8 (Int.to_uint64 (Timestamp p)) buf;
  Ok buf.

(** The [nil] packet is [None]. *)
Definition DecodePacket (data : list Byte.byte) : result (option Packet) :=
  if Z.of_nat (length data) <? HeaderSize then Ok None
  else
    seq <-! BigEndian.Uint64 0 data;
    ts <-! BigEndian.Uint64 8 data;
    Ok (Some {| SeqNum := seq;
                Timestamp := Int.to_int64 ts;
                Payload := drop (Z.to_nat HeaderSize) data |}).

(** [now] is the reading of the clock. The payload is
    [make([]byte, size-HeaderSize)]. *)
Definition NewPacket (now : Z) (seqNum : Z) (size : Z) : result Packet :=
  payload <-! make_bytes (size - HeaderSize);
  Ok {| SeqNum := seqNum; Timestamp := now; Payload := payload |}.

End packet.

(** *** stats.go *)
Module stats.

Local Open Scope float_scope.

Record PacketRecord : Type := mkPacketRecord {
  SeqNum : Z;                  (* uint64 *)
  SentTime : Z;                (* int64, Unix nanoseconds *)
  RecvTime : Z;                (* int64, 0 if lost *)
  LatencyMs : float;
  Lost : bool
}.

(** The mutex only serialises the calls; each method is one
    transition of the state below. The map holds pointers, and a
    record is only ever changed through the map, so an update of the
    pointee is an update of the entry. *)
Record Stats : Type := mkStats {
  records : gmap Z PacketRecord;
  sent : Z;                    (* uint64 *)
  received : Z;                (* uint64 *)
  latencies : list float;
  minLat : float;
  maxLat : float;
  sumLat : float;
  lastPrintTime : Z;
  startTime : Z
}.

(** [printed] and [started] are the two readings of the clock. *)
Definition NewStats (printed started : Z) : Stats :=
  {| records := ∅; sent := 0; received := 0; latencies := [];
     minLat := F64.MaxFloat64; maxLat := 0; sumLat := 0;
     lastPrintTime := printed; startTime := started |}.

Definition RecordSent (seqNum sentTime : Z) (s : Stats) : Stats :=
  {| records :=
       <[seqNum := {| SeqNum := seqNum; SentTime := sentTime;
                      RecvTime := 0; LatencyMs := 0; Lost := true |}]>
         (records s);
     sent := Int.add64 (sent s) 1;
     received := received s; latencies := latencies s;
     minLat := minLat s; maxLat := maxLat s; sumLat := sumLat s;
     lastPrintTime := lastPrintTime s; startTime := startTime s |}.

Definition RecordReceived (seqNum recvTime : Z) (s : Stats) : Stats :=
  match records s !! seqNum with
  | None => s
  | Some record =>
      if Lost record then
        let lat :=
          F64.of_Z (Int.isub64 recvTime (SentTime record))
          / F64.Millisecond in
        {| records :=
             <[seqNum := {| SeqNum := SeqNum record;
                            SentTime := SentTime record;
                            RecvTime := recvTime;
                            LatencyMs := lat;
                            Lost := false |}]> (records s);
           sent := sent s;
           received := Int.add64 (received s) 1;
           latencies := latencies s ++ [lat];
           minLat := if lat <? minLat s then lat else minLat s;
           maxLat := if maxLat s <? lat then lat else maxLat s;
           sumLat := sumLat s + lat;
           lastPrintTime := lastPrintTime s; startTime := startTime s |}
      else s
  end.

(** What [PrintSummary] prints: the packet line and the latency
    lines, [None] standing for "no data (all packets lost)". *)
Record LatencyLine : Type := mkLatencyLine {
  ln_min : float; ln_avg : float; ln_max : float; ln_jitter : float
}.

Record Summary : Type := mkSummary {
  sum_sent : Z; sum_received : Z; sum_lost : Z;
  sum_lossPercent : float;
  sum_latency : option LatencyLine
}.

Definition PrintSummary (s : Stats) : Summary :=
  let lost := Int.sub64 (sent s) (received s) in
  let lossPercent :=
    if (0 <? sent s)%Z then F64.of_Z lost / F64.of_Z (sent s) * 100
    else 0 in
  let n := F64.of_Z (Z.of_nat (length (latencies s))) in
  {| sum_sent := sent s; sum_received := received s; sum_lost := lost;
     sum_lossPercent := lossPercent;
     sum_latency :=
       if (0 <? length (latencies s))%nat then
         let avgLat := sumLat s / n in
         let jitterSum :=
           fold_left (fun acc lat => acc + F64.Abs (lat - avgLat))
                     (latencies s) 0 in
         Some {| ln_min := minLat s; ln_avg := avgLat;
                 ln_max := maxLat s; ln_jitter := jitterSum / n |}
       else None |}.

(** The records in the order the map is ranged over, which the
    language leaves open; only order-independent facts are stated
    about it. *)
Definition GetRecords (s : Stats) : list PacketRecord :=
  (map_to_list (records s)).*2.

(** Sequences of calls on one aggregator, in the order the lock admits
    them. *)
Inductive call : Type :=
  | Sent (seqNum sentTime : Z)
  | Received (seqNum recvTime : Z).

Definition step (s : Stats) (c : call) : Stats :=
  match c with
  | Sent seqNum sentTime => RecordSent seqNum sentTime s
  | Received seqNum recvTime => RecordReceived seqNum recvTime s
  end.

Definition run (cs : list call) (s : Stats) : Stats := fold_left step cs s.

(** The sequence numbers passed to [RecordSent], in order. *)
Definition sent_seqs (cs : list call) : list Z :=
  omap (fun c => match c with Sent q _ => Some q | Received _ _ => None end) cs.

(** The number of stored records with [Lost = false]. *)
Definition resolved (s : Stats) : nat :=
  size (filter (fun kv : Z * PacketRecord => Lost kv.2 = false) (records s)).

(** The counters agree with the map and the sample list. *)
Definition consistent (s : Stats) : Prop :=
  sent s = Z.of_nat (size (records s))
  /\ received s = Z.of_nat (resolved s)
  /\ length (latencies s) = resolved s.

(** What [GetIntervalStats] returns; [now] is the reading of the clock. *)
Record IntervalStats : Type := mkIntervalStats {
  is_elapsed : Z;
  is_loss : float;
  is_min : float; is_avg : float; is_max : float;
  is_jitter : float
}.

Definition GetIntervalStats (now : Z) (s : Stats) : IntervalStats :=
  let elapsed := (now - startTime s)%Z in
  if (sent s =? 0)%Z then mkIntervalStats elapsed 0 0 0 0 0
  else
    let lost := Int.sub64 (sent s) (received s) in
    let loss := F64.of_Z lost / F64.of_Z (sent s) * 100 in
    if (length (latencies s) =? 0)%nat then mkIntervalStats elapsed loss 0 0 0 0
    else
      let n := F64.of_Z (Z.of_nat (length (latencies s))) in
      let avgLat := sumLat s / n in
      let jitterSum :=
        fold_left (fun acc lat => acc + F64.Abs (lat - avgLat))
                  (latencies s) 0 in
      mkIntervalStats elapsed loss (minLat s) avgLat (maxLat s)
                      (jitterSum / n).

(** What [PrintInterval] prints when five seconds have passed. *)
Record IntervalLine : Type := mkIntervalLine {
  iv_secs : result Z;
  iv_loss : float;
  iv_min : float; iv_avg : float; iv_max : float;
  iv_jitter : float;
  iv_spike : bool
}.

Definition PrintInterval (now : Z) (s : Stats) : Stats * option IntervalLine :=
  if (now - lastPrintTime s <? 5 * time.Second)%Z then (s, None)
  else
    let s' :=
      {| records := records s; sent := sent s; received := received s;
         latencies := latencies s;
         minLat := minLat s; maxLat := maxLat s; sumLat := sumLat s;
         lastPrintTime := now; startTime := startTime s |} in
    let st := GetIntervalStats now s' in
    (s', Some {| iv_secs := F64.to_int (time.Seconds (is_elapsed st));
                 iv_loss := is_loss st;
                 iv_min := is_min st; iv_avg := is_avg st;
                 iv_max := is_max st;
                 iv_jitter := is_jitter st;
                 iv_spike := 10 <? is_jitter st |}).

End stats.

(** *** server.go *)
Module server.

(** One turn of the loop of [RunServer]: [ReadFrom] fails, or it stores a
    datagram at the start of the buffer and names its sender; [werr] is
    the error of the [WriteTo] that follows, if any. *)
Inductive input : Type :=
  | ReadError (err : string)
  | Datagram (data : list Byte.byte) (clientAddr : string)
             (werr : option string).

(** What a turn prints and what it hands to [WriteTo]. *)
Inductive output : Type :=
  | ReadErrorPrinted (err : string)
  | NewClientPrinted (addrStr : string)
  | WriteTo (reply : list Byte.byte) (clientAddr : string)
  | WriteErrorPrinted (addrStr err : string).

Record state : Type := mkState {
  buf : list Byte.byte;
  clients : gmap string bool
}.

(** [buf := make([]byte, 65535)], [clients := make(map[string]bool)]. *)
Definition start : state :=
  {| buf := replicate (Z.to_nat 65535) Byte.x00; clients := ∅ |}.

(** [clients[addrStr]]: a missing key reads as [false]. *)
Definition known (clients : gmap string bool) (addrStr : string) : bool :=
  match clients !! addrStr with
  | Some b => b
  | None => false
  end.

Definition serve (st : state) (i : input) : state * list output :=
  match i with
  | ReadError err => (st, [ReadErrorPrinted err])
  | Datagram data clientAddr werr =>
      let n := length data in
      let buf' := data ++ drop n (buf st) in
      let fresh := negb (known (clients st) clientAddr) in
      ({| buf := buf';
          clients := if fresh then <[clientAddr := true]> (clients st)
                     else clients st |},
       (if fresh then [NewClientPrinted clientAddr] else [])
       ++ [WriteTo (take n buf') clientAddr]
       ++ match werr with
          | Some err => [WriteErrorPrinted clientAddr err]
          | None => []
          end)
  end.

(** The loop over the turns so far. *)
Fixpoint RunServer (st : state) (inputs : list input) : state * list output :=
  match inputs with
  | [] => (st, [])
  | i :: rest =>
      let '(st', out) := serve st i in
      let '(st'', out') := RunServer st' rest in
      (st'', out ++ out')
  end.

(** The datagrams among the inputs, the replies among the outputs and
    the clients announced, each in order. *)
Definition datagrams (inputs : list input) : list (list Byte.byte * string) :=
  omap (fun i => match i with
                 | Datagram data clientAddr _ => Some (data, clientAddr)
                 | ReadError _ => None
                 end) inputs.

Definition replies (out : list output) : list (list Byte.byte * string) :=
  omap (fun o => match o with
                 | WriteTo reply clientAddr => Some (reply, clientAddr)
                 | _ => None
                 end) out.

Definition announced (out : list output) : list string :=
  omap (fun o => match o with
                 | NewClientPrinted addrStr => Some addrStr
                 | _ => None
                 end) out.

End server.

(** *** client.go *)
Module client.

Import stats.

(** The rows handed to the CSV writer, header first. *)
Definition saveCSV (s : Stats) : list (list string) :=
  ["seq"; "sent_time"; "recv_time"; "latency_ms"; "lost"]%string
  :: map (fun r =>
            [ strconv.FormatUint (SeqNum r);
              strconv.FormatInt (Int.idiv64 (SentTime r) 1000000);
              strconv.FormatInt (Int.idiv64 (RecvTime r) 1000000);
              strconv.Sprintf_f 2 (LatencyMs r);
              strconv.FormatBool (Lost r) ])
         (GetRecords s).

(** The body of the receiver loop for the datagram [buf[:n]] read at
    [recvTime]. *)
Definition receive (recvTime : Z) (data : list Byte.byte) (s : Stats)
  : result Stats :=
  pkt <-! packet.DecodePacket data;
  Ok (match pkt with
      | Some p => RecordReceived (packet.SeqNum p) recvTime s
      | None => s
      end).

(** The sender's variables: the next sequence number, the aggregator it
    shares with the receiver, and the datagrams handed to [conn.Write]. *)
Record sender : Type := mkSender {
  seqNum : Z;                  (* uint64 *)
  stats : Stats;
  written : list (list Byte.byte)
}.

(** [var seqNum uint64 = 1] on a new aggregator. *)
Definition startSender (printed started : Z) : sender :=
  {| seqNum := 1; stats := NewStats printed started; written := [] |}.

(** One packet, of the steady loop or of a burst: [NewPacket], [Encode],
    [RecordSent], [conn.Write], [seqNum++]. *)
Definition sendPacket (PacketSize now : Z) (c : sender) : result sender :=
  pkt <-! packet.NewPacket now (seqNum c) PacketSize;
  data <-! packet.Encode pkt PacketSize;
  Ok {| seqNum := Int.add64 (seqNum c) 1;
        stats := RecordSent (seqNum c) (packet.Timestamp pkt) (stats c);
        written := written c ++ [data] |}.

(** What happens to the shared aggregator while the client runs, in the
    order the lock admits it: a packet is sent, the statistics ticker
    fires, or the receiver has read a datagram. *)
Inductive event : Type :=
  | PacketDue (now : Z)
  | StatsTick (now : Z)
  | Arrival (recvTime : Z) (data : list Byte.byte).

Definition handle (PacketSize : Z) (c : sender) (e : event) : result sender :=
  match e with
  | PacketDue now => sendPacket PacketSize now c
  | StatsTick now =>
      Ok {| seqNum := seqNum c;
            stats := (PrintInterval now (stats c)).1;
            written := written c |}
  | Arrival recvTime data =>
      s <-! receive recvTime data (stats c);
      Ok {| seqNum := seqNum c; stats := s; written := written c |}
  end.

Fixpoint events (PacketSize : Z) (c : sender) (es : list event)
  : result sender :=
  match es with
  | [] => Ok c
  | e :: rest => c' <-! handle PacketSize c e; events PacketSize c' rest
  end.

(** The number of packets due among the events. *)
Definition packets (es : list event) : nat :=
  length (List.filter
            (fun e => match e with PacketDue _ => true | _ => false end) es).

(** The ticker of the steady loop:
    [time.NewTicker(time.Second / time.Duration(cfg.Rate))]. The
    division is one of [int64] and panics on a zero divisor. *)
Definition steadyTicker (Rate : Z) : result Z :=
  if Rate =? 0 then Panic
  else time.NewTicker (Int.idiv64 time.Second Rate).

End client.

End Basic.

(** ** The extended variant: 24-byte header, server time, late packets *)

Module Extended.

(** *** packet.go *)
Module packet.

Definition SeqNumSize : Z := 8.
Definition TimestampSize : Z := 8.
Definition ProcTimeSize : Z := 8.
Definition HeaderSize : Z := SeqNumSize + TimestampSize + ProcTimeSize.

Record Packet : Type := mkPacket {
  SeqNum : Z;                  (* uint64 *)
  Timestamp : Z;               (* int64, client send time *)
  ServerProcNs : Z;            (* int64, server processing duration *)
  Payload : list Byte.byte
}.

Definition make_bytes (size : Z) : result (list Byte.byte) :=
  if size <? 0 then Panic else Ok (replicate (Z.to_nat size) Byte.x00).

Definition Encode (p : Packet) (size : Z) : result (list Byte.byte) :=
  buf <-! make_bytes size;
  buf <-! BigEndian.PutUint64 0 (SeqNum p) buf;
  buf <-! BigEndian.PutUint64 8 (Int.to_uint64 (Timestamp p)) buf;
  buf <-! BigEndian.PutUint64 16 (Int.to_uint64 (ServerProcNs p)) buf;
  Ok buf.

Definition DecodePacket (data : list Byte.byte) : result (option Packet) :=
  if Z.of_nat (length data) <? HeaderSize then Ok None
  else
    seq <-! BigEndian.Uint64 0 data;
    ts <-! BigEndian.Uint64 8 data;
    proc <-! BigEndian.Uint64 16 data;
    Ok (Some {| SeqNum := seq;
                Timestamp := Int.to_int64 ts;
                ServerProcNs := Int.to_int64 proc;
                Payload := drop (Z.to_nat HeaderSize) data |}).

(** The payload is [make([]byte, size-HeaderSize)]. *)
Definition NewPacket (seqNum : Z) (size : Z) (timestamp : Z) : result Packet :=
  payload <-! make_bytes (size - HeaderSize);
  Ok {| SeqNum := seqNum; Timestamp := timestamp; ServerProcNs := 0;
        Payload := payload |}.

End packet.

(** *** server.go *)
Module server.

(** One turn of the loop of [RunServer]; [procNs] is the reading of
    [time.Since(recvTime).Nanoseconds()], taken only for a datagram of
    at least [HeaderSize] bytes. *)
Inductive input : Type :=
  | ReadError (err : string)
  | Datagram (data : list Byte.byte) (clientAddr : string) (procNs : Z)
             (werr : option string).

Inductive output : Type :=
  | ReadErrorPrinted (err : string)
  | NewClientPrinted (addrStr : string)
  | WriteTo (reply : list Byte.byte) (clientAddr : string)
  | WriteErrorPrinted (addrStr err : string).

Record state : Type := mkState {
  buf : list Byte.byte;
  clients : gmap string bool
}.

Definition start : state :=
  {| buf := replicate (Z.to_nat 65535) Byte.x00; clients := ∅ |}.

Definition known (clients : gmap string bool) (addrStr : string) : bool :=
  match clients !! addrStr with
  | Some b => b
  | None => false
  end.

Definition serve (st : state) (i : input) : result (state * list output) :=
  match i with
  | ReadError err => Ok (st, [ReadErrorPrinted err])
  | Datagram data clientAddr procNs werr =>
      let n := length data in
      let buf' := data ++ drop n (buf st) in
      let fresh := negb (known (clients st) clientAddr) in
      buf'' <-! (if packet.HeaderSize <=? Z.of_nat n
                 then BigEndian.PutUint64 16 (Int.to_uint64 procNs) buf'
                 else Ok buf');
      Ok ({| buf := buf'';
             clients := if fresh then <[clientAddr := true]> (clients st)
                        else clients st |},
          (if fresh then [NewClientPrinted clientAddr] else [])
          ++ [WriteTo (take n buf'') clientAddr]
          ++ match werr with
             | Some err => [WriteErrorPrinted clientAddr err]
             | None => []
             end)
  end.

Fixpoint RunServer (st : state) (inputs : list input)
  : result (state * list output) :=
  match inputs with
  | [] => Ok (st, [])
  | i :: rest =>
      r <-! serve st i;
      r' <-! RunServer r.1 rest;
      Ok (r'.1, r.2 ++ r'.2)
  end.

(** The datagrams among the inputs, the replies among the outputs and
    the clients announced, each in order. *)
Definition datagrams (inputs : list input) : list (list Byte.byte * string) :=
  omap (fun i => match i with
                 | Datagram data clientAddr _ _ => Some (data, clientAddr)
                 | ReadError _ => None
                 end) inputs.

Definition replies (out : list output) : list (list Byte.byte * string) :=
  omap (fun o => match o with
                 | WriteTo reply clientAddr => Some (reply, clientAddr)
                 | _ => None
                 end) out.

Definition announced (out : list output) : list string :=
  omap (fun o => match o with
                 | NewClientPrinted addrStr => Some addrStr
                 | _ => None
                 end) out.

(** A datagram as the client gets it back: as it was when shorter than
    the header, else with bytes 16 to 23 replaced by the processing
    time. *)
Definition stamped (procNs : Z) (data : list Byte.byte) : list Byte.byte :=
  if (length data <? 24)%nat then data
  else take 16 data ++ BigEndian.bytes64 (Int.to_uint64 procNs)
       ++ drop 24 data.

Definition stamps (inputs : list input) : list (list Byte.byte * string) :=
  omap (fun i => match i with
                 | Datagram data clientAddr procNs _ =>
                     Some (stamped procNs data, clientAddr)
                 | ReadError _ => None
                 end) inputs.

(** [ReadFrom] fills at most the buffer. *)
Definition fits (i : input) : Prop :=
  match i with
  | Datagram data _ _ _ => Z.of_nat (length data) <= 65535
  | ReadError _ => True
  end.

End server.

(** *** stats.go *)
Module stats.

Local Open Scope float_scope.

Record PacketRecord : Type := mkPacketRecord {
  SeqNum : Z;                  (* uint64 *)
  SentTime : Z;                (* int64, Unix nanoseconds *)
  RecvTime : Z;                (* int64, 0 if lost *)
  LatencyMs : float;
  ServerProcMs : float;
  NetLatencyMs : float;
  Lost : bool;
  Late : bool
}.

Record Stats : Type := mkStats {
  records : gmap Z PacketRecord;
  sent : Z;                    (* uint64 *)
  received : Z;                (* uint64 *)
  late : Z;                    (* uint64 *)
  lateThreshold : float;       (* milliseconds *)
  latencies : list float;
  netLatencies : list float;
  serverProc : list float;
  minLat : float; maxLat : float; sumLat : float;
  minNet : float; maxNet : float; sumNet : float;
  minServer : float; maxServer : float; sumServer : float;
  windowStartNs : Z;           (* int64 *)
  windowSent : Z;              (* uint64 *)
  windowReceived : Z;          (* uint64 *)
  windowLate : Z;              (* uint64 *)
  windowLatencies : list float;
  windowNetLatency : list float;
  windowServerProc : list float;
  lastPrintTime : Z;
  startTime : Z
}.

(** [now] is the reading of the clock. *)
Definition NewStats (now : Z) (threshold : float) : Stats :=
  {| records := ∅; sent := 0; received := 0; late := 0;
     lateThreshold := threshold;
     latencies := []; netLatencies := []; serverProc := [];
     minLat := F64.MaxFloat64; maxLat := 0; sumLat := 0;
     minNet := F64.MaxFloat64; maxNet := 0; sumNet := 0;
     minServer := F64.MaxFloat64; maxServer := 0; sumServer := 0;
     windowStartNs := now;
     windowSent := 0; windowReceived := 0; windowLate := 0;
     windowLatencies := []; windowNetLatency := [];
     windowServerProc := [];
     lastPrintTime := now; startTime := now |}.

Definition RecordSent (seqNum sentTime : Z) (s : Stats) : Stats :=
  {| records :=
       <[seqNum := {| SeqNum := seqNum; SentTime := sentTime;
                      RecvTime := 0; LatencyMs := 0; ServerProcMs := 0;
                      NetLatencyMs := 0; Lost := true; Late := false |}]>
         (records s);
     sent := Int.add64 (sent s) 1;
     received := received s; late := late s;
     lateThreshold := lateThreshold s;
     latencies := latencies s; netLatencies := netLatencies s;
     serverProc := serverProc s;
     minLat := minLat s; maxLat := maxLat s; sumLat := sumLat s;
     minNet := minNet s; maxNet := maxNet s; sumNet := sumNet s;
     minServer := minServer s; maxServer := maxServer s;
     sumServer := sumServer s;
     windowStartNs := windowStartNs s;
     windowSent := Int.add64 (windowSent s) 1;
     windowReceived := windowReceived s; windowLate := windowLate s;
     windowLatencies := windowLatencies s;
     windowNetLatency := windowNetLatency s;
     windowServerProc := windowServerProc s;
     lastPrintTime := lastPrintTime s; startTime := startTime s |}.

(** The record as the first response leaves it. *)
Definition resolve (s : Stats) (record : PacketRecord)
    (recvTime serverProcNs : Z) : PacketRecord :=
  let latencyMs :=
    F64.of_Z (Int.isub64 recvTime (SentTime record)) / F64.Millisecond in
  let serverProcMs := F64.of_Z serverProcNs / F64.Millisecond in
  let netLatency := latencyMs - serverProcMs in
  let netLatency := if netLatency <? 0 then 0 else netLatency in
  {| SeqNum := SeqNum record; SentTime := SentTime record;
     RecvTime := recvTime;
     LatencyMs := latencyMs;
     ServerProcMs := serverProcMs;
     NetLatencyMs := netLatency;
     Lost := false;
     Late := if lateThreshold s <? latencyMs then true else Late record |}.

Definition RecordReceived (seqNum recvTime serverProcNs : Z) (s : Stats)
  : Stats :=
  match records s !! seqNum with
  | None => s
  | Some record =>
      if Lost record then
        let r := resolve s record recvTime serverProcNs in
        let inWindow := (windowStartNs s <=? SentTime r)%Z in
        {| records := <[seqNum := r]> (records s);
           sent := sent s;
           received := Int.add64 (received s) 1;
           late := if lateThreshold s <? LatencyMs r
                   then Int.add64 (late s) 1 else late s;
           lateThreshold := lateThreshold s;
           latencies := latencies s ++ [LatencyMs r];
           netLatencies := netLatencies s ++ [NetLatencyMs r];
           serverProc := serverProc s ++ [ServerProcMs r];
           minLat := if LatencyMs r <? minLat s
                     then LatencyMs r else minLat s;
           maxLat := if maxLat s <? LatencyMs r
                     then LatencyMs r else maxLat s;
           sumLat := sumLat s + LatencyMs r;
           minNet := if NetLatencyMs r <? minNet s
                     then NetLatencyMs r else minNet s;
           maxNet := if maxNet s <? NetLatencyMs r
                     then NetLatencyMs r else maxNet s;
           sumNet := sumNet s + NetLatencyMs r;
           minServer := if ServerProcMs r <? minServer s
                        then ServerProcMs r else minServer s;
           maxServer := if maxServer s <? ServerProcMs r
                        then ServerProcMs r else maxServer s;
           sumServer := sumServer s + ServerProcMs r;
           windowStartNs := windowStartNs s;
           windowSent := windowSent s;
           windowReceived :=
             if inWindow then Int.add64 (windowReceived s) 1
             else windowReceived s;
           windowLate :=
             if inWindow && Late r then Int.add64 (windowLate s) 1
             else windowLate s;
           windowLatencies :=
             if inWindow then windowLatencies s ++ [LatencyMs r]
             else windowLatencies s;
           windowNetLatency :=
             if inWindow then windowNetLatency s ++ [NetLatencyMs r]
             else windowNetLatency s;
           windowServerProc :=
             if inWindow then windowServerProc s ++ [ServerProcMs r]
             else windowServerProc s;
           lastPrintTime := lastPrintTime s; startTime := startTime s |}
      else s
  end.

Definition calcStats (values : list float)
  : float * float * float * float :=
  if (length values =? 0)%nat then (0, 0, 0, 0)
  else
    let '(sum, min, max) :=
      fold_left
        (fun '(sum, min, max) v =>
           (sum + v,
            if v <? min then v else min,
            if max <? v then v else max))
        values (0, F64.MaxFloat64, 0) in
    let n := F64.of_Z (Z.of_nat (length values)) in
    let avg := sum / n in
    let jitterSum :=
      fold_left (fun acc v => acc + F64.Abs (v - avg)) values 0 in
    (min, avg, max, jitterSum / n).

Definition avg (values : list float) : float :=
  if (length values =? 0)%nat then 0
  else F64.sum values / F64.of_Z (Z.of_nat (length values)).

Definition percentile (sorted : list float) (p : float) : result float :=
  let n := Z.of_nat (length sorted) in
  if (n =? 0)%Z then Ok 0
  else if p <=? 0 then F64.index sorted 0
  else if 100 <=? p then F64.index sorted (n - 1)
  else
    let pos := (p / 100) * F64.of_Z (n - 1) in
    lower <-! F64.to_int (F64.Floor pos);
    upper <-! F64.to_int (F64.Ceil pos);
    if (lower =? upper)%Z then F64.index sorted lower
    else
      let weight := pos - F64.of_Z lower in
      lo <-! F64.index sorted lower;
      hi <-! F64.index sorted upper;
      Ok (lo * (1 - weight) + hi * weight).

Definition percentiles (values : list float) (p50 p90 p99 : float)
  : result (float * float * float) :=
  if (length values =? 0)%nat then Ok (0, 0, 0)
  else
    let sorted := F64.Float64s values in
    a <-! percentile sorted p50;
    b <-! percentile sorted p90;
    c <-! percentile sorted p99;
    Ok (a, b, c).

(** What [PrintInterval] prints when five seconds have passed. *)
Record IntervalLine : Type := mkIntervalLine {
  iv_secs : result Z;
  iv_loss : float;
  iv_late : Z;
  iv_min : float; iv_avg : float; iv_max : float;
  iv_jitter : float;
  iv_avgNet : float; iv_avgServer : float;
  iv_spike : bool
}.

Definition Second : Z := 1000000000.

(** [Duration.Seconds()]. *)
Definition Seconds (d : Z) : float :=
  F64.of_Z (Z.quot d Second) + F64.of_Z (Z.rem d Second) / F64.of_Z Second.

(** [now] is the reading of the clock at the call. *)
Definition PrintInterval (now : Z) (s : Stats)
  : Stats * option IntervalLine :=
  if (now - lastPrintTime s <? 5 * Second)%Z then (s, None)
  else
    let elapsed := (now - startTime s)%Z in
    let loss :=
      if (0 <? windowSent s)%Z
      then F64.of_Z (Int.sub64 (windowSent s) (windowReceived s))
           / F64.of_Z (windowSent s) * 100
      else 0 in
    let '(minL, avgL, maxL, jitter) := calcStats (windowLatencies s) in
    ({| records := records s; sent := sent s; received := received s;
        late := late s; lateThreshold := lateThreshold s;
        latencies := latencies s; netLatencies := netLatencies s;
        serverProc := serverProc s;
        minLat := minLat s; maxLat := maxLat s; sumLat := sumLat s;
        minNet := minNet s; maxNet := maxNet s; sumNet := sumNet s;
        minServer := minServer s; maxServer := maxServer s;
        sumServer := sumServer s;
        windowStartNs := now;
        windowSent := 0; windowReceived := 0; windowLate := 0;
        windowLatencies := []; windowNetLatency := [];
        windowServerProc := [];
        lastPrintTime := now; startTime := startTime s |},
     Some {| iv_secs := F64.to_int (Seconds elapsed);
             iv_loss := loss; iv_late := windowLate s;
             iv_min := minL; iv_avg := avgL; iv_max := maxL;
             iv_jitter := jitter;
             iv_avgNet := avg (windowNetLatency s);
             iv_avgServer := avg (windowServerProc s);
             iv_spike := 10 <? jitter |}).

(** What [PrintSummary] prints. [None] for the RTT line is
    "RTT: no data (all packets lost)", [None] for the server line is
    "Server proc: no data"; the net line is left out when there is
    no sample. *)
Record RttLine : Type := mkRttLine {
  rtt_min : float; rtt_avg : float; rtt_max : float;
  rtt_p50 : float; rtt_p90 : float; rtt_p99 : float;
  rtt_jitter : float
}.

Record NetLine : Type := mkNetLine {
  net_min : float; net_avg : float; net_max : float;
  net_p50 : float; net_p90 : float; net_p99 : float
}.

Record ServerLine : Type := mkServerLine {
  srv_min : float; srv_avg : float; srv_max : float
}.

Record Summary : Type := mkSummary {
  sum_sent : Z; sum_received : Z; sum_lost : Z;
  sum_lossPercent : float;
  sum_late : Z;
  sum_latePercent : float;
  sum_lateThreshold : float;
  sum_rtt : option RttLine;
  sum_net : option NetLine;
  sum_server : option ServerLine
}.

Definition PrintSummary (s : Stats) : result Summary :=
  let lost := Int.sub64 (sent s) (received s) in
  let lossPercent :=
    if (0 <? sent s)%Z then F64.of_Z lost / F64.of_Z (sent s) * 100
    else 0 in
  let latePercent :=
    if (0 <? sent s)%Z then F64.of_Z (late s) / F64.of_Z (sent s) * 100
    else 0 in
  rtt <-! (if (0 <? length (latencies s))%nat then
             let n := F64.of_Z (Z.of_nat (length (latencies s))) in
             let avgLat := sumLat s / n in
             let jitterSum :=
               fold_left (fun acc lat => acc + F64.Abs (lat - avgLat))
                         (latencies s) 0 in
             let jitter := jitterSum / n in
             ps <-! percentiles (latencies s) 50 90 99;
             let '(p50, p90, p99) := ps in
             Ok (Some {| rtt_min := minLat s; rtt_avg := avgLat;
                         rtt_max := maxLat s;
                         rtt_p50 := p50; rtt_p90 := p90; rtt_p99 := p99;
                         rtt_jitter := jitter |})
           else Ok None);
  net <-! (if (0 <? length (netLatencies s))%nat then
             let avgNet :=
               sumNet s / F64.of_Z (Z.of_nat (length (netLatencies s))) in
             ps <-! percentiles (netLatencies s) 50 90 99;
             let '(p50, p90, p99) := ps in
             Ok (Some {| net_min := minNet s; net_avg := avgNet;
                         net_max := maxNet s;
                         net_p50 := p50; net_p90 := p90;
                         net_p99 := p99 |})
           else Ok None);
  Ok {| sum_sent := sent s; sum_received := received s;
        sum_lost := lost; sum_lossPercent := lossPercent;
        sum_late := late s; sum_latePercent := latePercent;
        sum_lateThreshold := lateThreshold s;
        sum_rtt := rtt; sum_net := net;
        sum_server :=
          if (0 <? length (serverProc s))%nat then
            Some {| srv_min := minServer s;
                    srv_avg := sumServer s
                      / F64.of_Z (Z.of_nat (length (serverProc s)));
                    srv_max := maxServer s |}
          else None |}.

(** The records in the order the map is ranged over, which the
    language leaves open; only order-independent facts are stated
    about it. *)
Definition GetRecords (s : Stats) : list PacketRecord :=
  (map_to_list (records s)).*2.

(** Sequences of calls on one aggregator, in the order the lock admits
    them. *)
Inductive call : Type :=
  | Sent (seqNum sentTime : Z)
  | Received (seqNum recvTime serverProcNs : Z).

Definition step (s : Stats) (c : call) : Stats :=
  match c with
  | Sent seqNum sentTime => RecordSent seqNum sentTime s
  | Received seqNum recvTime serverProcNs =>
      RecordReceived seqNum recvTime serverProcNs s
  end.

Definition run (cs : list call) (s : Stats) : Stats := fold_left step cs s.

(** The sequence numbers passed to [RecordSent], in order. *)
Definition sent_seqs (cs : list call) : list Z :=
  omap (fun c => match c with Sent q _ => Some q | Received _ _ _ => None end)
       cs.

(** The number of stored records with [Lost = false]. *)
Definition resolved (s : Stats) : nat :=
  size (filter (fun kv : Z * PacketRecord => Lost kv.2 = false) (records s)).

(** The counters agree with the map and the sample list. *)
Definition consistent (s : Stats) : Prop :=
  sent s = Z.of_nat (size (records s))
  /\ received s = Z.of_nat (resolved s)
  /\ length (latencies s) = resolved s
  /\ length (netLatencies s) = resolved s
  /\ length (serverProc s) = resolved s.

(** The running aggregates are those of the sample list, and the three
    sample lists grow together. *)
Definition aggregated (s : Stats) : Prop :=
  sumLat s = F64.sum (latencies s)
  /\ minLat s
     = fold_left (fun m v => if v <? m then v else m) (latencies s)
         F64.MaxFloat64
  /\ maxLat s
     = fold_left (fun m v => if m <? v then v else m) (latencies s) 0
  /\ length (netLatencies s) = length (latencies s)
  /\ length (serverProc s) = length (latencies s).

(** No [RecordReceived] of the sequence finds its sequence number in the
    map at the time of the call. *)
Fixpoint unanswered (s : Stats) (cs : list call) : Prop :=
  match cs with
  | [] => True
  | c :: cs' =>
      match c with
      | Sent _ _ => True
      | Received q _ _ => records s !! q = None
      end /\ unanswered (step s c) cs'
  end.

(** What every stored record satisfies, for the late threshold [thr]:
    it sits under its own sequence number; while lost it is as
    [RecordSent] made it; once resolved its latency is the time between
    send and receive in milliseconds, its net latency is not below zero
    and it is late exactly when the latency is above the threshold. *)
Definition stored (thr : float) (q : Z) (r : PacketRecord) : Prop :=
  SeqNum r = q
  /\ if Lost r
     then RecvTime r = 0%Z /\ LatencyMs r = 0 /\ ServerProcMs r = 0
          /\ NetLatencyMs r = 0 /\ Late r = false
     else LatencyMs r
          = F64.of_Z (Int.isub64 (RecvTime r) (SentTime r)) / F64.Millisecond
          /\ (NetLatencyMs r <? 0) = false
          /\ Late r = (thr <? LatencyMs r).

(** The number of stored records with [Late = true]. *)
Definition lates (s : Stats) : nat :=
  size (filter (fun kv : Z * PacketRecord => Late kv.2 = true) (records s)).

(** The calls together with the turns of the statistics ticker. *)
Inductive event : Type :=
  | Call (c : call)
  | Interval (now : Z).

Definition play (es : list event) (s : Stats) : Stats :=
  fold_left (fun s e => match e with
                        | Call c => step s c
                        | Interval now => (PrintInterval now s).1
                        end) es s.

Definition calls (es : list event) : list call :=
  omap (fun e => match e with Call c => Some c | Interval _ => None end) es.

(** The number of samples above the threshold. *)
Definition above (thr : float) (values : list float) : nat :=
  length (List.filter (fun v => thr <? v) values).

(** The window holds what was received since it was opened: its
    counters are those of its sample lists, which are part of the
    lifetime samples. *)
Definition windowed (thr : float) (s : Stats) : Prop :=
  windowReceived s = Z.of_nat (length (windowLatencies s))
  /\ windowLate s = Z.of_nat (above thr (windowLatencies s))
  /\ length (windowNetLatency s) = length (windowLatencies s)
  /\ length (windowServerProc s) = length (windowLatencies s)
  /\ sublist (windowLatencies s) (latencies s).

(** What [PrintSummary], [GetRecords] and the CSV export read. *)
Definition lifetime (s : Stats) :=
  (records s, (sent s, received s, late s), lateThreshold s,
   (latencies s, netLatencies s, serverProc s),
   (minLat s, maxLat s, sumLat s),
   (minNet s, maxNet s, sumNet s),
   (minServer s, maxServer s, sumServer s)).

(** The invariant of an aggregator made by [NewStats thr]. *)
Definition sound (thr : float) (s : Stats) : Prop :=
  lateThreshold s = thr
  /\ consistent s
  /\ aggregated s
  /\ windowed thr s
  /\ map_Forall (stored thr) (records s)
  /\ late s = Z.of_nat (lates s)
  /\ late s = Z.of_nat (above thr (latencies s)).

End stats.

(** *** client.go *)
Module client.

Import stats.

(** [saveCSV] as the client kept with the sources has it (the second
    file of src/packet.go). That client is the revision with the late
    threshold and without the server time: it calls the two-argument
    [RecordReceived]. Its export is read here over the records of the
    extended aggregator, which have every field it writes. *)
Definition csvHeader : list string :=
  ["seq"; "sent_time"; "recv_time"; "latency_ms"; "lost"; "late"]%string.

Definition csvRow (r : PacketRecord) : list string :=
  [ strconv.FormatUint (SeqNum r);
    strconv.FormatInt (Int.idiv64 (SentTime r) 1000000);
    strconv.FormatInt (Int.idiv64 (RecvTime r) 1000000);
    strconv.Sprintf_f 2 (LatencyMs r);
    strconv.FormatBool (Lost r);
    strconv.FormatBool (Late r) ].

(** The rows handed to the CSV writer, header first. *)
Definition saveCSV (s : Stats) : list (list string) :=
  csvHeader :: map csvRow (GetRecords s).

(** Modelled from the spec: the CSV export of the extended client. The
    client that feeds the extended aggregator (three-argument
    [RecordReceived], with the server time) is not among the sources,
    and so its [saveCSV] is missing; only the records it exports
    ([PacketRecord] with [ServerProcMs], [NetLatencyMs] and [Late]) and
    the reader of the file ([GeneratePlot] of src/plot.go, which looks
    for net_latency_ms and server_proc_ms) are there. The spec gives the
    export the columns seq, sent_time, recv_time, latency_ms, lost and,
    in the extended variant, server_proc_ms, net_latency_ms, late, with
    the timestamps in milliseconds since the epoch. The cells that the
    kept revisions write as well are formatted as there; the two
    further ones like latency_ms, which the spec leaves open. *)
Definition csvHeaderSpec : list string :=
  ["seq"; "sent_time"; "recv_time"; "latency_ms"; "lost";
   "server_proc_ms"; "net_latency_ms"; "late"]%string.

Definition csvRowSpec (r : PacketRecord) : list string :=
  [ strconv.FormatUint (SeqNum r);
    strconv.FormatInt (Int.idiv64 (SentTime r) 1000000);
    strconv.FormatInt (Int.idiv64 (RecvTime r) 1000000);
    strconv.Sprintf_f 2 (LatencyMs r);
    strconv.FormatBool (Lost r);
    strconv.Sprintf_f 2 (ServerProcMs r);
    strconv.Sprintf_f 2 (NetLatencyMs r);
    strconv.FormatBool (Late r) ].

Definition saveCSVSpec (s : Stats) : list (list string) :=
  csvHeaderSpec :: map csvRowSpec (GetRecords s).

End client.

End Extended.

(** ** plot.go *)

Module plot.

Local Open Scope float_scope.

(** The ASCII part of [strings.TrimSpace]: tab, line feed, vertical tab,
    form feed, carriage return and space are cut from both ends. *)
Definition is_space (c : ascii) : bool :=
  let n := nat_of_ascii c in
  ((9 <=? n) && (n <=? 13))%nat || (n =? 32)%nat.

Fixpoint trim_left (s : string) : string :=
  match s with
  | String c s' => if is_space c then trim_left s' else s
  | EmptyString => EmptyString
  end.

Fixpoint trim_right (s : string) : string :=
  match s with
  | String c s' =>
      match trim_right s' with
      | EmptyString => if is_space c then EmptyString
                       else String c EmptyString
      | t => String c t
      end
  | EmptyString => EmptyString
  end.

Definition TrimSpaceASCII (s : string) : string := trim_right (trim_left s).

(** [strings.Replace(s, old, new, 1)]: the first occurrence only. *)
Fixpoint Replace1 (s old new : string) : string :=
  if String.prefix old s
  then (new ++ String.substring (String.length old)
                 (String.length s - String.length old) s)%string
  else match s with
       | String c s' => String c (Replace1 s' old new)
       | EmptyString => EmptyString
       end.

Definition dquote : string := String "034"%char EmptyString.

(** A key of the JSON object, with its quotes and colon. *)
Definition key (k : string) : string := (dquote ++ k ++ dquote ++ ":")%string.

Inductive outcome : Type :=
  | Failed (err : string)
  | Generated (html : string).

Record totals : Type := mkTotals {
  dataJSON : string;
  totalPackets : Z;
  lostPackets : Z;
  totalLatency : float;
  maxLatency : float;
  totalNet : float;
  totalServer : float;
  receivedCount : Z
}.

Section GeneratePlot.

(** [strings.TrimSpace]. *)
Variable TrimSpace : string -> string.
(** [strconv.ParseFloat(s, 64)]: the value and whether [err == nil]. *)
Variable ParseFloat : string -> float * bool.
(** The page with its placeholders. *)
Variable htmlTemplate : string.

(** [colIndex[strings.TrimSpace(col)] = i] for every column of the
    header, from left to right. *)
Fixpoint fill (colIndex : gmap string nat) (i : nat) (header : list string)
  : gmap string nat :=
  match header with
  | [] => colIndex
  | col :: rest => fill (<[TrimSpace col := i]> colIndex) (S i) rest
  end.

Definition colIndex (header : list string) : gmap string nat :=
  fill ∅ 0 header.

(** Lookup by header name, as the spec asks for it: the position of the
    column whose trimmed name is [name]; of several columns with the
    name, the last. Written without the map of the code, by a search
    of the header. *)
Fixpoint position (name : string) (header : list string) : option nat :=
  match header with
  | [] => None
  | col :: rest =>
      match position name rest with
      | Some j => Some (S j)
      | None => if String.eqb (TrimSpace col) name then Some 0%nat else None
      end
  end.

(** The cell of a record in the column called [name]. *)
Definition named (header : list string) (name : string)
    (record : list string) : option string :=
  match position name header with
  | Some j => record !! j
  | None => None
  end.

(** [record[idx]] behind the guard [has && idx < len(record)]. *)
Definition cell (idx : option nat) (record : list string) : option string :=
  match idx with
  | Some i => record !! i
  | None => None
  end.

(** One turn of the loop over the data rows. *)
Definition row (seqIdx recvIdx latIdx lostIdx : nat)
    (netIdx serverIdx : option nat)
    (t : totals) (i : nat) (record : list string) : totals :=
  match record !! seqIdx, record !! recvIdx,
        record !! latIdx, record !! lostIdx with
  | Some seq, Some recvTime, Some latCell, Some lostCell =>
      let latency := fst (ParseFloat latCell) in
      let lost := String.eqb lostCell "true" in
      let '(netJSON, totalNet') :=
        match cell netIdx record with
        | Some c =>
            let '(netVal, ok) := ParseFloat c in
            if ok then (strconv.Sprintf_f 2 netVal,
                        if lost then totalNet t else totalNet t + netVal)
            else ("null"%string, totalNet t)
        | None => ("null"%string, totalNet t)
        end in
      let '(serverJSON, totalServer') :=
        match cell serverIdx record with
        | Some c =>
            let '(serverVal, ok) := ParseFloat c in
            if ok then (strconv.Sprintf_f 2 serverVal,
                        if lost then totalServer t
                        else totalServer t + serverVal)
            else ("null"%string, totalServer t)
        | None => ("null"%string, totalServer t)
        end in
      {| dataJSON :=
           (dataJSON t
            ++ (if (0 <? i)%nat then "," else EmptyString)
            ++ "{" ++ key "seq" ++ seq
            ++ "," ++ key "recvTime" ++ recvTime
            ++ "," ++ key "latency" ++ strconv.Sprintf_f 2 latency
            ++ "," ++ key "net" ++ netJSON
            ++ "," ++ key "server" ++ serverJSON
            ++ "," ++ key "lost" ++ strconv.FormatBool lost
            ++ "}")%string;
         totalPackets := (totalPackets t + 1)%Z;
         lostPackets := if lost then (lostPackets t + 1)%Z
                        else lostPackets t;
         totalLatency := if lost then totalLatency t
                         else totalLatency t + latency;
         maxLatency := if lost then maxLatency t
                       else if maxLatency t <? latency then latency
                            else maxLatency t;
         totalNet := totalNet';
         totalServer := totalServer';
         receivedCount := if lost then receivedCount t
                          else (receivedCount t + 1)%Z |}
  | _, _, _, _ => t
  end.

(** [for i, record := range rows]. *)
Fixpoint rows (step : totals -> nat -> list string -> totals)
    (t : totals) (i : nat) (rs : list (list string)) : totals :=
  match rs with
  | [] => t
  | record :: rest => rows step (step t i record) (S i) rest
  end.

(** The page for the totals of the loop. *)
Definition render (hasNet hasServer : bool) (t : totals) : string :=
  let lossPercent :=
    if (0 <? totalPackets t)%Z
    then F64.of_Z (lostPackets t) / F64.of_Z (totalPackets t) * 100
    else 0 in
  let avgLatency :=
    if (0 <? receivedCount t)%Z
    then totalLatency t / F64.of_Z (receivedCount t) else 0 in
  let avgNet :=
    if (0 <? receivedCount t)%Z && hasNet
    then (strconv.Sprintf_f 1 (totalNet t / F64.of_Z (receivedCount t))
          ++ "ms")%string
    else "N/A"%string in
  let avgServer :=
    if (0 <? receivedCount t)%Z && hasServer
    then (strconv.Sprintf_f 1 (totalServer t / F64.of_Z (receivedCount t))
          ++ "ms")%string
    else "N/A"%string in
  let html := htmlTemplate in
  let html := Replace1 html "{{TOTAL_PACKETS}}"
                (strconv.FormatInt (totalPackets t)) in
  let html := Replace1 html "{{LOSS_PERCENT}}"
                (strconv.Sprintf_f 2 lossPercent) in
  let html := Replace1 html "{{AVG_LATENCY}}"
                (strconv.Sprintf_f 1 avgLatency) in
  let html := Replace1 html "{{MAX_LATENCY}}"
                (strconv.Sprintf_f 1 (maxLatency t)) in
  let html := Replace1 html "{{AVG_NET_LATENCY}}" avgNet in
  let html := Replace1 html "{{AVG_SERVER_PROC}}" avgServer in
  Replace1 html "{{DATA_JSON}}" (dataJSON t ++ "]")%string.

(** [records] is what [csv.Reader.ReadAll] returned for the file; the
    outcome is the error or the page written next to it. *)
Definition GeneratePlot (records : list (list string)) : outcome :=
  if (length records <? 2)%nat
  then Failed "CSV file is empty or has no data rows"
  else
    let header := hd [] records in
    let colIndex := colIndex header in
    match colIndex !! "seq"%string with
    | None => Failed "CSV missing required column: seq"
    | Some seqIdx =>
    match colIndex !! "recv_time"%string with
    | None => Failed "CSV missing required column: recv_time"
    | Some recvIdx =>
    match colIndex !! "latency_ms"%string with
    | None => Failed "CSV missing required column: latency_ms"
    | Some latIdx =>
    match colIndex !! "lost"%string with
    | None => Failed "CSV missing required column: lost"
    | Some lostIdx =>
        let netIdx := colIndex !! "net_latency_ms"%string in
        let serverIdx := colIndex !! "server_proc_ms"%string in
        let t :=
          rows (row seqIdx recvIdx latIdx lostIdx netIdx serverIdx)
               {| dataJSON := "["; totalPackets := 0; lostPackets := 0;
                  totalLatency := 0; maxLatency := 0; totalNet := 0;
                  totalServer := 0; receivedCount := 0 |}
               0 (tail records) in
        Generated (render (bool_decide (is_Some netIdx))
                          (bool_decide (is_Some serverIdx)) t)
    end end end end.

(** The revision of [GeneratePlot] before the header lookup was added:
    the first row is skipped unread and the columns are taken by
    position. *)
Definition rowByPosition (t : totals) (i : nat) (record : list string)
  : totals :=
  if (length record <? 5)%nat then t
  else
    match record !! 0%nat, record !! 2%nat, record !! 3%nat, record !! 4%nat with
    | Some seq, Some recvTime, Some latCell, Some lostCell =>
        let latency := fst (ParseFloat latCell) in
        let lost := String.eqb lostCell "true" in
        {| dataJSON :=
             (dataJSON t
              ++ (if (0 <? i)%nat then "," else EmptyString)
              ++ "{" ++ key "seq" ++ seq
              ++ "," ++ key "recvTime" ++ recvTime
              ++ "," ++ key "latency" ++ strconv.Sprintf_f 2 latency
              ++ "," ++ key "lost" ++ strconv.FormatBool lost
              ++ "}")%string;
           totalPackets := (totalPackets t + 1)%Z;
           lostPackets := if lost then (lostPackets t + 1)%Z
                          else lostPackets t;
           totalLatency := if lost then totalLatency t
                           else totalLatency t + latency;
           maxLatency := if lost then maxLatency t
                         else if maxLatency t <? latency then latency
                              else maxLatency t;
           totalNet := totalNet t;
           totalServer := totalServer t;
           receivedCount := receivedCount t |}
    | _, _, _, _ => t
    end.

Definition GeneratePlotByPosition (records : list (list string)) : outcome :=
  if (length records <? 2)%nat
  then Failed "CSV file is empty or has no data rows"
  else
    let t :=
      rows rowByPosition
           {| dataJSON := "["; totalPackets := 0; lostPackets := 0;
              totalLatency := 0; maxLatency := 0; totalNet := 0;
              totalServer := 0; receivedCount := 0 |}
           0 (tail records) in
    let lossPercent :=
      if (0 <? totalPackets t)%Z
      then F64.of_Z (lostPackets t) / F64.of_Z (totalPackets t) * 100
      else 0 in
    let avgLatency :=
      if (0 <? totalPackets t - lostPackets t)%Z
      then totalLatency t / F64.of_Z (totalPackets t - lostPackets t)
      else 0 in
    let html := htmlTemplate in
    let html := Replace1 html "{{TOTAL_PACKETS}}"
                  (strconv.FormatInt (totalPackets t)) in
    let html := Replace1 html "{{LOSS_PERCENT}}"
                  (strconv.Sprintf_f 2 lossPercent) in
    let html := Replace1 html "{{AVG_LATENCY}}"
                  (strconv.Sprintf_f 1 avgLatency) in
    let html := Replace1 html "{{MAX_LATENCY}}"
                  (strconv.Sprintf_f 1 (maxLatency t)) in
    Generated (Replace1 html "{{DATA_JSON}}" (dataJSON t ++ "]")%string).

End GeneratePlot.

(** The columns of a record in another order: column [j] of the result
    is column [perm[j]] of the record. *)
Definition reorder (perm : list nat) (record : list string) : list string :=
  map (fun i => match record !! i with Some c => c | None => EmptyString end)
      perm.

(** A reading of plain decimal numbers ([-12.5], [7]) for the
    examples: sign, digits, optional fraction; anything else is a
    syntax error with value 0. *)
Fixpoint digits_of (s : string) (acc : Z) : option Z :=
  match s with
  | EmptyString => Some acc
  | String c s' =>
      let n := nat_of_ascii c in
      if ((48 <=? n) && (n <=? 57))%nat
      then digits_of s' (acc * 10 + Z.of_nat (n - 48))%Z
      else None
  end.

Definition split_dot (s : string) : string * string :=
  match String.index 0 "." s with
  | Some n => (String.substring 0 n s,
               String.substring (S n) (String.length s - S n) s)
  | None => (s, EmptyString)
  end.

Definition ParseDecimal (s : string) : float * bool :=
  let '(neg, body) :=
    match s with
    | String "-"%char s' => (true, s')
    | _ => (false, s)
    end in
  let '(ip, fp) := split_dot body in
  match ip, digits_of (ip ++ fp)%string 0 with
  | String _ _, Some n =>
      let v := F64.of_Z n / F64.of_Z (10 ^ Z.of_nat (String.length fp)) in
      (if neg then - v else v, true)
  | _, _ => (0, false)
  end.

End plot.

(** ** main.go *)

Module main.

(** The flags after [flag.Parse()]. *)
Record flags : Type := mkFlags {
  serverMode : bool;
  clientMode : bool;
  host : string;
  port : Z;
  packetSize : Z;
  rate : Z;
  duration : Z;
  output : string;
  burst : bool;
  burstSize : Z;
  noPlot : bool;
  lateThreshold : float;
  plotFile : string
}.

Record ClientConfig : Type := mkClientConfig {
  Host : string;
  Port : Z;
  PacketSize : Z;
  Rate : Z;
  Duration : Z;
  OutputFile : string;
  Burst : bool;
  BurstSize : Z;
  NoPlot : bool;
  LateThreshold : float
}.

(** What [main] goes on to do: generate a plot, run one of the two
    modes, or print a message and exit with status 1. *)
Inductive action : Type :=
  | Plot (csvFile : string)
  | Exit1 (message : string)
  | Server (port : Z)
  | Client (cfg : ClientConfig).

(** [HeaderSize] is the constant of the packet file the program is built
    with. *)
Definition main (HeaderSize : Z) (f : flags) : action :=
  if negb (String.eqb (plotFile f) EmptyString) then Plot (plotFile f)
  else if serverMode f && clientMode f
  then Exit1 "Error: cannot use both --server and --client"
  else if negb (serverMode f) && negb (clientMode f)
  then Exit1 "Error: must specify --server or --client mode"
  else if packetSize f <? HeaderSize
  then Exit1 ("Error: packet-size must be at least "
              ++ strconv.FormatInt HeaderSize ++ " bytes")%string
  else if serverMode f then Server (port f)
  else Client {| Host := host f; Port := port f;
                 PacketSize := packetSize f; Rate := rate f;
                 Duration := duration f; OutputFile := output f;
                 Burst := burst f; BurstSize := burstSize f;
                 NoPlot := noPlot f; LateThreshold := lateThreshold f |}.

End main.

(** * Properties *)

(** ** Bytes and big-endian words *)

Section WireFacts.

Import BigEndian.

Lemma of_byte_range (b : Byte.byte) : 0 <= of_byte b < 256.
Proof.
  unfold of_byte. pose proof (Byte.to_N_bounded b). lia.
Qed.

Lemma of_byte_of (v : Z) : of_byte (byte_of v) = Z.land v 255.
Proof.
  unfold of_byte, byte_of.
  assert (Hr : 0 <= Z.land v 255 < 256).
  { change 255 with (Z.ones 8). rewrite Z.land_ones by lia.
    apply Z.mod_pos_bound. lia. }
  destruct (Byte.of_N (Z.to_N (Z.land v 255))) as [b|] eqn:E.
  - apply Byte.to_of_N in E. rewrite E. lia.
  - apply Byte.of_N_None_iff in E. lia.
Qed.

Lemma byte_of_of (b : Byte.byte) : byte_of (of_byte b) = b.
Proof.
  unfold byte_of, of_byte.
  pose proof (Byte.to_N_bounded b) as Hb.
  change 255 with (Z.ones 8). rewrite Z.land_ones by lia.
  rewrite Z.mod_small by lia. rewrite N2Z.id.
  by rewrite Byte.of_to_N.
Qed.

(** A byte taken out of a word and put back in its place is the word
    under the mask of that place. *)
Lemma shift_mask (v : Z) (k : Z) :
  0 <= k ->
  Z.shiftl (Z.land (Z.shiftr v k) 255) k = Z.land v (Z.shiftl 255 k).
Proof.
  intros Hk. apply Z.bits_inj'. intros n Hn.
  rewrite Z.land_spec.
  destruct (Z.lt_ge_cases n k) as [Hlt|Hge].
  - rewrite !Z.shiftl_spec_low by lia. by rewrite andb_false_r.
  - rewrite !Z.shiftl_spec by lia. rewrite Z.land_spec.
    rewrite Z.shiftr_spec by lia. f_equal. f_equal. lia.
Qed.

Lemma lor_disjoint (a c k : Z) :
  0 <= k -> 0 <= a < 2 ^ k -> 0 <= c ->
  Z.lor a (c * 2 ^ k) = a + c * 2 ^ k.
Proof.
  intros Hk Ha Hc.
  assert (Hl : Z.land a (c * 2 ^ k) = 0).
  { apply Z.bits_inj'. intros n Hn. rewrite Z.land_spec, Z.bits_0.
    destruct (Z.lt_ge_cases n k) as [Hlt|Hge].
    - rewrite Z.mul_pow2_bits_low by lia. by rewrite andb_false_r.
    - destruct (Z.eq_dec a 0) as [->|Hne]; [by rewrite Z.bits_0|].
      rewrite (Z.bits_above_log2 a n); [done|lia|].
      apply Z.log2_lt_pow2; [lia|].
      apply Z.lt_le_trans with (2 ^ k); [lia|].
      apply Z.pow_le_mono_r; lia. }
  rewrite <- Z.lxor_lor by done. symmetry. by apply Z.add_nocarry_lxor.
Qed.

(** The bit operations of [Uint64] compute the big-endian value. *)
Lemma Uint64_be_value (lo : nat) (data : list Byte.byte) (v : Z) :
  Uint64 lo data = Ok v -> v = be_value (take 8 (drop lo data)).
Proof.
  unfold Uint64.
  destruct (take 8 (drop lo data))
    as [|b0 [|b1 [|b2 [|b3 [|b4 [|b5 [|b6 [|b7 [|? ?]]]]]]]]]; try done.
  intros [= <-]. unfold be_value. simpl.
  pose proof (of_byte_range b0). pose proof (of_byte_range b1).
  pose proof (of_byte_range b2). pose proof (of_byte_range b3).
  pose proof (of_byte_range b4). pose proof (of_byte_range b5).
  pose proof (of_byte_range b6). pose proof (of_byte_range b7).
  rewrite !Z.shiftl_mul_pow2 by lia.
  rewrite (lor_disjoint (of_byte b1 * 2 ^ 48) (of_byte b0) 56) by lia.
  replace (of_byte b1 * 2 ^ 48 + of_byte b0 * 2 ^ 56)
    with ((of_byte b1 + of_byte b0 * 2 ^ 8) * 2 ^ 48) by lia.
  rewrite (lor_disjoint (of_byte b2 * 2 ^ 40)) by lia.
  replace (of_byte b2 * 2 ^ 40 + (of_byte b1 + of_byte b0 * 2 ^ 8) * 2 ^ 48)
    with ((of_byte b2 + of_byte b1 * 2 ^ 8 + of_byte b0 * 2 ^ 16) * 2 ^ 40)
    by lia.
  rewrite (lor_disjoint (of_byte b3 * 2 ^ 32)) by lia.
  replace (of_byte b3 * 2 ^ 32
           + (of_byte b2 + of_byte b1 * 2 ^ 8 + of_byte b0 * 2 ^ 16) * 2 ^ 40)
    with ((of_byte b3 + of_byte b2 * 2 ^ 8 + of_byte b1 * 2 ^ 16
           + of_byte b0 * 2 ^ 24) * 2 ^ 32) by lia.
  rewrite (lor_disjoint (of_byte b4 * 2 ^ 24)) by lia.
  replace (of_byte b4 * 2 ^ 24
           + (of_byte b3 + of_byte b2 * 2 ^ 8 + of_byte b1 * 2 ^ 16
              + of_byte b0 * 2 ^ 24) * 2 ^ 32)
    with ((of_byte b4 + of_byte b3 * 2 ^ 8 + of_byte b2 * 2 ^ 16
           + of_byte b1 * 2 ^ 24 + of_byte b0 * 2 ^ 32) * 2 ^ 24) by lia.
  rewrite (lor_disjoint (of_byte b5 * 2 ^ 16)) by lia.
  replace (of_byte b5 * 2 ^ 16
           + (of_byte b4 + of_byte b3 * 2 ^ 8 + of_byte b2 * 2 ^ 16
              + of_byte b1 * 2 ^ 24 + of_byte b0 * 2 ^ 32) * 2 ^ 24)
    with ((of_byte b5 + of_byte b4 * 2 ^ 8 + of_byte b3 * 2 ^ 16
           + of_byte b2 * 2 ^ 24 + of_byte b1 * 2 ^ 32
           + of_byte b0 * 2 ^ 40) * 2 ^ 16) by lia.
  rewrite (lor_disjoint (of_byte b6 * 2 ^ 8)) by lia.
  replace (of_byte b6 * 2 ^ 8
           + (of_byte b5 + of_byte b4 * 2 ^ 8 + of_byte b3 * 2 ^ 16
              + of_byte b2 * 2 ^ 24 + of_byte b1 * 2 ^ 32
              + of_byte b0 * 2 ^ 40) * 2 ^ 16)
    with ((of_byte b6 + of_byte b5 * 2 ^ 8 + of_byte b4 * 2 ^ 16
           + of_byte b3 * 2 ^ 24 + of_byte b2 * 2 ^ 32
           + of_byte b1 * 2 ^ 40 + of_byte b0 * 2 ^ 48) * 2 ^ 8) by lia.
  rewrite (lor_disjoint (of_byte b7)) by lia.
  lia.
Qed.

Lemma Uint64_bytes64 (lo : nat) (data : list Byte.byte) (v : Z) :
  take 8 (drop lo data) = bytes64 v ->
  Uint64 lo data = Ok (v mod Int.two64).
Proof.
  intros E. unfold Uint64. rewrite E. unfold bytes64. f_equal.
  rewrite !of_byte_of.
  rewrite !shift_mask by lia.
  replace (Z.land v 255) with (Z.land v (Z.shiftl 255 0)) by done.
  rewrite <- !Z.land_lor_distr_r.
  change (Z.lor _ _) with (Z.ones 64).
  apply Z.land_ones. lia.
Qed.

Lemma PutUint64_spec lo v buf buf' :
  PutUint64 lo v buf = Ok buf' ->
  (lo + 8 <= length buf)%nat
  /\ exists bs, bs = bytes64 v /\ length bs = 8%nat
                /\ buf' = take lo buf ++ bs ++ drop (lo + 8) buf.
Proof.
  unfold PutUint64. remember (bytes64 v) as bs eqn:Hbs.
  assert (length bs = 8%nat) by (by subst bs).
  case_decide as Hlen; [|done]. intros Heq.
  split; [done|]. exists bs. repeat split; [done|congruence].
Qed.

Lemma PutUint64_length lo v buf buf' :
  PutUint64 lo v buf = Ok buf' -> length buf' = length buf.
Proof.
  intros (Hlen & bs & _ & Hbs & ->)%PutUint64_spec.
  rewrite !length_app, length_take, length_drop. lia.
Qed.

Lemma PutUint64_ok lo v buf :
  (lo + 8 <= length buf)%nat -> exists buf', PutUint64 lo v buf = Ok buf'.
Proof.
  intros Hlen. unfold PutUint64. case_decide; [eauto|lia].
Qed.

Lemma PutUint64_same lo v buf buf' :
  PutUint64 lo v buf = Ok buf' -> take 8 (drop lo buf') = bytes64 v.
Proof.
  intros (Hlen & bs & <- & Hbs & ->)%PutUint64_spec.
  rewrite drop_app_length' by (rewrite length_take; lia).
  by rewrite take_app_length'.
Qed.

Lemma PutUint64_other lo lo' v buf buf' :
  PutUint64 lo v buf = Ok buf' ->
  (lo' + 8 <= lo \/ lo + 8 <= lo')%nat ->
  take 8 (drop lo' buf') = take 8 (drop lo' buf).
Proof.
  intros (Hlen & bs & _ & Hbs & ->)%PutUint64_spec Hsep.
  apply list_eq. intros i.
  destruct (decide (i < 8)%nat) as [Hi|Hi].
  2:{ by rewrite !lookup_take_ge by lia. }
  rewrite !lookup_take_lt by lia. rewrite !lookup_drop.
  destruct Hsep as [Hbefore|Hafter].
  - rewrite lookup_app_l by (rewrite length_take; lia).
    by rewrite lookup_take_lt by lia.
  - rewrite lookup_app_r by (rewrite length_take; lia).
    rewrite lookup_app_r by (rewrite length_take; lia).
    rewrite lookup_drop, length_take. f_equal. lia.
Qed.

Lemma Uint64_ok lo data :
  (lo + 8 <= length data)%nat -> exists v, Uint64 lo data = Ok v.
Proof.
  intros Hlen. unfold Uint64.
  assert (Hl : length (take 8 (drop lo data)) = 8%nat).
  { rewrite length_take, length_drop. lia. }
  destruct (take 8 (drop lo data))
    as [|b0 [|b1 [|b2 [|b3 [|b4 [|b5 [|b6 [|b7 [|? ?]]]]]]]]];
    simpl in Hl; try lia.
  eauto.
Qed.

Lemma to_uint64_id v : Int.is_uint64 v -> v mod Int.two64 = v.
Proof. unfold Int.is_uint64. intros H. by apply Z.mod_small. Qed.

Lemma to_int64_to_uint64 v :
  Int.is_int64 v -> Int.to_int64 (Int.to_uint64 v mod Int.two64) = v.
Proof.
  unfold Int.is_int64, Int.to_int64, Int.to_uint64, Int.two63, Int.two64.
  change (2 ^ 64) with 18446744073709551616.
  change (2 ^ 63) with 9223372036854775808.
  intros H. rewrite !Z.mod_mod by lia.
  destruct (Z.ltb_spec (v mod 18446744073709551616) 9223372036854775808);
    Z.div_mod_to_equations; lia.
Qed.

End WireFacts.

(** ** The packet codec *)

Section CodecFacts.

Import BigEndian.

Lemma basic_encode_ok (p : Basic.packet.Packet) (size : Z) :
  Basic.packet.HeaderSize <= size ->
  exists buf,
    Basic.packet.Encode p size = Ok buf
    /\ Z.of_nat (length buf) = size
    /\ take 8 buf = bytes64 (Basic.packet.SeqNum p)
    /\ take 8 (drop 8 buf)
       = bytes64 (Int.to_uint64 (Basic.packet.Timestamp p)).
Proof.
  intros Hsize. change Basic.packet.HeaderSize with 16 in Hsize.
  unfold Basic.packet.Encode, Basic.packet.make_bytes.
  destruct (Z.ltb_spec size 0) as [?|_]; [lia|]. simpl.
  set (buf0 := replicate (Z.to_nat size) Byte.x00).
  assert (H0 : length buf0 = Z.to_nat size) by apply length_replicate.
  destruct (PutUint64_ok 0 (Basic.packet.SeqNum p) buf0) as [buf1 E1];
    [lia|].
  rewrite E1. simpl.
  pose proof (PutUint64_length _ _ _ _ E1) as H1.
  destruct (PutUint64_ok 8 (Int.to_uint64 (Basic.packet.Timestamp p)) buf1)
    as [buf2 E2]; [lia|].
  rewrite E2. simpl.
  pose proof (PutUint64_length _ _ _ _ E2) as H2.
  exists buf2. repeat split.
  - lia.
  - change (take 8 buf2) with (take 8 (drop 0 buf2)).
    rewrite (PutUint64_other _ 0 _ _ _ E2) by lia.
    apply (PutUint64_same _ _ _ _ E1).
  - apply (PutUint64_same _ _ _ _ E2).
Qed.

Lemma extended_encode_ok (p : Extended.packet.Packet) (size : Z) :
  Extended.packet.HeaderSize <= size ->
  exists buf,
    Extended.packet.Encode p size = Ok buf
    /\ Z.of_nat (length buf) = size
    /\ take 8 buf = bytes64 (Extended.packet.SeqNum p)
    /\ take 8 (drop 8 buf)
       = bytes64 (Int.to_uint64 (Extended.packet.Timestamp p))
    /\ take 8 (drop 16 buf)
       = bytes64 (Int.to_uint64 (Extended.packet.ServerProcNs p)).
Proof.
  intros Hsize. change Extended.packet.HeaderSize with 24 in Hsize.
  unfold Extended.packet.Encode, Extended.packet.make_bytes.
  destruct (Z.ltb_spec size 0) as [?|_]; [lia|]. simpl.
  set (buf0 := replicate (Z.to_nat size) Byte.x00).
  assert (H0 : length buf0 = Z.to_nat size) by apply length_replicate.
  destruct (PutUint64_ok 0 (Extended.packet.SeqNum p) buf0) as [buf1 E1];
    [lia|].
  rewrite E1. simpl.
  pose proof (PutUint64_length _ _ _ _ E1) as H1.
  destruct (PutUint64_ok 8 (Int.to_uint64 (Extended.packet.Timestamp p)) buf1)
    as [buf2 E2]; [lia|].
  rewrite E2. simpl.
  pose proof (PutUint64_length _ _ _ _ E2) as H2.
  destruct (PutUint64_ok 16
              (Int.to_uint64 (Extended.packet.ServerProcNs p)) buf2)
    as [buf3 E3]; [lia|].
  rewrite E3. simpl.
  pose proof (PutUint64_length _ _ _ _ E3) as H3.
  exists buf3. repeat split.
  - lia.
  - change (take 8 buf3) with (take 8 (drop 0 buf3)).
    rewrite (PutUint64_other _ 0 _ _ _ E3) by lia.
    rewrite (PutUint64_other _ 0 _ _ _ E2) by lia.
    apply (PutUint64_same _ _ _ _ E1).
  - rewrite (PutUint64_other _ 8 _ _ _ E3) by lia.
    apply (PutUint64_same _ _ _ _ E2).
  - apply (PutUint64_same _ _ _ _ E3).
Qed.

Lemma Uint64_value (lo : nat) (data : list Byte.byte) :
  (lo + 8 <= length data)%nat ->
  Uint64 lo data = Ok (be_value (take 8 (drop lo data))).
Proof.
  intros Hlen. destruct (Uint64_ok lo data Hlen) as [v E].
  rewrite E. f_equal. by apply Uint64_be_value.
Qed.

End CodecFacts.

(** C3. Encoding a packet to any size of at least the header and decoding
    the bytes gives back the sequence number and the send timestamp (and,
    with the 24-byte header, the server processing nanoseconds); the
    encoder does not panic and the decoder does not return nil. The
    fields range over their Go types, [uint64] and [int64]. *)
Theorem encode_decode_roundtrip :
  (forall (p : Basic.packet.Packet) (size : Z),
      Int.is_uint64 (Basic.packet.SeqNum p) ->
      Int.is_int64 (Basic.packet.Timestamp p) ->
      Basic.packet.HeaderSize <= size ->
      exists buf q,
        Basic.packet.Encode p size = Ok buf
        /\ Z.of_nat (length buf) = size
        /\ Basic.packet.DecodePacket buf = Ok (Some q)
        /\ Basic.packet.SeqNum q = Basic.packet.SeqNum p
        /\ Basic.packet.Timestamp q = Basic.packet.Timestamp p)
  /\
  (forall (p : Extended.packet.Packet) (size : Z),
      Int.is_uint64 (Extended.packet.SeqNum p) ->
      Int.is_int64 (Extended.packet.Timestamp p) ->
      Int.is_int64 (Extended.packet.ServerProcNs p) ->
      Extended.packet.HeaderSize <= size ->
      exists buf q,
        Extended.packet.Encode p size = Ok buf
        /\ Z.of_nat (length buf) = size
        /\ Extended.packet.DecodePacket buf = Ok (Some q)
        /\ Extended.packet.SeqNum q = Extended.packet.SeqNum p
        /\ Extended.packet.Timestamp q = Extended.packet.Timestamp p
        /\ Extended.packet.ServerProcNs q = Extended.packet.ServerProcNs p).
Proof.
  split.
  - intros p size Hseq Hts Hsize.
    destruct (basic_encode_ok p size Hsize) as (buf & E & Hlen & Hs & Ht).
    exists buf. unfold Basic.packet.DecodePacket.
    change Basic.packet.HeaderSize with 16 in *.
    destruct (Z.ltb_spec (Z.of_nat (length buf)) 16) as [Hlt|_]; [lia|].
    rewrite (Uint64_bytes64 0 buf _ Hs), (Uint64_bytes64 8 buf _ Ht). simpl.
    eexists. repeat split; [exact E|exact Hlen| |].
    + simpl. by apply to_uint64_id.
    + simpl. by apply to_int64_to_uint64.
  - intros p size Hseq Hts Hproc Hsize.
    destruct (extended_encode_ok p size Hsize)
      as (buf & E & Hlen & Hs & Ht & Hp).
    exists buf. unfold Extended.packet.DecodePacket.
    change Extended.packet.HeaderSize with 24 in *.
    destruct (Z.ltb_spec (Z.of_nat (length buf)) 24) as [Hlt|_]; [lia|].
    rewrite (Uint64_bytes64 0 buf _ Hs), (Uint64_bytes64 8 buf _ Ht),
      (Uint64_bytes64 16 buf _ Hp). simpl.
    eexists. repeat split; [exact E|exact Hlen| | |].
    + simpl. by apply to_uint64_id.
    + simpl. by apply to_int64_to_uint64.
    + simpl. by apply to_int64_to_uint64.
Qed.

Lemma encode_decode_roundtrip_witness :
  (exists buf q,
      Basic.packet.Encode (Basic.packet.mkPacket 258 (-1) []) 18 = Ok buf
      /\ Z.of_nat (length buf) = 18
      /\ Basic.packet.DecodePacket buf = Ok (Some q)
      /\ Basic.packet.SeqNum q = 258
      /\ Basic.packet.Timestamp q = -1)
  /\
  (exists buf q,
      Extended.packet.Encode (Extended.packet.mkPacket 7 1700000000 (-5) []) 24
        = Ok buf
      /\ Z.of_nat (length buf) = 24
      /\ Extended.packet.DecodePacket buf = Ok (Some q)
      /\ Extended.packet.SeqNum q = 7
      /\ Extended.packet.Timestamp q = 1700000000
      /\ Extended.packet.ServerProcNs q = -5).
Proof.
  split.
  - apply (proj1 encode_decode_roundtrip (Basic.packet.mkPacket 258 (-1) []) 18);
      unfold Int.is_uint64, Int.is_int64, Int.two64, Int.two63,
        Basic.packet.HeaderSize, Basic.packet.SeqNumSize,
        Basic.packet.TimestampSize; simpl; lia.
  - apply (proj2 encode_decode_roundtrip
             (Extended.packet.mkPacket 7 1700000000 (-5) []) 24);
      unfold Int.is_uint64, Int.is_int64, Int.two64, Int.two63,
        Extended.packet.HeaderSize, Extended.packet.SeqNumSize,
        Extended.packet.TimestampSize, Extended.packet.ProcTimeSize;
      simpl; lia.
Defined.

(** C4. [DecodePacket] returns nil on every input shorter than the
    header (16 bytes, or 24 with the server time), and on every other
    input a packet whose fields are the big-endian values of the bytes at
    the fixed offsets and whose payload is the rest of the input. *)
Theorem decode_short_none_else_fields :
  (forall data : list Byte.byte,
      Basic.packet.DecodePacket data
      = if (length data <? 16)%nat then Ok None
        else Ok (Some
          {| Basic.packet.SeqNum := BigEndian.be_value (take 8 data);
             Basic.packet.Timestamp :=
               Int.to_int64 (BigEndian.be_value (take 8 (drop 8 data)));
             Basic.packet.Payload := drop 16 data |}))
  /\
  (forall data : list Byte.byte,
      Extended.packet.DecodePacket data
      = if (length data <? 24)%nat then Ok None
        else Ok (Some
          {| Extended.packet.SeqNum := BigEndian.be_value (take 8 data);
             Extended.packet.Timestamp :=
               Int.to_int64 (BigEndian.be_value (take 8 (drop 8 data)));
             Extended.packet.ServerProcNs :=
               Int.to_int64 (BigEndian.be_value (take 8 (drop 16 data)));
             Extended.packet.Payload := drop 24 data |})).
Proof.
  split; intros data.
  - unfold Basic.packet.DecodePacket.
    change Basic.packet.HeaderSize with 16.
    destruct (Nat.ltb_spec (length data) 16) as [Hlt|Hge].
    + destruct (Z.ltb_spec (Z.of_nat (length data)) 16); [done|lia].
    + destruct (Z.ltb_spec (Z.of_nat (length data)) 16); [lia|].
      rewrite !Uint64_value by lia. done.
  - unfold Extended.packet.DecodePacket.
    change Extended.packet.HeaderSize with 24.
    destruct (Nat.ltb_spec (length data) 24) as [Hlt|Hge].
    + destruct (Z.ltb_spec (Z.of_nat (length data)) 24); [done|lia].
    + destruct (Z.ltb_spec (Z.of_nat (length data)) 24); [lia|].
      rewrite !Uint64_value by lia. done.
Qed.

(** ** The aggregator, extended variant *)

Section ExtendedStatsFacts.

Import Extended.stats.

Lemma ext_received_unknown q t p s :
  records s !! q = None -> RecordReceived q t p s = s.
Proof. intros H. unfold RecordReceived. by rewrite H. Qed.

Lemma ext_received_resolved q t p s r :
  records s !! q = Some r -> Lost r = false -> RecordReceived q t p s = s.
Proof. intros H Hl. unfold RecordReceived. by rewrite H, Hl. Qed.

Lemma ext_received_first q t p s r :
  records s !! q = Some r -> Lost r = true ->
  records (RecordReceived q t p s) = <[q := resolve s r t p]> (records s)
  /\ sent (RecordReceived q t p s) = sent s
  /\ received (RecordReceived q t p s) = Int.add64 (received s) 1
  /\ latencies (RecordReceived q t p s)
     = latencies s ++ [LatencyMs (resolve s r t p)]
  /\ netLatencies (RecordReceived q t p s)
     = netLatencies s ++ [NetLatencyMs (resolve s r t p)]
  /\ serverProc (RecordReceived q t p s)
     = serverProc s ++ [ServerProcMs (resolve s r t p)].
Proof. intros H Hl. unfold RecordReceived. by rewrite H, Hl. Qed.

Lemma ext_received_twice q t1 p1 t2 p2 s :
  RecordReceived q t2 p2 (RecordReceived q t1 p1 s) = RecordReceived q t1 p1 s.
Proof.
  destruct (records s !! q) as [r|] eqn:E.
  - destruct (Lost r) eqn:El.
    + destruct (ext_received_first q t1 p1 s r E El) as (Hr & _).
      apply (ext_received_resolved q t2 p2 _ (resolve s r t1 p1)); [|done].
      rewrite Hr. apply lookup_insert_eq.
    + rewrite (ext_received_resolved q t1 p1 s r E El).
      by apply (ext_received_resolved q t2 p2 s r).
  - rewrite (ext_received_unknown q t1 p1 s E).
    by apply ext_received_unknown.
Qed.

(** The stored net latency after a resolving receive. *)
Lemma ext_resolve_net s r t p :
  let r' := resolve s r t p in
  let d := (LatencyMs r' - ServerProcMs r')%float in
  NetLatencyMs r' = (if (d <? 0)%float then 0%float else d)
  /\ (NetLatencyMs r' <? 0)%float = false.
Proof.
  intros r' d. assert (Hn : NetLatencyMs r' = (if (d <? 0)%float then 0%float else d)) by done.
  split; [done|]. rewrite Hn.
  destruct (d <? 0)%float eqn:E; [reflexivity|exact E].
Qed.

Lemma ext_resolved_le s : (resolved s <= size (records s))%nat.
Proof. apply map_subseteq_size, map_filter_subseteq. Qed.

Lemma ext_resolved_lt s q r :
  records s !! q = Some r -> Lost r = true ->
  (resolved s < size (records s))%nat.
Proof.
  intros H Hl. apply map_subset_size. split; [apply map_filter_subseteq|].
  intros Hsub. rewrite map_subseteq_spec in Hsub.
  specialize (Hsub q r H). apply map_lookup_filter_Some in Hsub as [_ Hf].
  simpl in Hf. congruence.
Qed.

Lemma ext_resolved_sent q t s :
  records s !! q = None -> resolved (RecordSent q t s) = resolved s.
Proof.
  intros H. unfold resolved. simpl.
  rewrite map_filter_insert_False by (simpl; congruence).
  by rewrite delete_id.
Qed.

Lemma ext_resolved_received q t p s r :
  records s !! q = Some r -> Lost r = true ->
  resolved (RecordReceived q t p s) = S (resolved s).
Proof.
  intros H Hl. destruct (ext_received_first q t p s r H Hl) as (Hr & _).
  unfold resolved. rewrite Hr.
  rewrite map_filter_insert_True by done.
  apply map_size_insert_None.
  apply map_lookup_filter_None. right. intros r0 H0. simpl.
  rewrite H in H0. injection H0 as <-. congruence.
Qed.

Lemma ext_size_received q t p s :
  size (records (RecordReceived q t p s)) = size (records s).
Proof.
  destruct (records s !! q) as [r|] eqn:E.
  - destruct (Lost r) eqn:El.
    + destruct (ext_received_first q t p s r E El) as (Hr & _).
      rewrite Hr. apply map_size_insert_Some. by eexists.
    + by rewrite (ext_received_resolved q t p s r).
  - by rewrite ext_received_unknown.
Qed.

Lemma ext_consistent_sent q t s :
  records s !! q = None ->
  Z.of_nat (size (records s)) + 1 < Int.two64 ->
  consistent s -> consistent (RecordSent q t s).
Proof.
  intros H Hb (Hs & Hr & Hl & Hn & Hp).
  unfold consistent. rewrite (ext_resolved_sent q t s H).
  repeat split; try done.
  simpl. rewrite map_size_insert_None by done.
  unfold Int.add64, Int.to_uint64. rewrite Hs.
  rewrite Z.mod_small by lia. lia.
Qed.

Lemma ext_consistent_received q t p s :
  Z.of_nat (size (records s)) < Int.two64 ->
  consistent s -> consistent (RecordReceived q t p s).
Proof.
  intros Hb Hi. pose proof Hi as (Hs & Hr & Hl & Hn & Hp).
  destruct (records s !! q) as [r|] eqn:E.
  - destruct (Lost r) eqn:El.
    + pose proof (ext_resolved_lt s q r E El) as Hlt.
      destruct (ext_received_first q t p s r E El)
        as (Hrec & Hsent & Hrecv & Hlat & Hnet & Hsrv).
      unfold consistent.
      rewrite (ext_resolved_received q t p s r E El), ext_size_received.
      rewrite Hsent, Hrecv, Hlat, Hnet, Hsrv, !length_app. simpl.
      repeat split; try lia.
      unfold Int.add64, Int.to_uint64. rewrite Hr.
      rewrite Z.mod_small by lia. lia.
    + by rewrite (ext_received_resolved q t p s r).
  - by rewrite ext_received_unknown.
Qed.

Lemma ext_lookup_received_None q q' t p s :
  records s !! q' = None -> records (RecordReceived q t p s) !! q' = None.
Proof.
  intros H. destruct (records s !! q) as [r|] eqn:E.
  - destruct (Lost r) eqn:El.
    + destruct (ext_received_first q t p s r E El) as (Hr & _). rewrite Hr.
      rewrite lookup_insert_ne; [done|]. intros ->. congruence.
    + by rewrite (ext_received_resolved q t p s r).
  - by rewrite ext_received_unknown.
Qed.

Lemma ext_run_consistent cs : forall s,
  consistent s ->
  NoDup (sent_seqs cs) ->
  (forall q, q ∈ sent_seqs cs -> records s !! q = None) ->
  Z.of_nat (size (records s)) + Z.of_nat (length (sent_seqs cs)) < Int.two64 ->
  consistent (run cs s)
  /\ size (records (run cs s))
     = (size (records s) + length (sent_seqs cs))%nat.
Proof.
  induction cs as [|c cs IH]; intros s Hi Hnd Hfresh Hb.
  - simpl. split; [done|lia].
  - change (run (c :: cs) s) with (run cs (step s c)).
    destruct c as [q t|q t p].
    + change (sent_seqs (Sent q t :: cs)) with (q :: sent_seqs cs) in *.
      change (step s (Sent q t)) with (RecordSent q t s).
      apply NoDup_cons in Hnd as [Hq Hnd].
      assert (Hnone : records s !! q = None) by (apply Hfresh; left).
      assert (Hsz1 : size (records (RecordSent q t s))
                     = S (size (records s))).
      { simpl. by rewrite map_size_insert_None. }
      simpl length in *.
      destruct (IH (RecordSent q t s)) as [Hi' Hsz].
      * apply ext_consistent_sent; [done|lia|done].
      * done.
      * intros q' Hq'. simpl. rewrite lookup_insert_ne.
        -- apply Hfresh. by right.
        -- intros ->. done.
      * rewrite Hsz1. lia.
      * split; [done|]. rewrite Hsz, Hsz1. lia.
    + change (sent_seqs (Received q t p :: cs)) with (sent_seqs cs) in *.
      change (step s (Received q t p)) with (RecordReceived q t p s).
      destruct (IH (RecordReceived q t p s)) as [Hi' Hsz].
      * apply ext_consistent_received; [lia|done].
      * done.
      * intros q' Hq'. apply ext_lookup_received_None. by apply Hfresh.
      * rewrite ext_size_received. lia.
      * split; [done|]. rewrite Hsz. by rewrite ext_size_received.
Qed.

Lemma ext_consistent_new now thr : consistent (NewStats now thr).
Proof.
  unfold consistent, resolved. simpl.
  rewrite map_filter_empty, map_size_empty. done.
Qed.

End ExtendedStatsFacts.

(** ** The aggregator, basic variant *)

Section BasicStatsFacts.

Import Basic.stats.

Lemma basic_received_unknown q t s :
  records s !! q = None -> RecordReceived q t s = s.
Proof. intros H. unfold RecordReceived. by rewrite H. Qed.

Lemma basic_received_resolved q t s r :
  records s !! q = Some r -> Lost r = false -> RecordReceived q t s = s.
Proof. intros H Hl. unfold RecordReceived. by rewrite H, Hl. Qed.

Lemma basic_received_first q t s r :
  records s !! q = Some r -> Lost r = true ->
  exists r',
    records (RecordReceived q t s) = <[q := r']> (records s)
    /\ Lost r' = false /\ RecvTime r' = t
    /\ SeqNum r' = SeqNum r /\ SentTime r' = SentTime r
    /\ LatencyMs r'
       = (F64.of_Z (Int.isub64 t (SentTime r)) / F64.Millisecond)%float
    /\ sent (RecordReceived q t s) = sent s
    /\ received (RecordReceived q t s) = Int.add64 (received s) 1
    /\ latencies (RecordReceived q t s) = latencies s ++ [LatencyMs r'].
Proof.
  intros H Hl. unfold RecordReceived. rewrite H, Hl.
  eexists. repeat split; reflexivity.
Qed.

Lemma basic_received_twice q t1 t2 s :
  RecordReceived q t2 (RecordReceived q t1 s) = RecordReceived q t1 s.
Proof.
  destruct (records s !! q) as [r|] eqn:E.
  - destruct (Lost r) eqn:El.
    + destruct (basic_received_first q t1 s r E El) as (r' & Hr & Hl' & _).
      apply (basic_received_resolved q t2 _ r'); [|done].
      rewrite Hr. apply lookup_insert_eq.
    + rewrite (basic_received_resolved q t1 s r E El).
      by apply (basic_received_resolved q t2 s r).
  - rewrite (basic_received_unknown q t1 s E).
    by apply basic_received_unknown.
Qed.

Lemma basic_resolved_le s : (resolved s <= size (records s))%nat.
Proof. apply map_subseteq_size, map_filter_subseteq. Qed.

Lemma basic_resolved_lt s q r :
  records s !! q = Some r -> Lost r = true ->
  (resolved s < size (records s))%nat.
Proof.
  intros H Hl. apply map_subset_size. split; [apply map_filter_subseteq|].
  intros Hsub. rewrite map_subseteq_spec in Hsub.
  specialize (Hsub q r H). apply map_lookup_filter_Some in Hsub as [_ Hf].
  simpl in Hf. congruence.
Qed.

Lemma basic_resolved_sent q t s :
  records s !! q = None -> resolved (RecordSent q t s) = resolved s.
Proof.
  intros H. unfold resolved. simpl.
  rewrite map_filter_insert_False by (simpl; congruence).
  by rewrite delete_id.
Qed.

Lemma basic_resolved_received q t s r :
  records s !! q = Some r -> Lost r = true ->
  resolved (RecordReceived q t s) = S (resolved s).
Proof.
  intros H Hl.
  destruct (basic_received_first q t s r H Hl) as (r' & Hr & Hl' & _).
  unfold resolved. rewrite Hr.
  rewrite map_filter_insert_True by done.
  apply map_size_insert_None.
  apply map_lookup_filter_None. right. intros r0 H0. simpl.
  rewrite H in H0. injection H0 as <-. congruence.
Qed.

Lemma basic_size_received q t s :
  size (records (RecordReceived q t s)) = size (records s).
Proof.
  destruct (records s !! q) as [r|] eqn:E.
  - destruct (Lost r) eqn:El.
    + destruct (basic_received_first q t s r E El) as (r' & Hr & _).
      rewrite Hr. apply map_size_insert_Some. by eexists.
    + by rewrite (basic_received_resolved q t s r).
  - by rewrite basic_received_unknown.
Qed.

Lemma basic_consistent_sent q t s :
  records s !! q = None ->
  Z.of_nat (size (records s)) + 1 < Int.two64 ->
  consistent s -> consistent (RecordSent q t s).
Proof.
  intros H Hb (Hs & Hr & Hl).
  unfold consistent. rewrite (basic_resolved_sent q t s H).
  repeat split; try done.
  simpl. rewrite map_size_insert_None by done.
  unfold Int.add64, Int.to_uint64. rewrite Hs.
  rewrite Z.mod_small by lia. lia.
Qed.

Lemma basic_consistent_received q t s :
  Z.of_nat (size (records s)) < Int.two64 ->
  consistent s -> consistent (RecordReceived q t s).
Proof.
  intros Hb Hi. pose proof Hi as (Hs & Hr & Hl).
  destruct (records s !! q) as [r|] eqn:E.
  - destruct (Lost r) eqn:El.
    + pose proof (basic_resolved_lt s q r E El) as Hlt.
      destruct (basic_received_first q t s r E El)
        as (r' & Hrec & _ & _ & _ & _ & _ & Hsent & Hrecv & Hlat).
      unfold consistent.
      rewrite (basic_resolved_received q t s r E El), basic_size_received.
      rewrite Hsent, Hrecv, Hlat, !length_app. simpl.
      repeat split; try lia.
      unfold Int.add64, Int.to_uint64. rewrite Hr.
      rewrite Z.mod_small by lia. lia.
    + by rewrite (basic_received_resolved q t s r).
  - by rewrite basic_received_unknown.
Qed.

Lemma basic_lookup_received_None q q' t s :
  records s !! q' = None -> records (RecordReceived q t s) !! q' = None.
Proof.
  intros H. destruct (records s !! q) as [r|] eqn:E.
  - destruct (Lost r) eqn:El.
    + destruct (basic_received_first q t s r E El) as (r' & Hr & _).
      rewrite Hr.
      rewrite lookup_insert_ne; [done|]. intros ->. congruence.
    + by rewrite (basic_received_resolved q t s r).
  - by rewrite basic_received_unknown.
Qed.

Lemma basic_run_consistent cs : forall s,
  consistent s ->
  NoDup (sent_seqs cs) ->
  (forall q, q ∈ sent_seqs cs -> records s !! q = None) ->
  Z.of_nat (size (records s)) + Z.of_nat (length (sent_seqs cs)) < Int.two64 ->
  consistent (run cs s)
  /\ size (records (run cs s))
     = (size (records s) + length (sent_seqs cs))%nat.
Proof.
  induction cs as [|c cs IH]; intros s Hi Hnd Hfresh Hb.
  - simpl. split; [done|lia].
  - change (run (c :: cs) s) with (run cs (step s c)).
    destruct c as [q t|q t].
    + change (sent_seqs (Sent q t :: cs)) with (q :: sent_seqs cs) in *.
      change (step s (Sent q t)) with (RecordSent q t s).
      apply NoDup_cons in Hnd as [Hq Hnd].
      assert (Hnone : records s !! q = None) by (apply Hfresh; left).
      assert (Hsz1 : size (records (RecordSent q t s))
                     = S (size (records s))).
      { simpl. by rewrite map_size_insert_None. }
      simpl length in *.
      destruct (IH (RecordSent q t s)) as [Hi' Hsz].
      * apply basic_consistent_sent; [done|lia|done].
      * done.
      * intros q' Hq'. simpl. rewrite lookup_insert_ne.
        -- apply Hfresh. by right.
        -- intros ->. done.
      * rewrite Hsz1. lia.
      * split; [done|]. rewrite Hsz, Hsz1. lia.
    + change (sent_seqs (Received q t :: cs)) with (sent_seqs cs) in *.
      change (step s (Received q t)) with (RecordReceived q t s).
      destruct (IH (RecordReceived q t s)) as [Hi' Hsz].
      * apply basic_consistent_received; [lia|done].
      * done.
      * intros q' Hq'. apply basic_lookup_received_None. by apply Hfresh.
      * rewrite basic_size_received. lia.
      * split; [done|]. rewrite Hsz. by rewrite basic_size_received.
Qed.

Lemma basic_consistent_new t0 t1 : consistent (NewStats t0 t1).
Proof.
  unfold consistent, resolved. simpl.
  rewrite map_filter_empty, map_size_empty. done.
Qed.

End BasicStatsFacts.

(** ** First response wins *)

(** C1. A [RecordReceived] for a sequence number the aggregator does not
    know, or for one that is already resolved, leaves the whole state as
    it is: the stored record, every counter, every sample list and every
    aggregate. In particular a second receive for the same sequence
    number changes nothing. The first matching receive for a record that
    is still lost stores the receive time and the latencies and clears
    [Lost]. Both variants. *)
Theorem received_unknown_or_resolved_is_noop :
  ((forall (s : Extended.stats.Stats) (q t p : Z),
       Extended.stats.records s !! q = None ->
       Extended.stats.RecordReceived q t p s = s)
   /\ (forall (s : Extended.stats.Stats) (q t p : Z) r,
       Extended.stats.records s !! q = Some r ->
       Extended.stats.Lost r = false ->
       Extended.stats.RecordReceived q t p s = s)
   /\ (forall (s : Extended.stats.Stats) (q t p t' p' : Z),
       Extended.stats.RecordReceived q t' p'
         (Extended.stats.RecordReceived q t p s)
       = Extended.stats.RecordReceived q t p s)
   /\ (forall (s : Extended.stats.Stats) (q t p : Z) r,
       Extended.stats.records s !! q = Some r ->
       Extended.stats.Lost r = true ->
       exists r',
         Extended.stats.records (Extended.stats.RecordReceived q t p s) !! q
           = Some r'
         /\ Extended.stats.Lost r' = false
         /\ Extended.stats.RecvTime r' = t
         /\ Extended.stats.SeqNum r' = Extended.stats.SeqNum r
         /\ Extended.stats.SentTime r' = Extended.stats.SentTime r
         /\ Extended.stats.LatencyMs r'
            = (F64.of_Z (Int.isub64 t (Extended.stats.SentTime r))
               / F64.Millisecond)%float
         /\ Extended.stats.ServerProcMs r'
            = (F64.of_Z p / F64.Millisecond)%float))
  /\
  ((forall (s : Basic.stats.Stats) (q t : Z),
       Basic.stats.records s !! q = None ->
       Basic.stats.RecordReceived q t s = s)
   /\ (forall (s : Basic.stats.Stats) (q t : Z) r,
       Basic.stats.records s !! q = Some r ->
       Basic.stats.Lost r = false ->
       Basic.stats.RecordReceived q t s = s)
   /\ (forall (s : Basic.stats.Stats) (q t t' : Z),
       Basic.stats.RecordReceived q t' (Basic.stats.RecordReceived q t s)
       = Basic.stats.RecordReceived q t s)
   /\ (forall (s : Basic.stats.Stats) (q t : Z) r,
       Basic.stats.records s !! q = Some r ->
       Basic.stats.Lost r = true ->
       exists r',
         Basic.stats.records (Basic.stats.RecordReceived q t s) !! q = Some r'
         /\ Basic.stats.Lost r' = false
         /\ Basic.stats.RecvTime r' = t
         /\ Basic.stats.SeqNum r' = Basic.stats.SeqNum r
         /\ Basic.stats.SentTime r' = Basic.stats.SentTime r
         /\ Basic.stats.LatencyMs r'
            = (F64.of_Z (Int.isub64 t (Basic.stats.SentTime r))
               / F64.Millisecond)%float)).
Proof.
  split; repeat split.
  - intros. by apply ext_received_unknown.
  - intros. by eapply ext_received_resolved.
  - intros. apply ext_received_twice.
  - intros s q t p r H Hl.
    destruct (ext_received_first q t p s r H Hl) as (Hr & _).
    exists (Extended.stats.resolve s r t p). rewrite Hr.
    split; [apply lookup_insert_eq|]. repeat split.
  - intros. by apply basic_received_unknown.
  - intros. by eapply basic_received_resolved.
  - intros. apply basic_received_twice.
  - intros s q t r H Hl.
    destruct (basic_received_first q t s r H Hl)
      as (r' & Hr & ? & ? & ? & ? & ? & _).
    exists r'. rewrite Hr. split; [apply lookup_insert_eq|]. done.
Qed.

Lemma received_unknown_or_resolved_is_noop_witness :
  let s0 := Extended.stats.RecordSent 1 0 (Extended.stats.NewStats 0 100) in
  let s1 := Extended.stats.RecordReceived 1 5000000 1000000 s0 in
  Extended.stats.RecordReceived 2 7000000 0 s1 = s1
  /\ Extended.stats.RecordReceived 1 9000000 0 s1 = s1
  /\ (exists r',
         Extended.stats.records s1 !! 1 = Some r'
         /\ Extended.stats.Lost r' = false
         /\ Extended.stats.RecvTime r' = 5000000
         /\ Extended.stats.SeqNum r' = 1
         /\ Extended.stats.SentTime r' = 0
         /\ Extended.stats.LatencyMs r'
            = (F64.of_Z (Int.isub64 5000000 0) / F64.Millisecond)%float
         /\ Extended.stats.ServerProcMs r'
            = (F64.of_Z 1000000 / F64.Millisecond)%float).
Proof.
  intros s0 s1.
  pose proof received_unknown_or_resolved_is_noop
    as [(Hunknown & Hresolved & _ & Hfirst) _].
  split; [|split].
  - apply Hunknown. reflexivity.
  - apply (Hresolved s1 1 9000000 0
             (Extended.stats.resolve s0
                (Extended.stats.mkPacketRecord 1 0 0 0 0 0 true false)
                5000000 1000000)); reflexivity.
  - apply (Hfirst s0 1 5000000 1000000
             (Extended.stats.mkPacketRecord 1 0 0 0 0 0 true false));
      reflexivity.
Defined.

(** ** Net latency *)

(** C9. A receive that resolves a record stores the round-trip latency,
    the server processing time, and as net latency their difference
    floored at zero: the difference when it is not below zero, zero
    otherwise. The stored net latency is never below zero. *)
Theorem net_latency_floored_at_zero :
  forall (s : Extended.stats.Stats) (q t p : Z) r,
    Extended.stats.records s !! q = Some r ->
    Extended.stats.Lost r = true ->
    exists r',
      Extended.stats.records (Extended.stats.RecordReceived q t p s) !! q
        = Some r'
      /\ Extended.stats.LatencyMs r'
         = (F64.of_Z (Int.isub64 t (Extended.stats.SentTime r))
            / F64.Millisecond)%float
      /\ Extended.stats.ServerProcMs r'
         = (F64.of_Z p / F64.Millisecond)%float
      /\ (let d := (Extended.stats.LatencyMs r'
                    - Extended.stats.ServerProcMs r')%float in
          Extended.stats.NetLatencyMs r'
          = if (d <? 0)%float then 0%float else d)
      /\ (Extended.stats.NetLatencyMs r' <? 0)%float = false
      /\ last (Extended.stats.netLatencies
                 (Extended.stats.RecordReceived q t p s))
         = Some (Extended.stats.NetLatencyMs r').
Proof.
  intros s q t p r H Hl.
  destruct (ext_received_first q t p s r H Hl)
    as (Hr & _ & _ & _ & Hnet & _).
  exists (Extended.stats.resolve s r t p). rewrite Hr, Hnet.
  split; [apply lookup_insert_eq|].
  destruct (ext_resolve_net s r t p) as [Hd Hn].
  repeat split; try done.
  by rewrite last_snoc.
Qed.

Lemma net_latency_floored_at_zero_witness :
  let s0 := Extended.stats.RecordSent 1 0 (Extended.stats.NewStats 0 100) in
  exists r',
    Extended.stats.records
      (Extended.stats.RecordReceived 1 5000000 7000000 s0) !! 1 = Some r'
    /\ Extended.stats.LatencyMs r'
       = (F64.of_Z (Int.isub64 5000000 0) / F64.Millisecond)%float
    /\ Extended.stats.ServerProcMs r'
       = (F64.of_Z 7000000 / F64.Millisecond)%float
    /\ (let d := (Extended.stats.LatencyMs r'
                  - Extended.stats.ServerProcMs r')%float in
        Extended.stats.NetLatencyMs r'
        = if (d <? 0)%float then 0%float else d)
    /\ (Extended.stats.NetLatencyMs r' <? 0)%float = false
    /\ last (Extended.stats.netLatencies
               (Extended.stats.RecordReceived 1 5000000 7000000 s0))
       = Some (Extended.stats.NetLatencyMs r').
Proof.
  intros s0.
  apply (net_latency_floored_at_zero s0 1 5000000 7000000
           (Extended.stats.mkPacketRecord 1 0 0 0 0 0 true false));
    reflexivity.
Defined.

(** ** Counters and records *)

(** C10. After any sequence of [RecordSent] calls with pairwise distinct
    sequence numbers and arbitrary [RecordReceived] calls in between, on
    a fresh aggregator: [received] is the number of stored records with
    [Lost = false] and the length of [latencies], it is at most [sent],
    and [sent] is the number of stored records. The counters are
    [uint64]; the number of sends stays below 2^64. Both variants. *)
Theorem counters_agree_with_records :
  (forall (now : Z) (thr : float) (cs : list Extended.stats.call),
      NoDup (Extended.stats.sent_seqs cs) ->
      Z.of_nat (length (Extended.stats.sent_seqs cs)) < Int.two64 ->
      let s := Extended.stats.run cs (Extended.stats.NewStats now thr) in
      Extended.stats.received s = Z.of_nat (Extended.stats.resolved s)
      /\ Extended.stats.received s
         = Z.of_nat (length (Extended.stats.latencies s))
      /\ Extended.stats.received s <= Extended.stats.sent s
      /\ Extended.stats.sent s
         = Z.of_nat (size (Extended.stats.records s)))
  /\
  (forall (printed started : Z) (cs : list Basic.stats.call),
      NoDup (Basic.stats.sent_seqs cs) ->
      Z.of_nat (length (Basic.stats.sent_seqs cs)) < Int.two64 ->
      let s := Basic.stats.run cs (Basic.stats.NewStats printed started) in
      Basic.stats.received s = Z.of_nat (Basic.stats.resolved s)
      /\ Basic.stats.received s = Z.of_nat (length (Basic.stats.latencies s))
      /\ Basic.stats.received s <= Basic.stats.sent s
      /\ Basic.stats.sent s = Z.of_nat (size (Basic.stats.records s))).
Proof.
  split.
  - intros now thr cs Hnd Hb s.
    destruct (ext_run_consistent cs (Extended.stats.NewStats now thr))
      as [(Hs & Hr & Hl & _) _].
    + apply ext_consistent_new.
    + done.
    + intros q _. apply lookup_empty.
    + simpl. rewrite map_size_empty. lia.
    + fold s in Hs, Hr, Hl. pose proof (ext_resolved_le s).
      repeat split; lia.
  - intros printed started cs Hnd Hb s.
    destruct (basic_run_consistent cs (Basic.stats.NewStats printed started))
      as [(Hs & Hr & Hl) _].
    + apply basic_consistent_new.
    + done.
    + intros q _. apply lookup_empty.
    + simpl. rewrite map_size_empty. lia.
    + fold s in Hs, Hr, Hl. pose proof (basic_resolved_le s).
      repeat split; lia.
Qed.

Lemma counters_agree_with_records_witness :
  (let s := Extended.stats.run
              [Extended.stats.Sent 1 0; Extended.stats.Sent 2 1000;
               Extended.stats.Received 2 3000000 0;
               Extended.stats.Received 2 4000000 0;
               Extended.stats.Received 9 4000000 0;
               Extended.stats.Sent 3 2000]
              (Extended.stats.NewStats 0 100) in
   Extended.stats.received s = Z.of_nat (Extended.stats.resolved s)
   /\ Extended.stats.received s
      = Z.of_nat (length (Extended.stats.latencies s))
   /\ Extended.stats.received s <= Extended.stats.sent s
   /\ Extended.stats.sent s = Z.of_nat (size (Extended.stats.records s)))
  /\
  (let s := Basic.stats.run
              [Basic.stats.Sent 1 0; Basic.stats.Received 1 3000000;
               Basic.stats.Received 1 4000000; Basic.stats.Sent 2 1000]
              (Basic.stats.NewStats 0 0) in
   Basic.stats.received s = Z.of_nat (Basic.stats.resolved s)
   /\ Basic.stats.received s = Z.of_nat (length (Basic.stats.latencies s))
   /\ Basic.stats.received s <= Basic.stats.sent s
   /\ Basic.stats.sent s = Z.of_nat (size (Basic.stats.records s))).
Proof.
  split.
  - apply (proj1 counters_agree_with_records 0 100%float
             [Extended.stats.Sent 1 0; Extended.stats.Sent 2 1000;
              Extended.stats.Received 2 3000000 0;
              Extended.stats.Received 2 4000000 0;
              Extended.stats.Received 9 4000000 0;
              Extended.stats.Sent 3 2000]).
    + simpl. apply (bool_decide_unpack _). vm_compute. exact I.
    + vm_compute. reflexivity.
  - apply (proj2 counters_agree_with_records 0 0
             [Basic.stats.Sent 1 0; Basic.stats.Received 1 3000000;
              Basic.stats.Received 1 4000000; Basic.stats.Sent 2 1000]).
    + simpl. apply (bool_decide_unpack _). vm_compute. exact I.
    + vm_compute. reflexivity.
Defined.

(** ** Percentiles *)

Section PercentileFacts.

Import Extended.stats.
Local Open Scope float_scope.

Lemma ascending_head x rest :
  F64.ascending (x :: rest) -> Forall (fun y => (x <=? y) = true) rest.
Proof. intros H. by apply StronglySorted_inv in H as [_ H]. Qed.

Lemma ascending_last front z :
  F64.ascending (front ++ [z]) -> Forall (fun y => (y <=? z) = true) front.
Proof.
  induction front as [|y front IH]; intros H; [constructor|].
  apply StronglySorted_inv in H as [Hs Hy].
  constructor; [|by apply IH].
  rewrite Forall_app in Hy. destruct Hy as [_ Hz].
  by apply Forall_inv in Hz.
Qed.

Lemma index_last front z :
  F64.index (front ++ [z]) (Z.of_nat (length (front ++ [z])) - 1) = Ok z.
Proof.
  unfold F64.index. rewrite length_app. simpl.
  destruct (Z.ltb_spec (Z.of_nat (length front + 1) - 1) 0) as [?|_]; [lia|].
  replace (Z.to_nat (Z.of_nat (length front + 1) - 1)) with (length front)
    by lia.
  by rewrite list_lookup_middle.
Qed.

End PercentileFacts.

(** C2. On a non-empty sample in ascending order [percentile] returns
    the first element, which is the minimum, when [p <= 0], and the last
    element, which is the maximum, when [p >= 100]. Otherwise, with
    [pos = (p/100) * (n-1)], [lower] the floor and [upper] the ceiling of
    [pos] and [weight = pos - lower], it returns
    [sorted[lower]*(1-weight) + sorted[upper]*weight], and [sorted[lower]]
    itself when [pos] is a whole number. For the sample [10, 20, 30, 40]:
    p50 = 25, p90 = 37 and p100 = 40, in binary64 arithmetic. *)
Theorem percentile_interpolates :
  (forall (x : float) (rest : list float) (p : float),
      (p <=? 0)%float = true ->
      F64.ascending (x :: rest) ->
      Extended.stats.percentile (x :: rest) p = Ok x
      /\ Forall (fun y => (x <=? y)%float = true) rest)
  /\
  (forall (front : list float) (z : float) (p : float),
      (p <=? 0)%float = false ->
      (100 <=? p)%float = true ->
      F64.ascending (front ++ [z]) ->
      Extended.stats.percentile (front ++ [z]) p = Ok z
      /\ Forall (fun y => (y <=? z)%float = true) front)
  /\
  (forall (sorted : list float) (p : float) (lower upper : Z) (lo hi : float),
      sorted <> [] ->
      (p <=? 0)%float = false ->
      (100 <=? p)%float = false ->
      let pos := (p / 100 * F64.of_Z (Z.of_nat (length sorted) - 1))%float in
      let weight := (pos - F64.of_Z lower)%float in
      F64.to_int (F64.Floor pos) = Ok lower ->
      F64.to_int (F64.Ceil pos) = Ok upper ->
      F64.index sorted lower = Ok lo ->
      F64.index sorted upper = Ok hi ->
      Extended.stats.percentile sorted p
      = Ok (if (lower =? upper)%Z then lo
            else (lo * (1 - weight) + hi * weight)%float))
  /\
  Extended.stats.percentiles [10; 20; 30; 40]%float 50 90 100
  = Ok (25, 37, 40)%float
  /\
  Extended.stats.percentiles [40; 10; 30; 20]%float 50 90 100
  = Ok (25, 37, 40)%float.
Proof.
  repeat split.
  - unfold Extended.stats.percentile. simpl length.
    destruct (Z.eqb_spec (Z.of_nat (S (length rest))) 0) as [?|_]; [lia|].
    by rewrite H.
  - by apply ascending_head.
  - unfold Extended.stats.percentile.
    destruct (Z.eqb_spec (Z.of_nat (length (front ++ [z]))) 0) as [E|_].
    { rewrite length_app in E. simpl in E. lia. }
    rewrite H, H0. apply index_last.
  - by apply ascending_last.
  - intros sorted p lower upper lo hi Hne Hp0 Hp100 pos weight Hlo Hup Hl Hh.
    unfold Extended.stats.percentile.
    destruct (Z.eqb_spec (Z.of_nat (length sorted)) 0) as [E|_].
    { destruct sorted; [done|simpl in E; lia]. }
    rewrite Hp0, Hp100. fold pos. rewrite Hlo, Hup. simpl.
    destruct (lower =? upper)%Z; [done|].
    by rewrite Hl, Hh.
Qed.

Lemma percentile_interpolates_witness :
  (Extended.stats.percentile [10; 20; 30; 40]%float 0 = Ok 10%float
   /\ Forall (fun y => (10 <=? y)%float = true) [20; 30; 40]%float)
  /\
  (Extended.stats.percentile ([10; 20; 30] ++ [40])%float 100 = Ok 40%float
   /\ Forall (fun y => (y <=? 40)%float = true) [10; 20; 30]%float)
  /\
  Extended.stats.percentile [10; 20; 30; 40]%float 90
  = Ok (if (2 =? 3)%Z then 30%float
        else (30 * (1 - (90 / 100 * F64.of_Z (Z.of_nat 4 - 1) - F64.of_Z 2))
              + 40 * (90 / 100 * F64.of_Z (Z.of_nat 4 - 1) - F64.of_Z 2))
             %float).
Proof.
  pose proof percentile_interpolates as (Hmin & Hmax & Hmid & _).
  split; [|split].
  - apply (Hmin 10%float [20; 30; 40]%float 0%float); [reflexivity|].
    repeat constructor.
  - apply (Hmax [10; 20; 30]%float 40%float 100%float);
      [reflexivity|reflexivity|].
    repeat constructor.
  - apply (Hmid [10; 20; 30; 40]%float 90%float 2 3 30%float 40%float);
      try reflexivity.
    discriminate.
Defined.

(** ** The summary *)

Section SummaryFacts.

Import Extended.stats.
Local Open Scope float_scope.

Lemma ext_aggregated_new now thr : aggregated (NewStats now thr).
Proof. by unfold aggregated. Qed.

Lemma ext_aggregated_step s c : aggregated s -> aggregated (step s c).
Proof.
  intros Ha. destruct c as [q t|q t p]; [exact Ha|]. simpl.
  destruct (records s !! q) as [r|] eqn:E;
    [|by rewrite ext_received_unknown].
  destruct (Lost r) eqn:El; [|by rewrite (ext_received_resolved q t p s r)].
  destruct Ha as (Hsum & Hmin & Hmax & Hn & Hp).
  unfold aggregated, RecordReceived. rewrite E, El. simpl.
  unfold F64.sum in *. rewrite !fold_left_app, !length_app. simpl.
  rewrite <- Hsum, <- Hmin, <- Hmax. repeat split; lia.
Qed.

Lemma ext_aggregated_run cs : forall s, aggregated s -> aggregated (run cs s).
Proof.
  induction cs as [|c cs IH]; intros s Ha; [done|].
  apply IH. by apply ext_aggregated_step.
Qed.

Lemma length_insert_sorted x l :
  length (F64.insert_sorted x l) = S (length l).
Proof.
  induction l as [|y l IH]; [done|]. simpl.
  destruct (F64.less y x); simpl; by rewrite ?IH.
Qed.

Lemma length_Float64s l : length (F64.Float64s l) = length l.
Proof.
  induction l as [|x l IH]; [done|]. simpl.
  by rewrite length_insert_sorted, IH.
Qed.

(** On five samples the three percentiles of the summary index inside
    the slice. *)
Lemma percentiles_five l :
  length l = 5%nat -> exists a b c, percentiles l 50 90 99 = Ok (a, b, c).
Proof.
  intros Hl. unfold percentiles. rewrite Hl. simpl Nat.eqb. cbv iota.
  pose proof (length_Float64s l) as Hs. rewrite Hl in Hs.
  destruct (F64.Float64s l) as [|a [|b [|c [|d [|e [|? ?]]]]]]; try done.
  vm_compute. eauto.
Qed.

(** The loops of [calcStats] compute the mean and the mean absolute
    deviation. *)
Lemma jitter_loop avg values acc :
  fold_left (fun acc v => acc + F64.Abs (v - avg)) values acc
  = fold_left (fun acc v => acc + v)
      (map (fun v => F64.Abs (v - avg)) values) acc.
Proof.
  revert acc. induction values as [|v values IH]; intros acc; [done|].
  simpl. apply IH.
Qed.

Lemma calcStats_sum values sum mn mx :
  (fold_left
     (fun '(sum, min, max) v =>
        (sum + v, if v <? min then v else min, if max <? v then v else max))
     values (sum, mn, mx)).1.1
  = fold_left (fun acc v => acc + v) values sum.
Proof.
  revert sum mn mx. induction values as [|v values IH]; intros; [done|].
  simpl. apply IH.
Qed.

Lemma calcStats_mean_deviation values :
  values <> [] ->
  (calcStats values).1.1.2 = F64.mean values
  /\ (calcStats values).2 = F64.mean_abs_deviation values.
Proof.
  intros Hne. unfold calcStats.
  destruct values as [|v0 values]; [done|].
  change (length (v0 :: values) =? 0)%nat with false. cbv iota.
  pose proof (calcStats_sum (v0 :: values) 0 F64.MaxFloat64 0) as Hsum.
  destruct (fold_left _ (v0 :: values) (0, F64.MaxFloat64, 0))
    as [[sum mn] mx].
  simpl fst in Hsum. simpl snd. simpl fst.
  unfold F64.mean_abs_deviation, F64.mean, F64.sum.
  rewrite jitter_loop, Hsum. done.
Qed.

End SummaryFacts.

Section SummaryRun.

Import Extended.stats.
Local Open Scope float_scope.

(** The RTT line of a summary that was printed. *)
Lemma summary_rtt_line s sm :
  aggregated s ->
  latencies s <> [] ->
  PrintSummary s = Ok sm ->
  exists p50 p90 p99,
    percentiles (latencies s) 50 90 99 = Ok (p50, p90, p99)
    /\ sum_rtt sm
       = Some {| rtt_min := minLat s;
                 rtt_avg := F64.mean (latencies s);
                 rtt_max := maxLat s;
                 rtt_p50 := p50; rtt_p90 := p90; rtt_p99 := p99;
                 rtt_jitter := F64.mean_abs_deviation (latencies s) |}.
Proof.
  intros (Hsum & _) Hne H. unfold PrintSummary in H.
  destruct (latencies s) as [|l0 ls] eqn:El; [done|].
  change (0 <? length (l0 :: ls))%nat with true in H. cbv iota in H.
  destruct (percentiles (l0 :: ls) 50 90 99) as [[[p50 p90] p99]|];
    [|done].
  exists p50, p90, p99. split; [done|].
  simpl rbind in H.
  destruct (if (0 <? length (netLatencies s))%nat then _ else _)
    as [net|]; [|done].
  simpl in H. injection H as <-. simpl sum_rtt.
  unfold F64.mean_abs_deviation, F64.mean.
  rewrite Hsum. unfold F64.sum at 3. by rewrite jitter_loop.
Qed.

(** A summary is printed when the samples are five. *)
Lemma summary_five s :
  aggregated s ->
  length (latencies s) = 5%nat ->
  exists sm, PrintSummary s = Ok sm.
Proof.
  intros (_ & _ & _ & Hn & _) Hl. rewrite Hl in Hn.
  unfold PrintSummary. rewrite Hl, Hn.
  destruct (percentiles_five (latencies s) Hl) as (a & b & c & ->).
  destruct (percentiles_five (netLatencies s) Hn) as (a' & b' & c' & ->).
  simpl. eauto.
Qed.

End SummaryRun.

(** C8. Jitter is the mean absolute deviation of the latencies from
    their mean: [calcStats] computes both for the window, and the summary
    reports both for the whole run, whenever it is printed. For
    [50, 50, 50] the jitter is 0, for [10, 20] it is 5, and a run whose
    recorded latencies are [10, 20, 30, 40, 50] is summarised with
    average 30, minimum 10, maximum 50 and jitter 12. *)
Theorem jitter_is_mean_abs_deviation :
  (forall values : list float,
      values <> [] ->
      (Extended.stats.calcStats values).1.1.2 = F64.mean values
      /\ (Extended.stats.calcStats values).2 = F64.mean_abs_deviation values)
  /\
  (forall (now : Z) (thr : float) (cs : list Extended.stats.call) sm,
      let s := Extended.stats.run cs (Extended.stats.NewStats now thr) in
      Extended.stats.latencies s <> [] ->
      Extended.stats.PrintSummary s = Ok sm ->
      exists line,
        Extended.stats.sum_rtt sm = Some line
        /\ Extended.stats.rtt_avg line = F64.mean (Extended.stats.latencies s)
        /\ Extended.stats.rtt_jitter line
           = F64.mean_abs_deviation (Extended.stats.latencies s))
  /\
  (Extended.stats.calcStats [50; 50; 50]%float).2 = 0%float
  /\
  (Extended.stats.calcStats [10; 20]%float).2 = 5%float
  /\
  (forall (now : Z) (thr : float) (cs : list Extended.stats.call),
      let s := Extended.stats.run cs (Extended.stats.NewStats now thr) in
      Extended.stats.latencies s = [10; 20; 30; 40; 50]%float ->
      exists sm line,
        Extended.stats.PrintSummary s = Ok sm
        /\ Extended.stats.sum_rtt sm = Some line
        /\ Extended.stats.rtt_avg line = 30%float
        /\ Extended.stats.rtt_min line = 10%float
        /\ Extended.stats.rtt_max line = 50%float
        /\ Extended.stats.rtt_jitter line = 12%float).
Proof.
  split; [|split; [|split; [|split]]].
  - apply calcStats_mean_deviation.
  - intros now thr cs sm s Hne H.
    assert (Ha : Extended.stats.aggregated s)
      by apply ext_aggregated_run, ext_aggregated_new.
    destruct (summary_rtt_line s sm Ha Hne H) as (p50 & p90 & p99 & _ & ->).
    eexists. split; [reflexivity|]. done.
  - reflexivity.
  - reflexivity.
  - intros now thr cs s Hl.
    assert (Ha : Extended.stats.aggregated s)
      by apply ext_aggregated_run, ext_aggregated_new.
    destruct (summary_five s Ha) as [sm Hsm]; [by rewrite Hl|].
    destruct (summary_rtt_line s sm Ha) as (p50 & p90 & p99 & _ & Hline);
      [by rewrite Hl|done|].
    destruct Ha as (_ & Hmin & Hmax & _).
    rewrite Hl in Hline, Hmin, Hmax.
    exists sm. eexists. split; [done|]. split; [exact Hline|].
    simpl. rewrite Hmin, Hmax. repeat split; reflexivity.
Qed.

Lemma jitter_is_mean_abs_deviation_witness :
  let cs := [Extended.stats.Sent 1 0; Extended.stats.Sent 2 0;
             Extended.stats.Sent 3 0; Extended.stats.Sent 4 0;
             Extended.stats.Sent 5 0;
             Extended.stats.Received 1 10000000 0;
             Extended.stats.Received 2 20000000 0;
             Extended.stats.Received 3 30000000 0;
             Extended.stats.Received 4 40000000 0;
             Extended.stats.Received 5 50000000 0] in
  let s := Extended.stats.run cs (Extended.stats.NewStats 0 100) in
  ((Extended.stats.calcStats [10; 20; 30; 40; 50]%float).1.1.2
   = F64.mean [10; 20; 30; 40; 50]%float
   /\ (Extended.stats.calcStats [10; 20; 30; 40; 50]%float).2
      = F64.mean_abs_deviation [10; 20; 30; 40; 50]%float)
  /\
  (exists sm line,
      Extended.stats.PrintSummary s = Ok sm
      /\ Extended.stats.sum_rtt sm = Some line
      /\ Extended.stats.rtt_avg line = 30%float
      /\ Extended.stats.rtt_min line = 10%float
      /\ Extended.stats.rtt_max line = 50%float
      /\ Extended.stats.rtt_jitter line = 12%float).
Proof.
  intros cs s.
  pose proof jitter_is_mean_abs_deviation as (Hcalc & _ & _ & _ & Hrun).
  split.
  - apply (Hcalc [10; 20; 30; 40; 50]%float). discriminate.
  - apply (Hrun 0%Z 100%float cs). reflexivity.
Defined.

(** ** Packets that are never answered *)

Section UnansweredFacts.

Import Extended.stats.
Local Open Scope float_scope.

Lemma elem_of_sent_seqs q cs :
  q ∈ sent_seqs cs <-> exists t, Sent q t ∈ cs.
Proof.
  unfold sent_seqs. rewrite list_elem_of_omap. split.
  - intros (c & Hc & Hq). destruct c as [q' t|]; [|done].
    injection Hq as ->. by exists t.
  - intros (t & Ht). by exists (Sent q t).
Qed.

(** Receives that find nothing leave every receive-side field alone. *)
Lemma ext_unanswered_fields cs : forall s,
  unanswered s cs ->
  received (run cs s) = received s
  /\ late (run cs s) = late s
  /\ lateThreshold (run cs s) = lateThreshold s
  /\ latencies (run cs s) = latencies s
  /\ netLatencies (run cs s) = netLatencies s
  /\ serverProc (run cs s) = serverProc s.
Proof.
  induction cs as [|c cs IH]; intros s Hu; [done|].
  change (run (c :: cs) s) with (run cs (step s c)).
  destruct Hu as [Hc Hu]. destruct (IH _ Hu) as (-> & -> & -> & -> & -> & ->).
  destruct c as [q t|q t p]; [done|].
  simpl. by rewrite ext_received_unknown.
Qed.

(** The map then holds the records of the sends and nothing else. *)
Lemma ext_unanswered_records cs : forall s,
  unanswered s cs ->
  NoDup (sent_seqs cs) ->
  (forall q, q ∈ sent_seqs cs -> records s !! q = None) ->
  forall q r,
    records (run cs s) !! q = Some r
    <-> records s !! q = Some r
        \/ exists t, Sent q t ∈ cs
             /\ r = {| SeqNum := q; SentTime := t; RecvTime := 0;
                       LatencyMs := 0; ServerProcMs := 0; NetLatencyMs := 0;
                       Lost := true; Late := false |}.
Proof.
  induction cs as [|c cs IH]; intros s Hu Hnd Hfresh q r.
  - simpl. split; [by left|]. intros [H|(t & Ht & _)]; [done|].
    by apply elem_of_nil in Ht.
  - change (run (c :: cs) s) with (run cs (step s c)).
    destruct Hu as [Hc Hu]. destruct c as [q0 t0|q0 t0 p0].
    + change (sent_seqs (Sent q0 t0 :: cs)) with (q0 :: sent_seqs cs) in *.
      apply NoDup_cons in Hnd as [Hq0 Hnd].
      assert (Hnone : records s !! q0 = None) by (apply Hfresh; left).
      rewrite (IH (step s (Sent q0 t0)) Hu Hnd).
      2:{ intros q' Hq'. simpl. rewrite lookup_insert_ne.
          - apply Hfresh. by right.
          - intros ->. done. }
      simpl. split.
      * intros [H|(t & Ht & ->)].
        -- destruct (decide (q0 = q)) as [->|Hne].
           ++ rewrite lookup_insert_eq in H. injection H as <-.
              right. exists t0. split; [left|done].
           ++ rewrite lookup_insert_ne in H by done. by left.
        -- right. exists t. split; [by right|done].
      * intros [H|(t & Ht & ->)].
        -- left. rewrite lookup_insert_ne; [done|]. intros ->. congruence.
        -- apply elem_of_cons in Ht as [Ht|Ht].
           ++ injection Ht as -> ->. left. by rewrite lookup_insert_eq.
           ++ right. by exists t.
    + change (sent_seqs (Received q0 t0 p0 :: cs)) with (sent_seqs cs) in *.
      simpl in Hc. simpl step in *.
      rewrite (ext_received_unknown q0 t0 p0 s Hc) in *.
      rewrite (IH s Hu Hnd Hfresh). split.
      * intros [H|(t & Ht & ->)]; [by left|].
        right. exists t. split; [by right|done].
      * intros [H|(t & Ht & ->)]; [by left|].
        apply elem_of_cons in Ht as [Ht|Ht]; [done|].
        right. by exists t.
Qed.

Lemma elem_of_GetRecords s r :
  r ∈ GetRecords s <-> exists q, records s !! q = Some r.
Proof.
  unfold GetRecords. rewrite list_elem_of_fmap. split.
  - intros ([q r'] & -> & H). exists q. by apply elem_of_map_to_list.
  - intros (q & H). exists (q, r). split; [done|].
    by apply elem_of_map_to_list.
Qed.

Lemma length_GetRecords s : length (GetRecords s) = size (records s).
Proof. unfold GetRecords. by rewrite length_fmap, length_map_to_list. Qed.

End UnansweredFacts.

(** C7. Ten packets are recorded as sent, with distinct sequence
    numbers, and no [RecordReceived] finds its sequence number: the
    summary has 10 sent, 0 received, 10 lost, a loss of 100 percent, and
    "no data" for the RTT (and for the net and server lines);
    [GetRecords] returns ten records, exactly those of the sends, each
    with [Lost = true] and [RecvTime = 0]. *)
Theorem ten_sent_none_answered :
  forall (now : Z) (thr : float) (cs : list Extended.stats.call),
    NoDup (Extended.stats.sent_seqs cs) ->
    length (Extended.stats.sent_seqs cs) = 10%nat ->
    Extended.stats.unanswered (Extended.stats.NewStats now thr) cs ->
    let s := Extended.stats.run cs (Extended.stats.NewStats now thr) in
    Extended.stats.PrintSummary s
    = Ok {| Extended.stats.sum_sent := 10;
            Extended.stats.sum_received := 0;
            Extended.stats.sum_lost := 10;
            Extended.stats.sum_lossPercent := 100;
            Extended.stats.sum_late := 0;
            Extended.stats.sum_latePercent := 0;
            Extended.stats.sum_lateThreshold := thr;
            Extended.stats.sum_rtt := None;
            Extended.stats.sum_net := None;
            Extended.stats.sum_server := None |}
    /\ length (Extended.stats.GetRecords s) = 10%nat
    /\ (forall r,
           r ∈ Extended.stats.GetRecords s
           <-> exists q t,
                 Extended.stats.Sent q t ∈ cs
                 /\ r = {| Extended.stats.SeqNum := q;
                           Extended.stats.SentTime := t;
                           Extended.stats.RecvTime := 0;
                           Extended.stats.LatencyMs := 0;
                           Extended.stats.ServerProcMs := 0;
                           Extended.stats.NetLatencyMs := 0;
                           Extended.stats.Lost := true;
                           Extended.stats.Late := false |}).
Proof.
  intros now thr cs Hnd Hlen Hu s.
  destruct (ext_unanswered_fields cs _ Hu)
    as (Hrecv & Hlate & Hthr & Hlat & Hnet & Hsrv).
  destruct (ext_run_consistent cs (Extended.stats.NewStats now thr))
    as [(Hsent & _) Hsize].
  { apply ext_consistent_new. }
  { done. }
  { intros q _. apply lookup_empty. }
  { simpl. rewrite map_size_empty, Hlen. done. }
  fold s in Hrecv, Hlate, Hthr, Hlat, Hnet, Hsrv, Hsent, Hsize.
  simpl in Hrecv, Hlate, Hthr, Hlat, Hnet, Hsrv, Hsize.
  rewrite map_size_empty, Hlen in Hsize. rewrite Hsize in Hsent.
  split; [|split].
  - unfold Extended.stats.PrintSummary.
    rewrite Hrecv, Hlate, Hthr, Hlat, Hnet, Hsrv, Hsent. reflexivity.
  - by rewrite length_GetRecords.
  - intros r. rewrite elem_of_GetRecords. split.
    + intros (q & Hq).
      apply (ext_unanswered_records cs _ Hu Hnd) in Hq.
      2:{ intros q' _. apply lookup_empty. }
      destruct Hq as [Hq|(t & Ht & ->)].
      * simpl in Hq. by rewrite lookup_empty in Hq.
      * by exists q, t.
    + intros (q & t & Ht & ->). exists q.
      apply (ext_unanswered_records cs _ Hu Hnd).
      { intros q' _. apply lookup_empty. }
      right. by exists t.
Qed.

Lemma ten_sent_none_answered_witness :
  let cs := [Extended.stats.Sent 1 1000000; Extended.stats.Sent 2 2000000;
             Extended.stats.Sent 3 3000000;
             Extended.stats.Received 77 3500000 0;
             Extended.stats.Sent 4 4000000; Extended.stats.Sent 5 5000000;
             Extended.stats.Sent 6 6000000; Extended.stats.Sent 7 7000000;
             Extended.stats.Sent 8 8000000; Extended.stats.Sent 9 9000000;
             Extended.stats.Sent 10 10000000] in
  let s := Extended.stats.run cs (Extended.stats.NewStats 0 100) in
  Extended.stats.PrintSummary s
  = Ok {| Extended.stats.sum_sent := 10;
          Extended.stats.sum_received := 0;
          Extended.stats.sum_lost := 10;
          Extended.stats.sum_lossPercent := 100;
          Extended.stats.sum_late := 0;
          Extended.stats.sum_latePercent := 0;
          Extended.stats.sum_lateThreshold := 100;
          Extended.stats.sum_rtt := None;
          Extended.stats.sum_net := None;
          Extended.stats.sum_server := None |}
  /\ length (Extended.stats.GetRecords s) = 10%nat
  /\ (forall r,
         r ∈ Extended.stats.GetRecords s
         <-> exists q t,
               Extended.stats.Sent q t ∈ cs
               /\ r = {| Extended.stats.SeqNum := q;
                         Extended.stats.SentTime := t;
                         Extended.stats.RecvTime := 0;
                         Extended.stats.LatencyMs := 0;
                         Extended.stats.ServerProcMs := 0;
                         Extended.stats.NetLatencyMs := 0;
                         Extended.stats.Lost := true;
                         Extended.stats.Late := false |}).
Proof.
  intros cs.
  apply (ten_sent_none_answered 0 100%float cs).
  - simpl. apply (bool_decide_unpack _). vm_compute. exact I.
  - reflexivity.
  - simpl. repeat split; reflexivity.
Defined.

(** ** The CSV export *)

Section CsvFacts.

Lemma ParseInt_FormatInt z : strconv.ParseInt (strconv.FormatInt z) = Some z.
Proof.
  unfold strconv.ParseInt, strconv.FormatInt.
  rewrite NilZero.isi.
  - simpl. by rewrite DecimalZ.of_to.
  - destruct z; simpl; try discriminate.
    intros [= H]. by apply DecimalPos.Unsigned.to_uint_nonnil in H.
  - destruct z; simpl; try discriminate.
    intros [= H]. by apply DecimalPos.Unsigned.to_uint_nonnil in H.
Qed.

(** Milliseconds of an [int64] nanosecond count: the division does not
    wrap. *)
Lemma idiv64_ms t :
  Int.is_int64 t -> Int.idiv64 t 1000000 = Z.quot t 1000000.
Proof.
  unfold Int.is_int64, Int.idiv64, Int.to_int64, Int.two63, Int.two64.
  change (2 ^ 64) with 18446744073709551616.
  change (2 ^ 63) with 9223372036854775808.
  intros H.
  assert (Hq : -9223372036854775808 <= Z.quot t 1000000 < 9223372036854775808).
  { Z.to_euclidean_division_equations; lia. }
  destruct (Z.ltb_spec (Z.quot t 1000000 mod 18446744073709551616)
              9223372036854775808);
    Z.div_mod_to_equations; lia.
Qed.

End CsvFacts.



(** The reader of the file finds every column it looks for in the
    header of [saveCSVSpec], the two server columns among them. *)
Lemma plot_finds_columns_of_export :
  let idx := plot.colIndex plot.TrimSpaceASCII Extended.client.csvHeaderSpec in
  idx !! "seq"%string = Some 0%nat
  /\ idx !! "recv_time"%string = Some 2%nat
  /\ idx !! "latency_ms"%string = Some 3%nat
  /\ idx !! "lost"%string = Some 4%nat
  /\ idx !! "server_proc_ms"%string = Some 5%nat
  /\ idx !! "net_latency_ms"%string = Some 6%nat.
Proof. vm_compute. done. Qed.

(** The export kept with the sources, of the revision before the server
    time, has neither of the two server columns in its header. *)
Example kept_export_has_no_server_columns :
  let s := Extended.stats.RecordReceived 1 5000000 1000000
             (Extended.stats.RecordSent 1 0 (Extended.stats.NewStats 0 100)) in
  ~ ("server_proc_ms"%string ∈ hd [] (Extended.client.saveCSV s))
  /\ ~ ("net_latency_ms"%string ∈ hd [] (Extended.client.saveCSV s)).
Proof.
  intros s. split; apply (bool_decide_unpack _); vm_compute; exact I.
Qed.

(** ** The plot reads its columns by name *)

Section PlotFacts.

Import plot.

Variable TrimSpace : string -> string.
Variable ParseFloat : string -> float * bool.
Variable htmlTemplate : string.

Lemma fill_spec header : forall (m : gmap string nat) (i : nat),
  NoDup (map TrimSpace header) ->
  (forall name, name ∈ map TrimSpace header -> m !! name = None) ->
  forall name j,
    fill TrimSpace m i header !! name = Some j
    <-> m !! name = Some j
        \/ exists k, map TrimSpace header !! k = Some name /\ j = (i + k)%nat.
Proof.
  induction header as [|col header IH]; intros m i Hnd Hfresh name j.
  - simpl. split; [by left|]. intros [H|(k & Hk & _)]; [done|].
    by rewrite lookup_nil in Hk.
  - simpl in Hnd. apply NoDup_cons in Hnd as [Hcol Hnd]. simpl fill.
    rewrite IH; [|done|].
    2:{ intros name' Hin. rewrite lookup_insert_ne.
        - apply Hfresh. simpl. by right.
        - intros <-. done. }
    split.
    + intros [H|(k & Hk & ->)].
      * destruct (decide (TrimSpace col = name)) as [<-|Hne].
        -- rewrite lookup_insert_eq in H. injection H as <-.
           right. exists 0%nat. split; [done|lia].
        -- rewrite lookup_insert_ne in H by done. by left.
      * right. exists (S k). split; [done|lia].
    + intros [H|(k & Hk & ->)].
      * left. rewrite lookup_insert_ne; [done|].
        intros <-. rewrite Hfresh in H; [done|]. simpl. left.
      * destruct k as [|k].
        -- simpl in Hk. injection Hk as <-. left.
           rewrite lookup_insert_eq. f_equal. lia.
        -- right. exists k. split; [done|lia].
Qed.

(** With distinct names the index of a name is the position of its
    column. *)
Lemma colIndex_spec header name j :
  NoDup (map TrimSpace header) ->
  colIndex TrimSpace header !! name = Some j
  <-> map TrimSpace header !! j = Some name.
Proof.
  intros Hnd. unfold colIndex. rewrite fill_spec; [|done|].
  2:{ intros. apply lookup_empty. }
  split.
  - intros [H|(k & Hk & ->)]; [by rewrite lookup_empty in H|done].
  - intros H. right. by exists j.
Qed.

Lemma fill_lookup header : forall (m : gmap string nat) (i : nat) name j,
  fill TrimSpace m i header !! name = Some j
  <-> (m !! name = Some j /\ name ∉ map TrimSpace header)
      \/ exists k, map TrimSpace header !! k = Some name
                   /\ j = (i + k)%nat
                   /\ forall k', (k < k')%nat ->
                                 map TrimSpace header !! k' <> Some name.
Proof.
  induction header as [|col header IH]; intros m i name j.
  - simpl. split.
    + intros H. left. split; [done|]. apply not_elem_of_nil.
    + intros [[H _]|(k & Hk & _)]; [done|]. by rewrite lookup_nil in Hk.
  - simpl fill. rewrite IH. simpl map. split.
    + intros [[H Hnot]|(k & Hk & -> & Hlast)].
      * destruct (decide (TrimSpace col = name)) as [<-|Hne].
        -- rewrite lookup_insert_eq in H. injection H as <-.
           right. exists 0%nat. split; [done|]. split; [lia|].
           intros [|k'] Hk'; [lia|]. simpl. intros Hk.
           apply Hnot. by apply list_elem_of_lookup_2 in Hk.
        -- rewrite lookup_insert_ne in H by done. left. split; [done|].
           rewrite not_elem_of_cons. done.
      * right. exists (S k). split; [done|]. split; [lia|].
        intros [|k'] Hk'; [lia|]. simpl. apply Hlast. lia.
    + intros [[H Hnot]|(k & Hk & -> & Hlast)].
      * apply not_elem_of_cons in Hnot as [Hne Hnot].
        left. split; [|done]. by rewrite lookup_insert_ne.
      * destruct k as [|k].
        -- simpl in Hk. injection Hk as Hk. left. split.
           ++ rewrite Hk, lookup_insert_eq. f_equal. lia.
           ++ intros Hin. apply list_elem_of_lookup_1 in Hin as [k' Hk'].
              apply (Hlast (S k')); [lia|done].
        -- right. exists k. split; [done|]. split; [lia|].
           intros k' Hk'. apply (Hlast (S k')). lia.
Qed.

Lemma colIndex_lookup header name j :
  colIndex TrimSpace header !! name = Some j
  <-> map TrimSpace header !! j = Some name
      /\ forall k, (j < k)%nat -> map TrimSpace header !! k <> Some name.
Proof.
  unfold colIndex. rewrite fill_lookup. split.
  - intros [[H _]|(k & Hk & -> & Hlast)]; [by rewrite lookup_empty in H|done].
  - intros [Hj Hlast]. right. by exists j.
Qed.

Lemma colIndex_is_Some header name :
  is_Some (colIndex TrimSpace header !! name)
  <-> name ∈ map TrimSpace header.
Proof.
  split.
  - intros [j Hj]. apply colIndex_lookup in Hj as [Hj _].
    by apply list_elem_of_lookup_2 in Hj.
  - intros Hin. destruct (colIndex TrimSpace header !! name) eqn:E; [done|].
    exfalso.
    assert (Hgen : forall h (m : gmap string nat) i,
               fill TrimSpace m i h !! name = None ->
               name ∉ map TrimSpace h).
    { induction h as [|c h IH]; intros m i Hn; [apply not_elem_of_nil|].
      simpl in Hn. simpl. apply not_elem_of_cons. split.
      - intros ->.
        destruct (decide (TrimSpace c ∈ map TrimSpace h)) as [Hin'|Hnot].
        + by apply (IH _ _ Hn).
        + assert (fill TrimSpace (<[TrimSpace c:=i]> m) (S i) h
                    !! TrimSpace c = Some i) as Hs.
          { apply fill_lookup. left. split; [apply lookup_insert_eq|done]. }
          congruence.
      - by apply (IH _ _ Hn). }
    by apply (Hgen header ∅ 0%nat).
Qed.

(** The map the loop fills is lookup by name. *)
Lemma position_None name header :
  position TrimSpace name header = None <-> name ∉ map TrimSpace header.
Proof.
  induction header as [|col header IH]; simpl.
  - split; [intros _; apply not_elem_of_nil|done].
  - rewrite not_elem_of_cons, <- IH.
    destruct (position TrimSpace name header) as [j|].
    + split; [done|]. by intros [_ ?].
    + destruct (String.eqb_spec (TrimSpace col) name) as [->|Hne].
      * split; [done|]. by intros [? _].
      * split; [|done]. intros _. split; [|done]. by intros ->.
Qed.

Lemma position_spec name header j :
  position TrimSpace name header = Some j
  <-> map TrimSpace header !! j = Some name
      /\ forall k, (j < k)%nat -> map TrimSpace header !! k <> Some name.
Proof.
  revert j. induction header as [|col header IH]; intros j; simpl.
  - split; [done|]. intros [H _]. by rewrite lookup_nil in H.
  - destruct (position TrimSpace name header) as [j'|] eqn:E.
    + split.
      * intros [= <-]. destruct (proj1 (IH j') eq_refl) as [Hj Hlast].
        split; [done|]. intros [|k] Hk; [lia|]. simpl. apply Hlast. lia.
      * intros [Hj Hlast]. destruct j as [|j].
        -- exfalso. destruct (proj1 (IH j') eq_refl) as [Hj' _].
           apply (Hlast (S j')); [lia|done].
        -- simpl in Hj. f_equal. f_equal.
           assert (Some j' = Some j) as [= ->]; [|done].
           apply IH. split; [done|]. intros k Hk.
           apply (Hlast (S k)). lia.
    + apply position_None in E.
      destruct (String.eqb_spec (TrimSpace col) name) as [Heq|Hne].
      * split.
        -- intros [= <-]. split; [by rewrite Heq|].
           intros [|k] Hk; [lia|]. simpl. intros Hin. apply E.
           by apply list_elem_of_lookup_2 in Hin.
        -- intros [Hj _]. destruct j as [|j]; [done|]. simpl in Hj.
           exfalso. apply E. by apply list_elem_of_lookup_2 in Hj.
      * split; [done|]. intros [Hj _]. destruct j as [|j].
        -- simpl in Hj. congruence.
        -- simpl in Hj. exfalso. apply E.
           by apply list_elem_of_lookup_2 in Hj.
Qed.

Lemma colIndex_position header name :
  colIndex TrimSpace header !! name = position TrimSpace name header.
Proof.
  apply option_eq. intros j.
  by rewrite colIndex_lookup, position_spec.
Qed.

(** [GeneratePlot] with every index written as the position of a name. *)
Lemma GeneratePlot_by_position records :
  let header := hd [] records in
  GeneratePlot TrimSpace ParseFloat htmlTemplate records
  = if (length records <? 2)%nat
    then Failed "CSV file is empty or has no data rows"
    else
      match position TrimSpace "seq" header with
      | None => Failed "CSV missing required column: seq"
      | Some seqIdx =>
      match position TrimSpace "recv_time" header with
      | None => Failed "CSV missing required column: recv_time"
      | Some recvIdx =>
      match position TrimSpace "latency_ms" header with
      | None => Failed "CSV missing required column: latency_ms"
      | Some latIdx =>
      match position TrimSpace "lost" header with
      | None => Failed "CSV missing required column: lost"
      | Some lostIdx =>
          let netIdx := position TrimSpace "net_latency_ms" header in
          let serverIdx := position TrimSpace "server_proc_ms" header in
          Generated
            (render htmlTemplate (bool_decide (is_Some netIdx))
               (bool_decide (is_Some serverIdx))
               (rows (row ParseFloat seqIdx recvIdx latIdx lostIdx
                          netIdx serverIdx)
                     {| dataJSON := "["; totalPackets := 0;
                        lostPackets := 0; totalLatency := 0;
                        maxLatency := 0; totalNet := 0;
                        totalServer := 0; receivedCount := 0 |}
                     0 (tail records)))
      end end end end.
Proof.
  intros header. unfold GeneratePlot. fold header.
  by rewrite !colIndex_position.
Qed.

(** The loop reads a record only through the cells under the names. *)
Lemma row_cells a b c d n s a' b' c' d' n' s' t i r r' :
  r !! a = r' !! a' -> r !! b = r' !! b' ->
  r !! c = r' !! c' -> r !! d = r' !! d' ->
  cell n r = cell n' r' -> cell s r = cell s' r' ->
  row ParseFloat a b c d n s t i r = row ParseFloat a' b' c' d' n' s' t i r'.
Proof. intros Ha Hb Hc Hd Hn Hs. unfold row. by rewrite Ha, Hb, Hc, Hd, Hn, Hs. Qed.

Lemma rows_Forall2 (R : list string -> list string -> Prop) step step' :
  forall rs rs' t i,
    Forall2 R rs rs' ->
    (forall t i r r', R r r' -> step t i r = step' t i r') ->
    rows step t i rs = rows step' t i rs'.
Proof.
  intros rs rs' t i H Hstep. revert t i.
  induction H as [|r r' rs rs' Hr _ IH]; intros t i; [done|].
  simpl. rewrite (Hstep t i r r' Hr). apply IH.
Qed.

Lemma reorder_lookup perm record j i :
  perm !! j = Some i -> (i < length record)%nat ->
  reorder perm record !! j = record !! i.
Proof.
  intros Hj Hi. unfold reorder.
  change (map ?f perm) with (f <$> perm).
  rewrite list_lookup_fmap, Hj. simpl.
  destruct (lookup_lt_is_Some_2 record i Hi) as [c ->]. done.
Qed.

Lemma reorder_length perm record : length (reorder perm record) = length perm.
Proof. unfold reorder. apply length_map. Qed.

Section Reordered.

Variable header : list string.
Variable perm : list nat.
Hypothesis Hnames : NoDup (map TrimSpace header).
Hypothesis Hperm : perm ≡ₚ seq 0 (length header).

Lemma perm_bound j i : perm !! j = Some i -> (i < length header)%nat.
Proof.
  intros Hj. apply list_elem_of_lookup_2 in Hj. rewrite Hperm in Hj.
  apply elem_of_seq in Hj. lia.
Qed.

Lemma perm_onto i : (i < length header)%nat -> exists j, perm !! j = Some i.
Proof.
  intros Hi. apply list_elem_of_lookup_1. rewrite Hperm.
  apply elem_of_seq. lia.
Qed.

Lemma perm_NoDup : NoDup perm.
Proof. rewrite Hperm. apply NoDup_seq. Qed.

Lemma reorder_names j name :
  map TrimSpace (reorder perm header) !! j = Some name
  <-> exists i, perm !! j = Some i /\ map TrimSpace header !! i = Some name.
Proof.
  change (map TrimSpace ?l) with (TrimSpace <$> l).
  rewrite !list_lookup_fmap. split.
  - intros H. destruct (reorder perm header !! j) as [c|] eqn:E; [|done].
    simpl in H. injection H as <-.
    assert (Hj : (j < length perm)%nat).
    { rewrite <- (reorder_length perm header). by eapply lookup_lt_Some. }
    destruct (lookup_lt_is_Some_2 perm j Hj) as [i Hi].
    exists i. split; [done|].
    rewrite (reorder_lookup perm header j i Hi (perm_bound j i Hi)) in E.
    by rewrite list_lookup_fmap, E.
  - intros (i & Hi & H). rewrite list_lookup_fmap in H.
    by rewrite (reorder_lookup perm header j i Hi (perm_bound j i Hi)).
Qed.

Lemma reorder_names_NoDup : NoDup (map TrimSpace (reorder perm header)).
Proof.
  apply NoDup_alt. intros j1 j2 name H1 H2.
  apply reorder_names in H1 as (i1 & Hp1 & Hn1).
  apply reorder_names in H2 as (i2 & Hp2 & Hn2).
  assert (i1 = i2) by (eapply NoDup_lookup; eauto). subst i2.
  eapply NoDup_lookup; [apply perm_NoDup| |]; eauto.
Qed.

(** A name is found in the reordered header exactly when it is found in
    the header, and it leads to the same cell of every record. *)
Lemma colIndex_reorder name :
  match colIndex TrimSpace header !! name,
        colIndex TrimSpace (reorder perm header) !! name with
  | Some i, Some j => perm !! j = Some i
  | None, None => True
  | _, _ => False
  end.
Proof.
  destruct (colIndex TrimSpace header !! name) as [i|] eqn:E.
  - apply colIndex_spec in E; [|done].
    assert (Hi : (i < length header)%nat).
    { apply lookup_lt_Some in E. by rewrite length_map in E. }
    destruct (perm_onto i Hi) as [j Hj].
    assert (E' : colIndex TrimSpace (reorder perm header) !! name = Some j).
    { apply colIndex_spec; [apply reorder_names_NoDup|].
      apply reorder_names. by exists i. }
    by rewrite E'.
  - destruct (colIndex TrimSpace (reorder perm header) !! name) as [j|] eqn:E';
      [|done].
    apply colIndex_spec in E'; [|apply reorder_names_NoDup].
    apply reorder_names in E' as (i & _ & Hn).
    apply colIndex_spec in Hn; [|done]. congruence.
Qed.

Lemma cell_reorder name record :
  length record = length header ->
  cell (colIndex TrimSpace (reorder perm header) !! name)
       (reorder perm record)
  = cell (colIndex TrimSpace header !! name) record.
Proof.
  intros Hlen. pose proof (colIndex_reorder name) as H.
  destruct (colIndex TrimSpace header !! name) as [i|],
           (colIndex TrimSpace (reorder perm header) !! name) as [j|];
    try done.
  simpl. apply reorder_lookup; [done|].
  rewrite Hlen. by eapply perm_bound.
Qed.

End Reordered.

Lemma rows_ext (f : list string -> list string) step step' :
  forall rs t i,
    (forall t i r, r ∈ rs -> step' t i (f r) = step t i r) ->
    rows step' t i (map f rs) = rows step t i rs.
Proof.
  induction rs as [|r rs IH]; intros t i H; [done|].
  simpl. rewrite H by left. apply IH.
  intros t' i' r' Hr'. apply H. by right.
Qed.

End PlotFacts.

(** C6, as the code has it. [GeneratePlot] of src/plot.go is a function
    of the records read from the CSV file and finds every column it
    reads by its header name, not by its position. The index it keeps
    for a name is the position of the column with that trimmed name
    (the last one, if the name is there twice). The outcome is the
    error for a file of fewer than two rows, the error for the first of
    seq, recv_time, latency_ms and lost that no column is called, and
    else the page made by the loop over the rows with those positions,
    net_latency_ms and server_proc_ms being read when they are there.
    So two files whose rows have the same cells under these six names
    give the same outcome, whatever other columns they have; and a file
    with distinctly named columns put in another order, header and rows
    alike, gives the same page or the same error. No column sent_time
    is looked for. *)
Theorem plot_reads_columns_by_name :
  forall (TrimSpace : string -> string) (ParseFloat : string -> float * bool)
         (htmlTemplate : string),
    let names := ["seq"; "recv_time"; "latency_ms"; "lost";
                  "net_latency_ms"; "server_proc_ms"]%string in
    (forall (header : list string) (name : string),
        plot.colIndex TrimSpace header !! name
        = plot.position TrimSpace name header)
    /\ (forall (header : list string) (name : string) (j : nat),
           plot.position TrimSpace name header = Some j
           <-> map TrimSpace header !! j = Some name
               /\ forall k, (j < k)%nat ->
                            map TrimSpace header !! k <> Some name)
    /\ (forall records : list (list string),
           let header := hd [] records in
           plot.GeneratePlot TrimSpace ParseFloat htmlTemplate records
           = if (length records <? 2)%nat
             then plot.Failed "CSV file is empty or has no data rows"
             else
               match plot.position TrimSpace "seq" header with
               | None => plot.Failed "CSV missing required column: seq"
               | Some seqIdx =>
               match plot.position TrimSpace "recv_time" header with
               | None => plot.Failed "CSV missing required column: recv_time"
               | Some recvIdx =>
               match plot.position TrimSpace "latency_ms" header with
               | None => plot.Failed "CSV missing required column: latency_ms"
               | Some latIdx =>
               match plot.position TrimSpace "lost" header with
               | None => plot.Failed "CSV missing required column: lost"
               | Some lostIdx =>
                   let netIdx :=
                     plot.position TrimSpace "net_latency_ms" header in
                   let serverIdx :=
                     plot.position TrimSpace "server_proc_ms" header in
                   plot.Generated
                     (plot.render htmlTemplate
                        (bool_decide (is_Some netIdx))
                        (bool_decide (is_Some serverIdx))
                        (plot.rows
                           (plot.row ParseFloat seqIdx recvIdx latIdx lostIdx
                                     netIdx serverIdx)
                           {| plot.dataJSON := "["; plot.totalPackets := 0;
                              plot.lostPackets := 0; plot.totalLatency := 0;
                              plot.maxLatency := 0; plot.totalNet := 0;
                              plot.totalServer := 0;
                              plot.receivedCount := 0 |}
                           0 (tail records)))
               end end end end)
    /\ (forall records records' : list (list string),
           length records = length records' ->
           (forall name, name ∈ names ->
              is_Some (plot.position TrimSpace name (hd [] records))
              <-> is_Some (plot.position TrimSpace name (hd [] records'))) ->
           Forall2 (fun r r' =>
                      forall name, name ∈ names ->
                        plot.named TrimSpace (hd [] records) name r
                        = plot.named TrimSpace (hd [] records') name r')
                   (tail records) (tail records') ->
           plot.GeneratePlot TrimSpace ParseFloat htmlTemplate records
           = plot.GeneratePlot TrimSpace ParseFloat htmlTemplate records')
    /\ (forall (records : list (list string)) (perm : list nat),
           NoDup (map TrimSpace (hd [] records)) ->
           Forall (fun r => length r = length (hd [] records)) records ->
           perm ≡ₚ seq 0 (length (hd [] records)) ->
           plot.GeneratePlot TrimSpace ParseFloat htmlTemplate
             (map (plot.reorder perm) records)
           = plot.GeneratePlot TrimSpace ParseFloat htmlTemplate records).
Proof.
  intros TrimSpace ParseFloat htmlTemplate names.
  split; [intros header name; apply colIndex_position|].
  split; [intros header name j; apply position_spec|].
  split; [intros records; apply GeneratePlot_by_position|].
  split.
  - intros records records' Hlen Hpres Hcells.
    rewrite !GeneratePlot_by_position. cbv zeta. rewrite Hlen.
    destruct (length records' <? 2)%nat; [done|].
    assert (Hin : forall name, name ∈ names ->
              match plot.position TrimSpace name (hd [] records),
                    plot.position TrimSpace name (hd [] records') with
              | Some a, Some a' =>
                  Forall2 (fun r r' => r !! a = r' !! a')
                          (tail records) (tail records')
              | None, None => True
              | _, _ => False
              end).
    { intros name Hname. pose proof (Hpres name Hname) as [H1 H2].
      destruct (plot.position TrimSpace name (hd [] records)) as [a|] eqn:E,
        (plot.position TrimSpace name (hd [] records')) as [a'|] eqn:E'.
      - eapply Forall2_impl; [exact Hcells|]. intros r r' Hr.
        specialize (Hr name Hname). unfold plot.named in Hr.
        by rewrite E, E' in Hr.
      - by destruct H1.
      - by destruct H2.
      - done. }
    assert (Hcell : forall name, name ∈ names ->
              Forall2 (fun r r' =>
                         plot.cell (plot.position TrimSpace name
                                      (hd [] records)) r
                         = plot.cell (plot.position TrimSpace name
                                        (hd [] records')) r')
                      (tail records) (tail records')).
    { intros name Hname. eapply Forall2_impl; [exact Hcells|].
      intros r r' Hr. exact (Hr name Hname). }
    pose proof (Hin "seq"%string ltac:(repeat first [left | right])) as Hseq.
    pose proof (Hin "recv_time"%string ltac:(repeat first [left | right])) as Hrecv.
    pose proof (Hin "latency_ms"%string ltac:(repeat first [left | right])) as Hlat.
    pose proof (Hin "lost"%string ltac:(repeat first [left | right])) as Hlost.
    pose proof (Hcell "net_latency_ms"%string ltac:(repeat first [left | right])) as Hnet.
    pose proof (Hcell "server_proc_ms"%string ltac:(repeat first [left | right])) as Hsrv.
    pose proof (Hpres "net_latency_ms"%string ltac:(repeat first [left | right])) as Pnet.
    pose proof (Hpres "server_proc_ms"%string ltac:(repeat first [left | right])) as Psrv.
    destruct (plot.position TrimSpace "seq" (hd [] records)) as [a|],
      (plot.position TrimSpace "seq" (hd [] records')) as [a'|]; try done.
    destruct (plot.position TrimSpace "recv_time" (hd [] records)) as [b|],
      (plot.position TrimSpace "recv_time" (hd [] records')) as [b'|];
      try done.
    destruct (plot.position TrimSpace "latency_ms" (hd [] records)) as [c|],
      (plot.position TrimSpace "latency_ms" (hd [] records')) as [c'|];
      try done.
    destruct (plot.position TrimSpace "lost" (hd [] records)) as [d|],
      (plot.position TrimSpace "lost" (hd [] records')) as [d'|]; try done.
    rewrite (bool_decide_ext _ _ Pnet), (bool_decide_ext _ _ Psrv).
    do 2 f_equal.
    apply (rows_Forall2
             (fun r r' =>
                (r !! a = r' !! a' /\ r !! b = r' !! b')
                /\ (r !! c = r' !! c' /\ r !! d = r' !! d')
                /\ plot.cell (plot.position TrimSpace "net_latency_ms"
                                (hd [] records)) r
                   = plot.cell (plot.position TrimSpace "net_latency_ms"
                                  (hd [] records')) r'
                /\ plot.cell (plot.position TrimSpace "server_proc_ms"
                                (hd [] records)) r
                   = plot.cell (plot.position TrimSpace "server_proc_ms"
                                  (hd [] records')) r')).
    + clear -Hseq Hrecv Hlat Hlost Hnet Hsrv.
      revert Hseq Hrecv Hlat Hlost Hnet Hsrv.
      generalize (tail records) (tail records'). intros rs rs' H.
      induction H as [|r r' rs rs' Hr _ IH]; intros H2 H3 H4 H5 H6.
      * constructor.
      * apply Forall2_cons in H2 as [? ?]. apply Forall2_cons in H3 as [? ?].
        apply Forall2_cons in H4 as [? ?]. apply Forall2_cons in H5 as [? ?].
        apply Forall2_cons in H6 as [? ?].
        constructor; [done|]. by apply IH.
    + intros t i r r' ([? ?] & [? ?] & ? & ?). by apply row_cells.
  - intros records perm Hnames Hrect Hperm.
    unfold plot.GeneratePlot. rewrite length_map.
    destruct (length records <? 2)%nat; [done|].
    destruct records as [|header rs].
    { simpl in *. apply Permutation_nil_r in Hperm. by subst perm. }
    simpl hd in *. simpl tail. apply Forall_cons in Hrect as [_ Hrect].
    rewrite Forall_forall in Hrect.
    pose proof (colIndex_reorder TrimSpace header perm Hnames Hperm) as Hidx.
    pose proof (cell_reorder TrimSpace header perm Hnames Hperm) as Hcell.
    pose proof (Hidx "seq"%string) as Hseq.
    pose proof (Hidx "recv_time"%string) as Hrecv.
    pose proof (Hidx "latency_ms"%string) as Hlat.
    pose proof (Hidx "lost"%string) as Hlost.
    pose proof (Hidx "net_latency_ms"%string) as Hnet.
    pose proof (Hidx "server_proc_ms"%string) as Hsrv.
    pose proof (Hcell "seq"%string) as Cseq.
    pose proof (Hcell "recv_time"%string) as Crecv.
    pose proof (Hcell "latency_ms"%string) as Clat.
    pose proof (Hcell "lost"%string) as Clost.
    pose proof (Hcell "net_latency_ms"%string) as Cnet.
    pose proof (Hcell "server_proc_ms"%string) as Csrv.
    destruct (plot.colIndex TrimSpace header !! "seq"%string) as [seqIdx|],
      (plot.colIndex TrimSpace (plot.reorder perm header) !! "seq"%string)
        as [seqIdx'|]; try done.
    destruct (plot.colIndex TrimSpace header !! "recv_time"%string)
        as [recvIdx|],
      (plot.colIndex TrimSpace (plot.reorder perm header)
         !! "recv_time"%string) as [recvIdx'|]; try done.
    destruct (plot.colIndex TrimSpace header !! "latency_ms"%string)
        as [latIdx|],
      (plot.colIndex TrimSpace (plot.reorder perm header)
         !! "latency_ms"%string) as [latIdx'|]; try done.
    destruct (plot.colIndex TrimSpace header !! "lost"%string) as [lostIdx|],
      (plot.colIndex TrimSpace (plot.reorder perm header) !! "lost"%string)
        as [lostIdx'|]; try done.
    f_equal.
    assert (Hhas : forall (a b : option nat),
               match a, b with
               | Some i, Some j => perm !! j = Some i
               | None, None => True
               | _, _ => False
               end ->
               bool_decide (is_Some b) = bool_decide (is_Some a)).
    { intros [i|] [j|] H; try done. }
    rewrite (Hhas _ _ Hnet), (Hhas _ _ Hsrv). f_equal.
    apply rows_ext. intros t i r Hr.
    assert (Hlen : length r = length header).
    { by apply Hrect. }
    unfold plot.row.
    specialize (Cseq r Hlen). specialize (Crecv r Hlen).
    specialize (Clat r Hlen). specialize (Clost r Hlen).
    specialize (Cnet r Hlen). specialize (Csrv r Hlen).
    simpl plot.cell in Cseq, Crecv, Clat, Clost.
    by rewrite Cseq, Crecv, Clat, Clost, Cnet, Csrv.
Qed.

Lemma plot_reads_columns_by_name_witness :
  plot.GeneratePlot plot.TrimSpaceASCII plot.ParseDecimal
    "T={{TOTAL_PACKETS}} L={{LOSS_PERCENT}} A={{AVG_LATENCY}} D={{DATA_JSON}}"
    (map (plot.reorder [4; 0; 5; 3; 2; 1]%nat)
       [["seq"; "sent_time"; "recv_time"; "latency_ms"; "lost"; "late"];
        ["1"; "0"; "10"; "10.00"; "false"; "false"];
        ["2"; "0"; "0"; "0.00"; "true"; "false"]]%string)
  = plot.GeneratePlot plot.TrimSpaceASCII plot.ParseDecimal
      "T={{TOTAL_PACKETS}} L={{LOSS_PERCENT}} A={{AVG_LATENCY}} D={{DATA_JSON}}"
      [["seq"; "sent_time"; "recv_time"; "latency_ms"; "lost"; "late"];
       ["1"; "0"; "10"; "10.00"; "false"; "false"];
       ["2"; "0"; "0"; "0.00"; "true"; "false"]]%string.
Proof.
  apply (proj2 (proj2 (proj2 (proj2
           (plot_reads_columns_by_name plot.TrimSpaceASCII plot.ParseDecimal
              "T={{TOTAL_PACKETS}} L={{LOSS_PERCENT}} A={{AVG_LATENCY}} D={{DATA_JSON}}"))))).
  - apply (bool_decide_unpack _). vm_compute. exact I.
  - repeat constructor.
  - apply (bool_decide_unpack _). vm_compute. exact I.
Defined.

(** C6, as it is written, counts sent_time among the columns the report
    requires and finds by name. A file with no such column gets its
    report all the same. *)
Lemma plot_reads_columns_by_name_counterexample :
  let records := [["seq"; "recv_time"; "latency_ms"; "lost"];
                  ["1"; "10"; "10.00"; "false"];
                  ["2"; "0"; "0.00"; "true"]]%string in
  ~ ((exists html,
         plot.GeneratePlot plot.TrimSpaceASCII plot.ParseDecimal
           "T={{TOTAL_PACKETS}} L={{LOSS_PERCENT}} D={{DATA_JSON}}" records
         = plot.Generated html) ->
     Forall (fun name => name ∈ map plot.TrimSpaceASCII (hd [] records))
       ["seq"; "sent_time"; "recv_time"; "latency_ms"; "lost"]%string).
Proof.
  intros records H.
  assert (Hgen : exists html,
             plot.GeneratePlot plot.TrimSpaceASCII plot.ParseDecimal
               "T={{TOTAL_PACKETS}} L={{LOSS_PERCENT}} D={{DATA_JSON}}" records
             = plot.Generated html).
  { eexists. vm_compute. reflexivity. }
  apply H in Hgen. rewrite Forall_forall in Hgen.
  assert (Hin : ("sent_time"%string : string)
                ∈ map plot.TrimSpaceASCII (hd [] records)).
  { apply Hgen. right; left. }
  revert Hin. apply (bool_decide_unpack _). vm_compute. exact I.
Qed.

(** The two earlier revisions of [GeneratePlot] kept with the sources
    (src/unnamed/part_002 and part_003) have no header lookup: they
    skip the first row unread and take the columns by position, which
    the revision of src/plot.go above repairs. There the same
    reordering gives another page. *)
Example earlier_revision_reads_by_position :
  plot.GeneratePlotByPosition plot.ParseDecimal
    "T={{TOTAL_PACKETS}} L={{LOSS_PERCENT}} A={{AVG_LATENCY}} D={{DATA_JSON}}"
    (map (plot.reorder [4; 0; 5; 3; 2; 1]%nat)
       [["seq"; "sent_time"; "recv_time"; "latency_ms"; "lost"; "late"];
        ["1"; "0"; "10"; "10.00"; "false"; "false"];
        ["2"; "0"; "0"; "0.00"; "true"; "false"]]%string)
  <> plot.GeneratePlotByPosition plot.ParseDecimal
       "T={{TOTAL_PACKETS}} L={{LOSS_PERCENT}} A={{AVG_LATENCY}} D={{DATA_JSON}}"
       [["seq"; "sent_time"; "recv_time"; "latency_ms"; "lost"; "late"];
        ["1"; "0"; "10"; "10.00"; "false"; "false"];
        ["2"; "0"; "0"; "0.00"; "true"; "false"]]%string.
Proof. vm_compute. discriminate. Qed.

(** * Further properties *)

(** ** Packets: construction, encoding, decoding *)

Section PacketFacts.

Import BigEndian.

Lemma PutUint64_drop lo k v buf buf' :
  PutUint64 lo v buf = Ok buf' ->
  (lo + 8 <= k)%nat ->
  drop k buf' = drop k buf.
Proof.
  intros (Hlen & bs & _ & Hbs & ->)%PutUint64_spec Hk.
  rewrite drop_app_ge by (rewrite length_take; lia).
  rewrite drop_app_ge by (rewrite length_take; lia).
  rewrite drop_drop, length_take. f_equal. lia.
Qed.

Lemma PutUint64_short lo v buf :
  (length buf < lo + 8)%nat -> PutUint64 lo v buf = Panic.
Proof. intros H. unfold PutUint64. case_decide; [lia|done]. Qed.

Lemma basic_encode_payload p size buf :
  Basic.packet.Encode p size = Ok buf ->
  drop 16 buf = replicate (Z.to_nat (size - 16)) Byte.x00.
Proof.
  unfold Basic.packet.Encode, Basic.packet.make_bytes.
  destruct (size <? 0) eqn:Hs; [done|]. simpl.
  destruct (PutUint64 0 _ _) as [buf1|] eqn:E1; [|done]. simpl.
  destruct (PutUint64 8 _ buf1) as [buf2|] eqn:E2; [|done]. simpl.
  intros [= <-].
  rewrite (PutUint64_drop 8 16 _ _ _ E2) by lia.
  rewrite (PutUint64_drop 0 16 _ _ _ E1) by lia.
  rewrite drop_replicate. f_equal. lia.
Qed.

Lemma extended_encode_payload p size buf :
  Extended.packet.Encode p size = Ok buf ->
  drop 24 buf = replicate (Z.to_nat (size - 24)) Byte.x00.
Proof.
  unfold Extended.packet.Encode, Extended.packet.make_bytes.
  destruct (size <? 0) eqn:Hs; [done|]. simpl.
  destruct (PutUint64 0 _ _) as [buf1|] eqn:E1; [|done]. simpl.
  destruct (PutUint64 8 _ buf1) as [buf2|] eqn:E2; [|done]. simpl.
  destruct (PutUint64 16 _ buf2) as [buf3|] eqn:E3; [|done]. simpl.
  intros [= <-].
  rewrite (PutUint64_drop 16 24 _ _ _ E3) by lia.
  rewrite (PutUint64_drop 8 24 _ _ _ E2) by lia.
  rewrite (PutUint64_drop 0 24 _ _ _ E1) by lia.
  rewrite drop_replicate. f_equal. lia.
Qed.

Lemma basic_encode_short p size :
  size < 16 -> Basic.packet.Encode p size = Panic.
Proof.
  intros Hs. unfold Basic.packet.Encode, Basic.packet.make_bytes.
  destruct (Z.ltb_spec size 0); [done|]. simpl.
  destruct (decide (8 <= Z.to_nat size)%nat) as [H8|H8].
  - destruct (PutUint64_ok 0 (Basic.packet.SeqNum p)
                (replicate (Z.to_nat size) Byte.x00)) as [buf1 E1].
    { rewrite length_replicate. lia. }
    rewrite E1. simpl.
    rewrite PutUint64_short; [done|].
    rewrite (PutUint64_length _ _ _ _ E1), length_replicate. lia.
  - rewrite PutUint64_short; [done|]. rewrite length_replicate. lia.
Qed.

Lemma extended_encode_short p size :
  size < 24 -> Extended.packet.Encode p size = Panic.
Proof.
  intros Hs. unfold Extended.packet.Encode, Extended.packet.make_bytes.
  destruct (Z.ltb_spec size 0); [done|]. simpl.
  set (buf0 := replicate (Z.to_nat size) Byte.x00).
  assert (H0 : length buf0 = Z.to_nat size) by apply length_replicate.
  destruct (PutUint64 0 (Extended.packet.SeqNum p) buf0) as [buf1|] eqn:E1;
    [|done]. simpl.
  pose proof (PutUint64_length _ _ _ _ E1) as H1.
  destruct (PutUint64 8 _ buf1) as [buf2|] eqn:E2; [|done]. simpl.
  pose proof (PutUint64_length _ _ _ _ E2) as H2.
  rewrite PutUint64_short; [done|]. lia.
Qed.

End PacketFacts.

(** X1. A packet made by [NewPacket] for a size of at least the header,
    encoded to that size and decoded, is the packet itself, payload
    included. Both variants; the fields range over their Go types. *)
Theorem new_packet_roundtrip :
  (forall now seqNum size : Z,
      Int.is_uint64 seqNum -> Int.is_int64 now ->
      Basic.packet.HeaderSize <= size ->
      exists p buf,
        Basic.packet.NewPacket now seqNum size = Ok p
        /\ Basic.packet.Encode p size = Ok buf
        /\ Z.of_nat (length (Basic.packet.Payload p))
           = size - Basic.packet.HeaderSize
        /\ Basic.packet.DecodePacket buf = Ok (Some p))
  /\
  (forall seqNum size timestamp : Z,
      Int.is_uint64 seqNum -> Int.is_int64 timestamp ->
      Extended.packet.HeaderSize <= size ->
      exists p buf,
        Extended.packet.NewPacket seqNum size timestamp = Ok p
        /\ Extended.packet.Encode p size = Ok buf
        /\ Z.of_nat (length (Extended.packet.Payload p))
           = size - Extended.packet.HeaderSize
        /\ Extended.packet.DecodePacket buf = Ok (Some p)).
Proof.
  split.
  - intros now seqNum size Hseq Hnow Hsize.
    change Basic.packet.HeaderSize with 16 in *.
    unfold Basic.packet.NewPacket, Basic.packet.make_bytes.
    change Basic.packet.HeaderSize with 16.
    destruct (Z.ltb_spec (size - 16) 0) as [?|_]; [lia|]. simpl.
    set (p := Basic.packet.mkPacket seqNum now _).
    destruct (basic_encode_ok p size) as (buf & E & Hlen & Hs & Ht);
      [done|].
    exists p, buf. repeat split; [done| |].
    + simpl. rewrite length_replicate. lia.
    + pose proof (basic_encode_payload p size buf E) as Hp.
      unfold Basic.packet.DecodePacket.
      change Basic.packet.HeaderSize with 16.
      destruct (Z.ltb_spec (Z.of_nat (length buf)) 16); [lia|].
      rewrite (Uint64_bytes64 0 buf _ Hs), (Uint64_bytes64 8 buf _ Ht).
      simpl. change (Z.to_nat 16) with 16%nat. rewrite Hp.
      rewrite to_uint64_id by done. rewrite to_int64_to_uint64 by done.
      done.
  - intros seqNum size ts Hseq Hts Hsize.
    change Extended.packet.HeaderSize with 24 in *.
    unfold Extended.packet.NewPacket, Extended.packet.make_bytes.
    change Extended.packet.HeaderSize with 24.
    destruct (Z.ltb_spec (size - 24) 0) as [?|_]; [lia|]. simpl.
    set (p := Extended.packet.mkPacket seqNum ts 0 _).
    destruct (extended_encode_ok p size) as (buf & E & Hlen & Hs & Ht & Hq);
      [done|].
    exists p, buf. repeat split; [done| |].
    + simpl. rewrite length_replicate. lia.
    + pose proof (extended_encode_payload p size buf E) as Hp.
      unfold Extended.packet.DecodePacket.
      change Extended.packet.HeaderSize with 24.
      destruct (Z.ltb_spec (Z.of_nat (length buf)) 24); [lia|].
      rewrite (Uint64_bytes64 0 buf _ Hs), (Uint64_bytes64 8 buf _ Ht),
        (Uint64_bytes64 16 buf _ Hq).
      simpl. change (Z.to_nat 24) with 24%nat. rewrite Hp.
      rewrite to_uint64_id by done.
      rewrite !to_int64_to_uint64; try done;
        unfold Int.is_int64, Int.two63; simpl; lia.
Qed.

Lemma new_packet_roundtrip_witness :
  (exists p buf,
      Basic.packet.NewPacket 1700000000000000000 7 20 = Ok p
      /\ Basic.packet.Encode p 20 = Ok buf
      /\ Z.of_nat (length (Basic.packet.Payload p))
         = 20 - Basic.packet.HeaderSize
      /\ Basic.packet.DecodePacket buf = Ok (Some p))
  /\
  (exists p buf,
      Extended.packet.NewPacket 7 24 1700000000000000000 = Ok p
      /\ Extended.packet.Encode p 24 = Ok buf
      /\ Z.of_nat (length (Extended.packet.Payload p))
         = 24 - Extended.packet.HeaderSize
      /\ Extended.packet.DecodePacket buf = Ok (Some p)).
Proof.
  split.
  - apply (proj1 new_packet_roundtrip 1700000000000000000 7 20);
      unfold Int.is_uint64, Int.is_int64, Int.two64, Int.two63,
        Basic.packet.HeaderSize, Basic.packet.SeqNumSize,
        Basic.packet.TimestampSize; simpl; lia.
  - apply (proj2 new_packet_roundtrip 7 24 1700000000000000000);
      unfold Int.is_uint64, Int.is_int64, Int.two64, Int.two63,
        Extended.packet.HeaderSize, Extended.packet.SeqNumSize,
        Extended.packet.TimestampSize, Extended.packet.ProcTimeSize;
      simpl; lia.
Defined.

(** X2. [Encode] never looks at [p.Payload]: whatever it holds, the
    bytes after the header of an encoded packet are zero, so a decoded
    packet that is encoded again loses its payload. Both variants. *)
Theorem encode_payload_is_zero :
  (forall (p : Basic.packet.Packet) (size : Z) buf,
      Basic.packet.Encode p size = Ok buf ->
      drop 16 buf = replicate (Z.to_nat (size - 16)) Byte.x00
      /\ Basic.packet.Encode
           (Basic.packet.mkPacket (Basic.packet.SeqNum p)
              (Basic.packet.Timestamp p) [])
           size = Ok buf)
  /\
  (forall (p : Extended.packet.Packet) (size : Z) buf,
      Extended.packet.Encode p size = Ok buf ->
      drop 24 buf = replicate (Z.to_nat (size - 24)) Byte.x00
      /\ Extended.packet.Encode
           (Extended.packet.mkPacket (Extended.packet.SeqNum p)
              (Extended.packet.Timestamp p)
              (Extended.packet.ServerProcNs p) [])
           size = Ok buf).
Proof.
  split; intros p size buf E.
  - split; [by apply (basic_encode_payload p)|]. exact E.
  - split; [by apply (extended_encode_payload p)|]. exact E.
Qed.

Lemma encode_payload_is_zero_witness :
  drop 16 (map BigEndian.byte_of
             [0;0;0;0;0;0;0;9; 0;0;0;0;0;0;0;5; 0;0;0])
  = replicate (Z.to_nat (19 - 16)) Byte.x00
  /\ Basic.packet.Encode (Basic.packet.mkPacket 9 5 []) 19
     = Ok (map BigEndian.byte_of [0;0;0;0;0;0;0;9; 0;0;0;0;0;0;0;5; 0;0;0]).
Proof.
  apply (proj1 encode_payload_is_zero
           (Basic.packet.mkPacket 9 5 (map BigEndian.byte_of [1; 2; 3])) 19).
  reflexivity.
Defined.

(** X3. Below the header size there is no packet: [Encode] and
    [NewPacket] panic for every size under [HeaderSize] (slice bounds,
    negative length), negative sizes included. Both variants. *)
Theorem encode_below_header_panics :
  (forall (p : Basic.packet.Packet) (now seqNum size : Z),
      size < Basic.packet.HeaderSize ->
      Basic.packet.Encode p size = Panic
      /\ Basic.packet.NewPacket now seqNum size = Panic)
  /\
  (forall (p : Extended.packet.Packet) (seqNum size timestamp : Z),
      size < Extended.packet.HeaderSize ->
      Extended.packet.Encode p size = Panic
      /\ Extended.packet.NewPacket seqNum size timestamp = Panic).
Proof.
  split.
  - intros p now seqNum size Hs. change Basic.packet.HeaderSize with 16 in Hs.
    split; [by apply basic_encode_short|].
    unfold Basic.packet.NewPacket, Basic.packet.make_bytes.
    change Basic.packet.HeaderSize with 16.
    destruct (Z.ltb_spec (size - 16) 0); [done|lia].
  - intros p seqNum size ts Hs.
    change Extended.packet.HeaderSize with 24 in Hs.
    split; [by apply extended_encode_short|].
    unfold Extended.packet.NewPacket, Extended.packet.make_bytes.
    change Extended.packet.HeaderSize with 24.
    destruct (Z.ltb_spec (size - 24) 0); [done|lia].
Qed.

Lemma encode_below_header_panics_witness :
  Basic.packet.Encode (Basic.packet.mkPacket 1 2 []) 15 = Panic
  /\ Basic.packet.NewPacket 0 1 15 = Panic.
Proof.
  apply (proj1 encode_below_header_panics (Basic.packet.mkPacket 1 2 []) 0 1 15).
  unfold Basic.packet.HeaderSize, Basic.packet.SeqNumSize,
    Basic.packet.TimestampSize. simpl. lia.
Defined.

(** ** The echo server *)

Section BasicServerFacts.

Import Basic.server.

Lemma basic_serve_replies st i :
  replies (serve st i).2 = datagrams [i].
Proof.
  destruct i as [err|data a werr]; [done|]. simpl.
  rewrite take_app_length.
  destruct (negb (known (clients st) a)), werr; done.
Qed.

Lemma basic_RunServer_cons st i rest :
  RunServer st (i :: rest)
  = ((RunServer (serve st i).1 rest).1,
     (serve st i).2 ++ (RunServer (serve st i).1 rest).2).
Proof.
  simpl. destruct (serve st i) as [st' out]. simpl.
  by destruct (RunServer st' rest).
Qed.

Lemma basic_replies_app out out' :
  replies (out ++ out') = replies out ++ replies out'.
Proof. apply omap_app. Qed.

Lemma basic_announced_app out out' :
  announced (out ++ out') = announced out ++ announced out'.
Proof. apply omap_app. Qed.

Lemma basic_serve_announced st i :
  match i with
  | ReadError _ => announced (serve st i).2 = []
                   /\ clients (serve st i).1 = clients st
  | Datagram _ a _ =>
      (if known (clients st) a
       then announced (serve st i).2 = []
       else announced (serve st i).2 = [a])
      /\ forall b, known (clients (serve st i).1) b = true
                   <-> known (clients st) b = true \/ b = a
  end.
Proof.
  destruct i as [err|data a werr]; [done|]. simpl.
  destruct (known (clients st) a) eqn:Hk; simpl.
  - split; [by destruct werr|]. intros b. split; [by left|].
    intros [H| ->]; done.
  - split; [by destruct werr|]. intros b. unfold known.
    destruct (decide (a = b)) as [->|Hne].
    + rewrite lookup_insert_eq. split; [by right|done].
    + rewrite lookup_insert_ne by done. split; [by left|].
      intros [H|H]; [done|congruence].
Qed.

Lemma elem_of_basic_datagrams a inputs :
  a ∈ (datagrams inputs).*2
  <-> exists data werr, Datagram data a werr ∈ inputs.
Proof.
  rewrite list_elem_of_fmap. unfold datagrams. split.
  - intros ([d b] & -> & H). apply list_elem_of_omap in H as (i & Hi & E).
    destruct i as [|data c werr]; [done|]. injection E as <- <-.
    by exists data, werr.
  - intros (data & werr & H). exists (data, a). split; [done|].
    apply list_elem_of_omap. by exists (Datagram data a werr).
Qed.

Lemma basic_server_announced inputs : forall st,
  NoDup (announced (RunServer st inputs).2)
  /\ (forall a, a ∈ announced (RunServer st inputs).2
                <-> known (clients st) a = false
                    /\ a ∈ (datagrams inputs).*2)
  /\ (forall a, known (clients (RunServer st inputs).1) a = true
                <-> known (clients st) a = true
                    \/ a ∈ (datagrams inputs).*2).
Proof.
  induction inputs as [|i rest IH]; intros st.
  - simpl. split; [constructor|]. split; intros a.
    + split; [by intros ?%elem_of_nil|]. by intros [_ ?%elem_of_nil].
    + split; [by left|]. by intros [?|?%elem_of_nil].
  - rewrite basic_RunServer_cons. cbn [fst snd].
    rewrite basic_announced_app.
    pose proof (basic_serve_announced st i) as Hs.
    remember (serve st i) as r eqn:Hr. clear Hr.
    destruct (IH r.1) as (Hnd & Hin & Hk).
    destruct i as [err|data a werr].
    + destruct Hs as [-> Hc]. simpl app. rewrite Hc in Hin, Hk.
      change (datagrams (ReadError err :: rest)) with (datagrams rest).
      done.
    + destruct Hs as [Ha Hc].
      change (datagrams (Datagram data a werr :: rest))
        with ((data, a) :: datagrams rest).
      rewrite fmap_cons. cbn [snd].
      destruct (known (clients st) a) eqn:Hka.
      * rewrite Ha. simpl app. split; [done|]. split; intros b.
        -- rewrite Hin. split.
           ++ intros [Hb Hrest]. split; [|by right].
              destruct (known (clients st) b) eqn:Hkb; [|done].
              assert (known (clients r.1) b = true) by (apply Hc; by left).
              congruence.
           ++ intros [Hb Hrest].
              apply elem_of_cons in Hrest as [->|Hrest]; [congruence|].
              split; [|done].
              destruct (known (clients r.1) b) eqn:Hkb; [|done].
              apply Hc in Hkb as [?| ->]; congruence.
        -- rewrite Hk, Hc, elem_of_cons. split.
           ++ intros [[?| ->]|?]; auto.
           ++ intros [?|[->|?]]; auto.
      * rewrite Ha. simpl app. split; [|split; intros b].
        -- apply NoDup_cons. split; [|done]. rewrite Hin. intros [Hb _].
           assert (known (clients r.1) a = true) by (apply Hc; by right).
           congruence.
        -- rewrite elem_of_cons, Hin. split.
           ++ intros [->|[Hb Hrest]]; [split; [done|left]|].
              split; [|by right].
              destruct (known (clients st) b) eqn:Hkb; [|done].
              assert (known (clients r.1) b = true) by (apply Hc; by left).
              congruence.
           ++ intros [Hb Hrest].
              destruct (decide (b = a)) as [->|Hne]; [by left|right].
              apply elem_of_cons in Hrest as [->|Hrest]; [done|].
              split; [|done].
              destruct (known (clients r.1) b) eqn:Hkb; [|done].
              apply Hc in Hkb as [?| ->]; congruence.
        -- rewrite Hk, Hc, elem_of_cons. split.
           ++ intros [[?| ->]|?]; auto.
           ++ intros [?|[->|?]]; auto.
Qed.

End BasicServerFacts.

(** X4. The basic server is an exact echo: over any turns of its loop,
    from any state, the replies handed to [WriteTo] are the datagrams
    read, byte for byte, each to its sender and in the order read; a
    failed read or a failed write stops nothing. *)
Theorem basic_server_echoes :
  forall (st : Basic.server.state) (inputs : list Basic.server.input),
    Basic.server.replies (Basic.server.RunServer st inputs).2
    = Basic.server.datagrams inputs.
Proof.
  intros st inputs. revert st.
  induction inputs as [|i rest IH]; intros st; [done|].
  rewrite basic_RunServer_cons. simpl snd.
  rewrite basic_replies_app, IH, basic_serve_replies.
  unfold Basic.server.datagrams. simpl.
  by destruct i.
Qed.

(** X5. The basic server announces every client once: over any turns of
    its loop from the start, the "New client connected" lines name
    exactly the addresses datagrams came from, none of them twice. *)
Theorem basic_server_announces_once :
  forall inputs : list Basic.server.input,
    let out := (Basic.server.RunServer Basic.server.start inputs).2 in
    NoDup (Basic.server.announced out)
    /\ forall a,
         a ∈ Basic.server.announced out
         <-> exists data werr, Basic.server.Datagram data a werr ∈ inputs.
Proof.
  intros inputs out.
  destruct (basic_server_announced inputs Basic.server.start)
    as (Hnd & Hin & _).
  split; [done|]. intros a. fold out in Hin. rewrite Hin.
  rewrite elem_of_basic_datagrams. split; [by intros [_ ?]|].
  intros H. split; [|done]. done.
Qed.

Section ExtendedServerFacts.

Import Extended.server.

Lemma ext_serve_spec st data a procNs werr :
  Z.of_nat (length (buf st)) = 65535 ->
  Z.of_nat (length data) <= 65535 ->
  exists st' out,
    serve st (Datagram data a procNs werr) = Ok (st', out)
    /\ Z.of_nat (length (buf st')) = 65535
    /\ replies out = [(stamped procNs data, a)].
Proof.
  intros Hbuf Hdata. unfold serve, stamped.
  change Extended.packet.HeaderSize with 24.
  set (n := length data).
  set (buf' := data ++ drop n (buf st)).
  assert (Hlen' : Z.of_nat (length buf') = 65535).
  { unfold buf'. rewrite length_app, length_drop. lia. }
  destruct (Z.leb_spec 24 (Z.of_nat n)) as [Hge|Hlt].
  - destruct (Nat.ltb_spec n 24) as [?|_]; [lia|].
    destruct (BigEndian.PutUint64 16 (Int.to_uint64 procNs) buf')
      as [buf''|] eqn:E.
    2:{ destruct (PutUint64_ok 16 (Int.to_uint64 procNs) buf') as [? E'];
          [lia|congruence]. }
    simpl. eexists _, _. split; [reflexivity|]. simpl.
    split; [by rewrite (PutUint64_length _ _ _ _ E)|].
    assert (Hr : take n buf''
                 = take 16 data
                   ++ BigEndian.bytes64 (Int.to_uint64 procNs)
                   ++ drop 24 data).
    { apply PutUint64_spec in E as (_ & bs & <- & Hbs & ->).
      assert (H16 : take 16 buf' = take 16 data).
      { unfold buf'. apply take_app_le. fold n. lia. }
      assert (H24 : drop (16 + 8) buf' = drop 24 data ++ drop n (buf st)).
      { unfold buf'. apply drop_app_le. fold n. lia. }
      rewrite H16, H24, !app_assoc. apply take_app_length'.
      rewrite !length_app, length_take, length_drop. fold n. lia. }
    rewrite Hr.
    by destruct (negb (known (clients st) a)), werr.
  - destruct (Nat.ltb_spec n 24) as [_|?]; [|lia].
    simpl. eexists _, _. split; [reflexivity|]. simpl.
    split; [done|]. unfold buf', n. rewrite take_app_length.
    by destruct (negb (known (clients st) a)), werr.
Qed.

Lemma ext_serve_read_error st err :
  serve st (ReadError err) = Ok (st, [ReadErrorPrinted err]).
Proof. done. Qed.

Lemma extended_decode_fields data :
  (24 <= length data)%nat ->
  Extended.packet.DecodePacket data
  = Ok (Some
      {| Extended.packet.SeqNum := BigEndian.be_value (take 8 data);
         Extended.packet.Timestamp :=
           Int.to_int64 (BigEndian.be_value (take 8 (drop 8 data)));
         Extended.packet.ServerProcNs :=
           Int.to_int64 (BigEndian.be_value (take 8 (drop 16 data)));
         Extended.packet.Payload := drop 24 data |}).
Proof.
  intros Hlen. unfold Extended.packet.DecodePacket.
  change Extended.packet.HeaderSize with 24.
  destruct (Z.ltb_spec (Z.of_nat (length data)) 24); [lia|].
  rewrite !Uint64_value by lia. done.
Qed.

Lemma be_value_bytes64 v :
  BigEndian.be_value (BigEndian.bytes64 v) = v mod Int.two64.
Proof.
  assert (H : take 8 (drop 0 (BigEndian.bytes64 v)) = BigEndian.bytes64 v)
    by done.
  pose proof (Uint64_bytes64 0 _ _ H) as E.
  apply Uint64_be_value in E. by rewrite H in E.
Qed.

(** The stamped datagram: the length and all fields but the
    processing time are kept. *)
Lemma ext_stamped_spec (data : list Byte.byte) (procNs : Z) :
  Int.is_int64 procNs ->
  length (Extended.server.stamped procNs data) = length data
  /\ ((length data < 24)%nat -> Extended.server.stamped procNs data = data)
  /\ ((24 <= length data)%nat ->
      exists q,
        Extended.packet.DecodePacket data = Ok (Some q)
        /\ Extended.packet.DecodePacket (Extended.server.stamped procNs data)
           = Ok (Some {| Extended.packet.SeqNum := Extended.packet.SeqNum q;
                         Extended.packet.Timestamp :=
                           Extended.packet.Timestamp q;
                         Extended.packet.ServerProcNs := procNs;
                         Extended.packet.Payload :=
                           Extended.packet.Payload q |})).
Proof.
  intros Hp. unfold Extended.server.stamped.
  destruct (Nat.ltb_spec (length data) 24) as [Hlt|Hge].
  - split; [done|]. split; [done|lia].
  - split.
    { rewrite !length_app, length_take, length_drop.
      change (length (BigEndian.bytes64 (Int.to_uint64 procNs))) with 8%nat.
      lia. }
    split; [lia|]. intros _.
    set (bs := BigEndian.bytes64 (Int.to_uint64 procNs)).
    assert (Hbs : length bs = 8%nat) by done.
    assert (H0 : take 8 (take 16 data ++ bs ++ drop 24 data) = take 8 data).
    { rewrite take_app_le by (rewrite length_take; lia).
      rewrite take_take. f_equal. }
    assert (H8 : take 8 (drop 8 (take 16 data ++ bs ++ drop 24 data))
                 = take 8 (drop 8 data)).
    { apply list_eq. intros i.
      destruct (decide (i < 8)%nat) as [Hi|Hi].
      - rewrite !lookup_take_lt by lia. rewrite !lookup_drop.
        rewrite lookup_app_l by (rewrite length_take; lia).
        by rewrite lookup_take_lt by lia.
      - by rewrite !lookup_take_ge by lia. }
    assert (H16 : take 8 (drop 16 (take 16 data ++ bs ++ drop 24 data)) = bs).
    { rewrite drop_app_length' by (rewrite length_take; lia).
      by rewrite take_app_length'. }
    assert (H24 : drop 24 (take 16 data ++ bs ++ drop 24 data)
                  = drop 24 data).
    { rewrite app_assoc. apply drop_app_length'.
      rewrite length_app, length_take. lia. }
    eexists. split; [by apply extended_decode_fields|].
    rewrite extended_decode_fields.
    2:{ rewrite !length_app, length_take, length_drop. lia. }
    rewrite H0, H8, H16, H24. cbn [Extended.packet.SeqNum
      Extended.packet.Timestamp Extended.packet.Payload].
    do 3 f_equal.
    unfold bs. rewrite be_value_bytes64. by apply to_int64_to_uint64.
Qed.

End ExtendedServerFacts.

(** X6. One turn of the loop of the extended server, for a datagram
    that fits its buffer of 65535 bytes: the turn returns, keeps the
    buffer, and hands exactly one reply to [WriteTo], for the sender.
    The reply has the length of the datagram. For a datagram shorter
    than 24 bytes it is the datagram; for a longer one it decodes to
    the packet the datagram decoded to with [ServerProcNs] set to the
    processing time: nothing but that field is changed. *)
Theorem extended_server_stamps :
  forall (st : Extended.server.state) (data : list Byte.byte)
         (clientAddr : string) (procNs : Z) (werr : option string),
    Z.of_nat (length (Extended.server.buf st)) = 65535 ->
    Z.of_nat (length data) <= 65535 ->
    Int.is_int64 procNs ->
    exists (st' : Extended.server.state) (out : list Extended.server.output)
           (reply : list Byte.byte),
      Extended.server.serve st
        (Extended.server.Datagram data clientAddr procNs werr)
      = Ok (st', out)
      /\ Z.of_nat (length (Extended.server.buf st')) = 65535
      /\ Extended.server.replies out = [(reply, clientAddr)]
      /\ length reply = length data
      /\ ((length data < 24)%nat -> reply = data)
      /\ ((24 <= length data)%nat ->
          exists q,
            Extended.packet.DecodePacket data = Ok (Some q)
            /\ Extended.packet.DecodePacket reply
               = Ok (Some {| Extended.packet.SeqNum :=
                               Extended.packet.SeqNum q;
                             Extended.packet.Timestamp :=
                               Extended.packet.Timestamp q;
                             Extended.packet.ServerProcNs := procNs;
                             Extended.packet.Payload :=
                               Extended.packet.Payload q |})).
Proof.
  intros st data clientAddr procNs werr Hbuf Hfit Hp.
  destruct (ext_serve_spec st data clientAddr procNs werr Hbuf Hfit)
    as (st' & out & E & Hbuf' & Hr).
  destruct (ext_stamped_spec data procNs Hp) as (Hlen & Hshort & Hlong).
  exists st', out, (Extended.server.stamped procNs data).
  repeat split; done.
Qed.

Lemma extended_server_stamps_witness :
  let data := map BigEndian.byte_of
                [0;0;0;0;0;0;0;9; 0;0;0;0;0;0;0;5; 0;0;0;0;0;0;0;0; 1;2] in
  exists (st' : Extended.server.state) (out : list Extended.server.output)
         (reply : list Byte.byte),
    Extended.server.serve Extended.server.start
      (Extended.server.Datagram data "10.0.0.1:5000" 1500 None)
    = Ok (st', out)
    /\ Z.of_nat (length (Extended.server.buf st')) = 65535
    /\ Extended.server.replies out = [(reply, "10.0.0.1:5000"%string)]
    /\ length reply = length data
    /\ ((length data < 24)%nat -> reply = data)
    /\ ((24 <= length data)%nat ->
        exists q,
          Extended.packet.DecodePacket data = Ok (Some q)
          /\ Extended.packet.DecodePacket reply
             = Ok (Some {| Extended.packet.SeqNum :=
                             Extended.packet.SeqNum q;
                           Extended.packet.Timestamp :=
                             Extended.packet.Timestamp q;
                           Extended.packet.ServerProcNs := 1500;
                           Extended.packet.Payload :=
                             Extended.packet.Payload q |})).
Proof.
  intros data.
  apply (extended_server_stamps Extended.server.start data
           "10.0.0.1:5000" 1500 None).
  - unfold Extended.server.start. cbn [Extended.server.buf].
    rewrite length_replicate. lia.
  - simpl. lia.
  - unfold Int.is_int64, Int.two63. simpl. lia.
Defined.

(** X7. The extended server never panics and answers every datagram:
    over any turns of its loop from the start, with datagrams that fit
    its buffer of 65535 bytes, it returns, and the replies handed to
    [WriteTo] are the datagrams read, stamped, each to its sender and in
    the order read. *)
Theorem extended_server_replies :
  forall inputs : list Extended.server.input,
    Forall Extended.server.fits inputs ->
    exists st out,
      Extended.server.RunServer Extended.server.start inputs = Ok (st, out)
      /\ Extended.server.replies out = Extended.server.stamps inputs.
Proof.
  intros inputs Hfit.
  assert (Hgen : forall st,
             Z.of_nat (length (Extended.server.buf st)) = 65535 ->
             exists st' out,
               Extended.server.RunServer st inputs = Ok (st', out)
               /\ Extended.server.replies out
                  = Extended.server.stamps inputs).
  { induction inputs as [|i rest IH]; intros st Hbuf.
    - by exists st, [].
    - apply Forall_cons in Hfit as [Hi Hrest].
      destruct i as [err|data a procNs werr].
      + destruct (IH Hrest st Hbuf) as (st' & out & E & Hr).
        exists st', (Extended.server.ReadErrorPrinted err :: out).
        simpl. rewrite E. simpl. split; [done|]. exact Hr.
      + destruct (ext_serve_spec st data a procNs werr Hbuf Hi)
          as (st1 & out1 & E1 & Hbuf1 & Hr1).
        destruct (IH Hrest st1 Hbuf1) as (st' & out & E & Hr).
        exists st', (out1 ++ out).
        change (Extended.server.RunServer st
                  (Extended.server.Datagram data a procNs werr :: rest))
          with (r <-! Extended.server.serve st
                        (Extended.server.Datagram data a procNs werr);
                r' <-! Extended.server.RunServer r.1 rest;
                Ok (r'.1, r.2 ++ r'.2)).
        rewrite E1. simpl. rewrite E. simpl. split; [done|].
        unfold Extended.server.replies in *. rewrite omap_app, Hr1, Hr.
        done. }
  apply Hgen. unfold Extended.server.start. cbn [Extended.server.buf].
  rewrite length_replicate. lia.
Qed.

Lemma extended_server_replies_witness :
  let inputs :=
    [Extended.server.ReadError "timeout";
     Extended.server.Datagram
       (map BigEndian.byte_of
          [0;0;0;0;0;0;0;9; 0;0;0;0;0;0;0;5; 0;0;0;0;0;0;0;0; 1;2])
       "10.0.0.1:5000" 1500 None;
     Extended.server.Datagram (map BigEndian.byte_of [1; 2; 3])
       "10.0.0.2:5000" 700 (Some "refused");
     Extended.server.Datagram
       (map BigEndian.byte_of
          [0;0;0;0;0;0;0;10; 0;0;0;0;0;0;0;6; 9;9;9;9;9;9;9;9])
       "10.0.0.1:5000" 2500 None]%string in
  exists st out,
    Extended.server.RunServer Extended.server.start inputs = Ok (st, out)
    /\ Extended.server.replies out = Extended.server.stamps inputs.
Proof.
  intros inputs. apply (extended_server_replies inputs).
  repeat constructor; simpl; lia.
Defined.

(** ** Starting a mode *)

(** X8. [main] runs a mode only when exactly one of the two mode flags
    is set, no plot file is named and the packet size is at least the
    header size, the server mode included; a plot file goes before
    everything else. The client it starts gets the flags unchanged, and
    every packet of that size can be encoded, with either header. *)
Theorem main_runs_only_valid_modes :
  (forall (h : Z) (f : main.flags),
      main.plotFile f <> EmptyString -> main.main h f = main.Plot (main.plotFile f))
  /\
  (forall (h : Z) (f : main.flags) (port : Z),
      main.main h f = main.Server port ->
      main.plotFile f = EmptyString
      /\ main.serverMode f = true /\ main.clientMode f = false
      /\ h <= main.packetSize f /\ port = main.port f)
  /\
  (forall (h : Z) (f : main.flags) (cfg : main.ClientConfig),
      main.main h f = main.Client cfg ->
      main.plotFile f = EmptyString
      /\ main.serverMode f = false /\ main.clientMode f = true
      /\ h <= main.PacketSize cfg
      /\ cfg = {| main.Host := main.host f; main.Port := main.port f;
                  main.PacketSize := main.packetSize f;
                  main.Rate := main.rate f;
                  main.Duration := main.duration f;
                  main.OutputFile := main.output f;
                  main.Burst := main.burst f;
                  main.BurstSize := main.burstSize f;
                  main.NoPlot := main.noPlot f;
                  main.LateThreshold := main.lateThreshold f |})
  /\
  (forall (f : main.flags) (cfg : main.ClientConfig)
          (p : Basic.packet.Packet),
      main.main Basic.packet.HeaderSize f = main.Client cfg ->
      exists buf, Basic.packet.Encode p (main.PacketSize cfg) = Ok buf
                  /\ Z.of_nat (length buf) = main.PacketSize cfg)
  /\
  (forall (f : main.flags) (cfg : main.ClientConfig)
          (p : Extended.packet.Packet),
      main.main Extended.packet.HeaderSize f = main.Client cfg ->
      exists buf, Extended.packet.Encode p (main.PacketSize cfg) = Ok buf
                  /\ Z.of_nat (length buf) = main.PacketSize cfg).
Proof.
  assert (Hclient : forall h f cfg,
             main.main h f = main.Client cfg ->
             main.plotFile f = EmptyString
             /\ main.serverMode f = false /\ main.clientMode f = true
             /\ h <= main.PacketSize cfg
             /\ cfg = {| main.Host := main.host f; main.Port := main.port f;
                         main.PacketSize := main.packetSize f;
                         main.Rate := main.rate f;
                         main.Duration := main.duration f;
                         main.OutputFile := main.output f;
                         main.Burst := main.burst f;
                         main.BurstSize := main.burstSize f;
                         main.NoPlot := main.noPlot f;
                         main.LateThreshold := main.lateThreshold f |}).
  { intros h f cfg. unfold main.main.
    destruct (String.eqb_spec (main.plotFile f) EmptyString) as [Hp|Hp];
      [|done]. simpl.
    destruct (main.serverMode f), (main.clientMode f); simpl; try done.
    - by destruct (Z.ltb_spec (main.packetSize f) h).
    - destruct (Z.ltb_spec (main.packetSize f) h); [done|].
      intros [= <-]. simpl. done. }
  split; [|split; [|split; [|split]]].
  - intros h f Hp. unfold main.main.
    by destruct (String.eqb_spec (main.plotFile f) EmptyString).
  - intros h f port. unfold main.main.
    destruct (String.eqb_spec (main.plotFile f) EmptyString) as [Hp|Hp];
      [|done]. simpl.
    destruct (main.serverMode f), (main.clientMode f); simpl; try done.
    + destruct (Z.ltb_spec (main.packetSize f) h); [done|].
      by intros [= <-].
    + by destruct (Z.ltb_spec (main.packetSize f) h).
  - exact Hclient.
  - intros f cfg p H. apply Hclient in H as (_ & _ & _ & Hsize & _).
    destruct (basic_encode_ok p _ Hsize) as (buf & E & Hlen & _).
    by exists buf.
  - intros f cfg p H. apply Hclient in H as (_ & _ & _ & Hsize & _).
    destruct (extended_encode_ok p _ Hsize) as (buf & E & Hlen & _).
    by exists buf.
Qed.

Lemma main_runs_only_valid_modes_witness :
  let f := main.mkFlags false true "localhost" 9999 128 64 30 EmptyString
             false 10 false 100 EmptyString in
  exists buf,
    Extended.packet.Encode (Extended.packet.mkPacket 1 0 0 []) 128 = Ok buf
    /\ Z.of_nat (length buf) = 128.
Proof.
  intros f.
  destruct main_runs_only_valid_modes as (_ & _ & _ & _ & H).
  apply (H f (main.mkClientConfig "localhost" 9999 128 64 30 EmptyString
                false 10 false 100)).
  reflexivity.
Defined.

(** ** The basic client *)

Section BasicClientFacts.

Import Basic.stats Basic.client.

Lemma basic_decode_fields data :
  (16 <= length data)%nat ->
  Basic.packet.DecodePacket data
  = Ok (Some
      {| Basic.packet.SeqNum := BigEndian.be_value (take 8 data);
         Basic.packet.Timestamp :=
           Int.to_int64 (BigEndian.be_value (take 8 (drop 8 data)));
         Basic.packet.Payload := drop 16 data |}).
Proof.
  intros Hlen. unfold Basic.packet.DecodePacket.
  change Basic.packet.HeaderSize with 16.
  destruct (Z.ltb_spec (Z.of_nat (length data)) 16); [lia|].
  rewrite !Uint64_value by lia. done.
Qed.

Lemma basic_decode_short data :
  (length data < 16)%nat -> Basic.packet.DecodePacket data = Ok None.
Proof.
  intros Hlen. unfold Basic.packet.DecodePacket.
  change Basic.packet.HeaderSize with 16.
  by destruct (Z.ltb_spec (Z.of_nat (length data)) 16); [|lia].
Qed.

Lemma basic_receive_spec recvTime data s :
  receive recvTime data s
  = Ok (if (length data <? 16)%nat then s
        else RecordReceived (BigEndian.be_value (take 8 data)) recvTime s).
Proof.
  unfold receive. destruct (Nat.ltb_spec (length data) 16).
  - by rewrite basic_decode_short.
  - by rewrite basic_decode_fields.
Qed.

Lemma basic_sendPacket_spec size now c :
  Int.is_uint64 (seqNum c) ->
  16 <= size ->
  exists data,
    sendPacket size now c
    = Ok {| seqNum := Int.add64 (seqNum c) 1;
            stats := RecordSent (seqNum c) now (stats c);
            written := written c ++ [data] |}
    /\ Z.of_nat (length data) = size
    /\ BigEndian.be_value (take 8 data) = seqNum c.
Proof.
  intros Hseq Hsize. unfold sendPacket, Basic.packet.NewPacket,
    Basic.packet.make_bytes.
  change Basic.packet.HeaderSize with 16.
  destruct (Z.ltb_spec (size - 16) 0); [lia|]. simpl.
  set (p := Basic.packet.mkPacket _ _ _).
  destruct (basic_encode_ok p size) as (buf & E & Hlen & Hs & _); [done|].
  rewrite E. simpl. exists buf. repeat split; [done|].
  change (take 8 buf) with (take 8 (drop 0 buf)) in Hs.
  pose proof (Uint64_bytes64 0 buf _ Hs) as Hu.
  pose proof (Uint64_be_value 0 buf _ Hu) as Hv.
  change (drop 0 buf) with buf in Hv.
  rewrite <- Hv. by apply to_uint64_id.
Qed.

Lemma basic_PrintInterval_stats now s :
  records (PrintInterval now s).1 = records s
  /\ sent (PrintInterval now s).1 = sent s
  /\ received (PrintInterval now s).1 = received s
  /\ latencies (PrintInterval now s).1 = latencies s
  /\ minLat (PrintInterval now s).1 = minLat s
  /\ maxLat (PrintInterval now s).1 = maxLat s
  /\ sumLat (PrintInterval now s).1 = sumLat s.
Proof.
  unfold PrintInterval.
  by destruct (now - lastPrintTime s <? 5 * time.Second).
Qed.

Lemma basic_received_keys q t s q' :
  is_Some (records (RecordReceived q t s) !! q') <-> is_Some (records s !! q').
Proof.
  destruct (records s !! q) as [r|] eqn:E.
  - destruct (Lost r) eqn:El.
    + destruct (basic_received_first q t s r E El) as (r' & -> & _).
      destruct (decide (q = q')) as [<-|Hne].
      * rewrite lookup_insert_eq, E. split; eauto.
      * by rewrite lookup_insert_ne.
    + by rewrite (basic_received_resolved q t s r).
  - by rewrite basic_received_unknown.
Qed.

(** What holds of the sender after [k] packets. *)
Lemma basic_handle_keeps psize c k e :
  16 <= psize ->
  Z.of_nat k + 2 < Int.two64 ->
  seqNum c = 1 + Z.of_nat k ->
  length (written c) = k ->
  consistent (stats c) ->
  size (records (stats c)) = k ->
  (forall q, is_Some (records (stats c) !! q) <-> 1 <= q <= Z.of_nat k) ->
  (forall i d, written c !! i = Some d ->
               Z.of_nat (length d) = psize
               /\ BigEndian.be_value (take 8 d) = 1 + Z.of_nat i) ->
  let k' := match e with PacketDue _ => S k | _ => k end in
  exists c',
    handle psize c e = Ok c'
    /\ seqNum c' = 1 + Z.of_nat k'
    /\ length (written c') = k'
    /\ consistent (stats c')
    /\ size (records (stats c')) = k'
    /\ (forall q, is_Some (records (stats c') !! q) <-> 1 <= q <= Z.of_nat k')
    /\ (forall i d, written c' !! i = Some d ->
                    Z.of_nat (length d) = psize
                    /\ BigEndian.be_value (take 8 d) = 1 + Z.of_nat i).
Proof.
  intros Hsize Hb Hseq Hlen Hcons Hsz Hkeys Hwire k'.
  unfold Int.two64 in Hb. change (2 ^ 64) with 18446744073709551616 in Hb.
  destruct e as [now|now|recvTime data]; simpl in k'; subst k'.
  - destruct (basic_sendPacket_spec psize now c) as (data & E & Hd & Hv);
      [unfold Int.is_uint64, Int.two64; lia|done|].
    assert (Hfresh : records (stats c) !! seqNum c = None).
    { destruct (records (stats c) !! seqNum c) eqn:Eq; [|done].
      assert (1 <= seqNum c <= Z.of_nat k) by (apply Hkeys; eauto). lia. }
    eexists. split; [exact E|]. simpl.
    split; [unfold Int.add64, Int.to_uint64, Int.two64;
            rewrite Z.mod_small; lia|].
    split; [rewrite length_app; simpl; lia|].
    split.
    { apply basic_consistent_sent; [done| |done].
      unfold Int.two64. lia. }
    split; [by rewrite map_size_insert_None; [lia|]|].
    split.
    + intros q. rewrite lookup_insert_is_Some, Hkeys. split.
      * intros [<-|[_ ?]]; lia.
      * intros H. destruct (decide (seqNum c = q)); [by left|right].
        split; [done|lia].
    + intros i d Hi. apply lookup_app_Some in Hi as [Hi|[Hge Hi]].
      * by apply Hwire.
      * apply list_lookup_singleton_Some in Hi as [Hi <-].
        split; [done|]. lia.
  - simpl. eexists. split; [reflexivity|]. simpl.
    destruct (basic_PrintInterval_stats now (stats c))
      as (Hr & Hs & Hrc & Hl & _).
    split; [done|]. split; [done|].
    split.
    { destruct Hcons as (H1 & H2 & H3).
      unfold consistent, resolved. by rewrite Hr, Hs, Hrc, Hl. }
    split; [by rewrite Hr|]. split; [|done].
    intros q. by rewrite Hr.
  - simpl. rewrite basic_receive_spec. simpl.
    eexists. split; [reflexivity|]. simpl.
    split; [done|]. split; [done|].
    destruct (length data <? 16)%nat; [done|].
    split.
    { apply basic_consistent_received; [|done]. unfold Int.two64. lia. }
    split; [by rewrite basic_size_received|]. split; [|done].
    intros q. by rewrite basic_received_keys.
Qed.

End BasicClientFacts.

(** X9. The receiver of the basic client never panics, skips every
    datagram shorter than 16 bytes, and of a longer one uses the first
    eight bytes only: the record of that sequence number is resolved
    from the stored send time, and the timestamp and payload bytes of
    the reply play no part. *)
Theorem basic_receive_uses_sequence_number_only :
  forall (recvTime : Z) (data : list Byte.byte) (s : Basic.stats.Stats),
    Basic.client.receive recvTime data s
    = Ok (if (length data <? 16)%nat then s
          else Basic.stats.RecordReceived
                 (BigEndian.be_value (take 8 data)) recvTime s).
Proof. apply basic_receive_spec. Qed.

(** X10. One packet end to end in the basic variant. The client sends
    packet [seqNum] at [now] with a size of at least 16 bytes, the
    server echoes the datagram, the client reads the echo at
    [recvTime]: the record of [seqNum] is then resolved, with that
    receive time and the latency [(recvTime - now) / 1e6] milliseconds,
    and [received] has grown by one. *)
Theorem basic_packet_end_to_end :
  forall (psize now recvTime : Z) (c : Basic.client.sender)
         (st : Basic.server.state) (addr : string) (werr : option string),
    Int.is_uint64 (Basic.client.seqNum c) ->
    Basic.packet.HeaderSize <= psize ->
    exists c' data echo s',
      Basic.client.sendPacket psize now c = Ok c'
      /\ Basic.client.written c' = Basic.client.written c ++ [data]
      /\ Basic.server.replies
           (Basic.server.serve st (Basic.server.Datagram data addr werr)).2
         = [(echo, addr)]
      /\ Basic.client.receive recvTime echo (Basic.client.stats c') = Ok s'
      /\ Basic.stats.records s' !! Basic.client.seqNum c
         = Some {| Basic.stats.SeqNum := Basic.client.seqNum c;
                   Basic.stats.SentTime := now;
                   Basic.stats.RecvTime := recvTime;
                   Basic.stats.LatencyMs :=
                     (F64.of_Z (Int.isub64 recvTime now)
                      / F64.Millisecond)%float;
                   Basic.stats.Lost := false |}
      /\ Basic.stats.received s'
         = Int.add64 (Basic.stats.received (Basic.client.stats c)) 1.
Proof.
  intros psize now recvTime c st addr werr Hseq Hsize.
  change Basic.packet.HeaderSize with 16 in Hsize.
  destruct (basic_sendPacket_spec psize now c Hseq Hsize)
    as (data & E & Hlen & Hv).
  eexists _, data, data, _. split; [exact E|]. split; [done|].
  split; [apply basic_serve_replies|].
  rewrite basic_receive_spec. split; [reflexivity|].
  destruct (Nat.ltb_spec (length data) 16) as [?|_]; [lia|].
  rewrite Hv. cbn [Basic.client.stats].
  unfold Basic.stats.RecordReceived.
  cbn [Basic.stats.records Basic.stats.RecordSent].
  rewrite lookup_insert_eq. cbn. rewrite lookup_insert_eq. done.
Qed.

Lemma basic_packet_end_to_end_witness :
  let c := Basic.client.startSender 0 0 in
  exists c' data echo s',
    Basic.client.sendPacket 64 1000000 c = Ok c'
    /\ Basic.client.written c' = Basic.client.written c ++ [data]
    /\ Basic.server.replies
         (Basic.server.serve Basic.server.start
            (Basic.server.Datagram data "10.0.0.1:5000" None)).2
       = [(echo, "10.0.0.1:5000"%string)]
    /\ Basic.client.receive 8000000 echo (Basic.client.stats c') = Ok s'
    /\ Basic.stats.records s' !! Basic.client.seqNum c
       = Some {| Basic.stats.SeqNum := Basic.client.seqNum c;
                 Basic.stats.SentTime := 1000000;
                 Basic.stats.RecvTime := 8000000;
                 Basic.stats.LatencyMs :=
                   (F64.of_Z (Int.isub64 8000000 1000000)
                    / F64.Millisecond)%float;
                 Basic.stats.Lost := false |}
    /\ Basic.stats.received s'
       = Int.add64 (Basic.stats.received (Basic.client.stats c)) 1.
Proof.
  intros c.
  apply (basic_packet_end_to_end 64 1000000 8000000 c Basic.server.start
           "10.0.0.1:5000" None).
  - unfold Int.is_uint64, Int.two64. simpl. lia.
  - unfold Basic.packet.HeaderSize, Basic.packet.SeqNumSize,
      Basic.packet.TimestampSize. simpl. lia.
Defined.

(** X11. The basic client numbers its packets 1, 2, 3, ... and keeps
    its books: after any events (packets due, statistics ticks, arrivals
    of any datagrams whatever) with [n] packets due and a packet size of
    at least 16, nothing has panicked, the next sequence number is
    [n + 1], [n] datagrams of that size were written and datagram [i]
    carries sequence number [i + 1], the map holds exactly the records
    1 to [n], and the counters agree with the map. *)
Theorem basic_client_numbers_packets :
  forall (psize printed started : Z) (es : list Basic.client.event),
    Basic.packet.HeaderSize <= psize ->
    Z.of_nat (Basic.client.packets es) + 2 < Int.two64 ->
    exists c,
      Basic.client.events psize (Basic.client.startSender printed started) es
      = Ok c
      /\ Basic.client.seqNum c = 1 + Z.of_nat (Basic.client.packets es)
      /\ length (Basic.client.written c) = Basic.client.packets es
      /\ Basic.stats.consistent (Basic.client.stats c)
      /\ Basic.stats.sent (Basic.client.stats c)
         = Z.of_nat (Basic.client.packets es)
      /\ (forall q,
             is_Some (Basic.stats.records (Basic.client.stats c) !! q)
             <-> 1 <= q <= Z.of_nat (Basic.client.packets es))
      /\ (forall i d,
             Basic.client.written c !! i = Some d ->
             Z.of_nat (length d) = psize
             /\ exists p, Basic.packet.DecodePacket d = Ok (Some p)
                          /\ Basic.packet.SeqNum p = 1 + Z.of_nat i).
Proof.
  intros psize printed started es Hsize Hb.
  change Basic.packet.HeaderSize with 16 in Hsize.
  assert (Hgen : forall es c k,
    Z.of_nat (k + Basic.client.packets es) + 2 < Int.two64 ->
    Basic.client.seqNum c = 1 + Z.of_nat k ->
    length (Basic.client.written c) = k ->
    Basic.stats.consistent (Basic.client.stats c) ->
    size (Basic.stats.records (Basic.client.stats c)) = k ->
    (forall q, is_Some (Basic.stats.records (Basic.client.stats c) !! q)
               <-> 1 <= q <= Z.of_nat k) ->
    (forall i d, Basic.client.written c !! i = Some d ->
                 Z.of_nat (length d) = psize
                 /\ BigEndian.be_value (take 8 d) = 1 + Z.of_nat i) ->
    exists c',
      Basic.client.events psize c es = Ok c'
      /\ Basic.client.seqNum c'
         = 1 + Z.of_nat (k + Basic.client.packets es)
      /\ length (Basic.client.written c') = (k + Basic.client.packets es)%nat
      /\ Basic.stats.consistent (Basic.client.stats c')
      /\ size (Basic.stats.records (Basic.client.stats c'))
         = (k + Basic.client.packets es)%nat
      /\ (forall q,
             is_Some (Basic.stats.records (Basic.client.stats c') !! q)
             <-> 1 <= q <= Z.of_nat (k + Basic.client.packets es))
      /\ (forall i d, Basic.client.written c' !! i = Some d ->
                      Z.of_nat (length d) = psize
                      /\ BigEndian.be_value (take 8 d) = 1 + Z.of_nat i)).
  { clear es Hb. induction es as [|e es IH]; intros c k Hb H1 H2 H3 H4 H5 H6.
    - exists c. unfold Basic.client.packets. simpl.
      rewrite Nat.add_0_r. done.
    - assert (Hp : Basic.client.packets (e :: es)
                   = (match e with Basic.client.PacketDue _ => 1 | _ => 0 end
                      + Basic.client.packets es)%nat).
      { unfold Basic.client.packets. simpl. by destruct e. }
      rewrite Hp in *.
      destruct (basic_handle_keeps psize c k e) as (c1 & E1 & I1);
        try done.
      { destruct e; lia. }
      destruct I1 as (J1 & J2 & J3 & J4 & J5 & J6).
      destruct (IH c1 (match e with Basic.client.PacketDue _ => S k
                                  | _ => k end))
        as (c' & E' & I'); try done.
      { destruct e; lia. }
      exists c'. simpl. rewrite E1. simpl. split; [done|].
      replace (k + (match e with Basic.client.PacketDue _ => 1 | _ => 0 end
                    + Basic.client.packets es))%nat
        with (match e with Basic.client.PacketDue _ => S k | _ => k end
              + Basic.client.packets es)%nat by (destruct e; lia).
      exact I'. }
  destruct (Hgen es (Basic.client.startSender printed started) 0%nat)
    as (c & E & I1 & I2 & I3 & I4 & I5 & I6).
  { exact Hb. }
  { reflexivity. }
  { reflexivity. }
  { apply basic_consistent_new. }
  { apply map_size_empty. }
  { intros q. cbn. rewrite lookup_empty. split; [by intros [? ?]|lia]. }
  { intros i d Hi. cbn in Hi. by rewrite lookup_nil in Hi. }
  simpl in I1, I2, I4, I5. exists c. split; [done|]. split; [done|].
  split; [done|]. split; [done|].
  split; [destruct I3 as [-> _]; by rewrite I4|].
  split; [done|].
  intros i d Hi. destruct (I6 i d Hi) as [Hl Hv]. split; [done|].
  rewrite basic_decode_fields by lia. eexists. split; [reflexivity|].
  done.
Qed.

Lemma basic_client_numbers_packets_witness :
  let es := [Basic.client.PacketDue 1000;
             Basic.client.Arrival 2000 (map BigEndian.byte_of [1; 2; 3]);
             Basic.client.StatsTick 6000000000;
             Basic.client.PacketDue 7000000000] in
  exists c,
    Basic.client.events 32 (Basic.client.startSender 0 0) es = Ok c
    /\ Basic.client.seqNum c = 1 + Z.of_nat (Basic.client.packets es)
    /\ length (Basic.client.written c) = Basic.client.packets es
    /\ Basic.stats.consistent (Basic.client.stats c)
    /\ Basic.stats.sent (Basic.client.stats c)
       = Z.of_nat (Basic.client.packets es)
    /\ (forall q,
           is_Some (Basic.stats.records (Basic.client.stats c) !! q)
           <-> 1 <= q <= Z.of_nat (Basic.client.packets es))
    /\ (forall i d,
           Basic.client.written c !! i = Some d ->
           Z.of_nat (length d) = 32
           /\ exists p, Basic.packet.DecodePacket d = Ok (Some p)
                        /\ Basic.packet.SeqNum p = 1 + Z.of_nat i).
Proof.
  intros es. apply (basic_client_numbers_packets 32 0 0 es).
  - unfold Basic.packet.HeaderSize, Basic.packet.SeqNumSize,
      Basic.packet.TimestampSize. simpl. lia.
  - vm_compute. reflexivity.
Defined.

(** ** The extended aggregator with its ticker *)

Section ExtendedPlayFacts.

Import Extended.stats.
Local Open Scope float_scope.

Lemma ext_lifetime_interval now s :
  lifetime (PrintInterval now s).1 = lifetime s.
Proof.
  unfold PrintInterval.
  destruct (now - lastPrintTime s <? 5 * Second)%Z; [done|].
  by destruct (calcStats (windowLatencies s)) as [[[? ?] ?] ?].
Qed.

Lemma ext_lifetime_step s s' c :
  lifetime s = lifetime s' -> lifetime (step s c) = lifetime (step s' c).
Proof.
  destruct s, s'. unfold lifetime. simpl. intros [= -> -> -> -> -> -> -> -> -> -> -> -> -> -> -> -> ->].
  destruct c as [q t|q t p]; simpl; [done|].
  unfold RecordReceived. simpl.
  destruct (_ !! q) as [r|]; [|done]. by destruct (Lost r).
Qed.

Lemma ext_lifetime_play es : forall s s',
  lifetime s = lifetime s' -> lifetime (play es s) = lifetime (run (calls es) s').
Proof.
  induction es as [|e es IH]; intros s s' H; [done|].
  destruct e as [c|now].
  - change (play (Call c :: es) s) with (play es (step s c)).
    change (calls (Call c :: es)) with (c :: calls es).
    change (run (c :: calls es) s') with (run (calls es) (step s' c)).
    by apply IH, ext_lifetime_step.
  - change (play (Interval now :: es) s)
      with (play es (PrintInterval now s).1).
    change (calls (Interval now :: es)) with (calls es).
    apply IH. by rewrite ext_lifetime_interval.
Qed.

Lemma ext_lifetime_summary s s' :
  lifetime s = lifetime s' -> PrintSummary s = PrintSummary s'.
Proof.
  destruct s, s'. unfold lifetime. simpl.
  by intros [= -> -> -> -> -> -> -> -> -> -> -> -> -> -> -> -> ->].
Qed.

Lemma ext_lifetime_records s s' :
  lifetime s = lifetime s' -> records s = records s'.
Proof. unfold lifetime. by intros [= ->]. Qed.

Lemma ext_above_app thr l v :
  above thr (l ++ [v]) = (above thr l + (if (thr <? v)%float then 1 else 0))%nat.
Proof.
  unfold above. rewrite List.filter_app, length_app. simpl.
  by destruct (thr <? v).
Qed.

Lemma ext_above_le thr l : (above thr l <= length l)%nat.
Proof. apply List.filter_length_le. Qed.

Lemma ext_lates_le s : (lates s <= size (records s))%nat.
Proof. apply map_subseteq_size, map_filter_subseteq. Qed.

Lemma ext_lates_lt s q r :
  records s !! q = Some r -> Late r = false ->
  (lates s < size (records s))%nat.
Proof.
  intros H Hl. apply map_subset_size. split; [apply map_filter_subseteq|].
  intros Hsub. rewrite map_subseteq_spec in Hsub.
  specialize (Hsub q r H). apply map_lookup_filter_Some in Hsub as [_ Hf].
  simpl in Hf. congruence.
Qed.

Lemma ext_sound_new now thr : sound thr (NewStats now thr).
Proof.
  split; [done|]. split; [apply ext_consistent_new|].
  split; [apply ext_aggregated_new|].
  split; [repeat split; simpl; constructor|].
  split; [apply map_Forall_empty|]. split; [|done].
  unfold lates. simpl. by rewrite map_filter_empty, map_size_empty.
Qed.

Lemma ext_sound_sent thr q t s :
  records s !! q = None ->
  Z.of_nat (size (records s)) + 1 < Int.two64 ->
  sound thr s -> sound thr (RecordSent q t s).
Proof.
  intros H Hb (Ht & Hc & Ha & Hw & Hst & Hl & Hla).
  split; [done|]. split; [by apply ext_consistent_sent|].
  split; [exact (ext_aggregated_step s (Sent q t) Ha)|].
  split; [exact Hw|]. split; [|split; [|exact Hla]].
  - simpl. apply map_Forall_insert_2; [|done]. by repeat split.
  - unfold lates. simpl.
    rewrite map_filter_insert_False by (simpl; congruence).
    by rewrite delete_id.
Qed.

Lemma ext_sound_received thr q t p s :
  Z.of_nat (size (records s)) < Int.two64 ->
  sound thr s -> sound thr (RecordReceived q t p s).
Proof.
  intros Hb Hs. pose proof Hs as (Ht & Hc & Ha & Hw & Hst & Hl & Hla).
  destruct (records s !! q) as [r|] eqn:E;
    [|by rewrite ext_received_unknown].
  destruct (Lost r) eqn:El; [|by rewrite (ext_received_resolved q t p s r)].
  pose proof (Hst q r E) as [Hq Hr]. rewrite El in Hr.
  destruct Hr as (_ & _ & _ & _ & Hlate).
  pose proof (ext_resolved_lt s q r E El) as Hlt.
  pose proof (ext_lates_lt s q r E Hlate) as Hllt.
  destruct Hc as (_ & _ & Hlen & _).
  destruct Hw as (Hwr & Hwl & Hwn & Hwp & Hsub).
  pose proof (sublist_length _ _ Hsub) as Hsl.
  pose proof (ext_above_le thr (windowLatencies s)) as Hab.
  assert (Hlater : Late (resolve s r t p) = (thr <? LatencyMs (resolve s r t p))).
  { unfold resolve at 1. cbn [Late]. rewrite Ht, Hlate.
    change (LatencyMs (resolve s r t p))
      with (F64.of_Z (Int.isub64 t (SentTime r)) / F64.Millisecond).
    by destruct (thr <? _). }
  pose proof (ext_above_le thr (latencies s)) as Habl.
  split; [|split; [|split; [|split; [|split; [|split]]]]].
  - unfold RecordReceived. by rewrite E, El.
  - apply ext_consistent_received; [done|]. by destruct Hs as (_ & ? & _).
  - exact (ext_aggregated_step s (Received q t p) Ha).
  - unfold windowed, RecordReceived. rewrite E, El. cbn -[resolve above].
    rewrite Hlater.
    destruct (windowStartNs s <=? SentTime (resolve s r t p))%Z.
    + rewrite !length_app, ext_above_app. simpl.
      unfold Int.add64, Int.to_uint64. rewrite Hwr, Hwl.
      change Int.two64 with 18446744073709551616%Z in *.
      repeat split.
      * rewrite Z.mod_small by lia. lia.
      * destruct (thr <? _).
        -- rewrite Z.mod_small by lia. lia.
        -- lia.
      * lia.
      * lia.
      * by apply sublist_app.
    + repeat split; try done. by apply sublist_inserts_r.
  - destruct (ext_received_first q t p s r E El) as (Hrec & _).
    rewrite Hrec. apply map_Forall_insert_2; [|done].
    split; [done|]. cbn [Lost resolve]. split; [done|].
    split; [apply ext_resolve_net|]. exact Hlater.
  - destruct (ext_received_first q t p s r E El) as (Hrec & _).
    unfold lates. rewrite Hrec.
    unfold RecordReceived. rewrite E, El. cbn -[resolve]. rewrite Ht.
    destruct (thr <? LatencyMs (resolve s r t p)) eqn:Eth.
    + rewrite map_filter_insert_True by (cbn [snd]; congruence).
      rewrite map_size_insert_None.
      * unfold Int.add64, Int.to_uint64. rewrite Hl. fold (lates s).
        change Int.two64 with 18446744073709551616%Z in *.
        rewrite Z.mod_small by lia. lia.
      * apply map_lookup_filter_None. right. intros r0 H0. simpl.
        rewrite E in H0. injection H0 as <-. congruence.
    + rewrite map_filter_insert_False by (cbn [snd]; congruence).
      rewrite map_filter_delete, delete_id; [exact Hl|].
      apply map_lookup_filter_None. right. intros r0 H0. simpl.
      rewrite E in H0. injection H0 as <-. congruence.
  - unfold RecordReceived. rewrite E, El. cbn -[resolve above].
    rewrite ext_above_app, Ht.
    destruct (thr <? LatencyMs (resolve s r t p)); [|lia].
    unfold Int.add64, Int.to_uint64. rewrite Hla.
    change Int.two64 with 18446744073709551616%Z in *.
    rewrite Z.mod_small by lia. lia.
Qed.

Lemma ext_sound_interval thr now s :
  sound thr s -> sound thr (PrintInterval now s).1.
Proof.
  intros (Ht & Hc & Ha & Hw & Hst & Hl & Hla). unfold PrintInterval.
  destruct (now - lastPrintTime s <? 5 * Second)%Z; [done|].
  destruct (calcStats (windowLatencies s)) as [[[? ?] ?] ?].
  split; [done|]. split; [exact Hc|]. split; [exact Ha|].
  split; [|by split].
  repeat split; simpl; try done. apply sublist_nil_l.
Qed.

Lemma ext_size_interval now s :
  records (PrintInterval now s).1 = records s.
Proof. apply ext_lifetime_records, ext_lifetime_interval. Qed.

Lemma ext_play_sound thr es : forall s,
  sound thr s ->
  NoDup (sent_seqs (calls es)) ->
  (forall q, q ∈ sent_seqs (calls es) -> records s !! q = None) ->
  Z.of_nat (size (records s)) + Z.of_nat (length (sent_seqs (calls es)))
    < Int.two64 ->
  sound thr (play es s).
Proof.
  induction es as [|e es IH]; intros s Hi Hnd Hfresh Hb; [done|].
  destruct e as [[q t|q t p]|now].
  - change (play (Call (Sent q t) :: es) s)
      with (play es (RecordSent q t s)).
    change (sent_seqs (calls (Call (Sent q t) :: es)))
      with (q :: sent_seqs (calls es)) in *.
    apply NoDup_cons in Hnd as [Hq Hnd].
    assert (Hnone : records s !! q = None) by (apply Hfresh; left).
    simpl length in *.
    apply IH.
    + apply ext_sound_sent; [done|lia|done].
    + done.
    + intros q' Hq'. simpl. rewrite lookup_insert_ne.
      * apply Hfresh. by right.
      * intros ->. done.
    + simpl. rewrite map_size_insert_None by done. lia.
  - change (play (Call (Received q t p) :: es) s)
      with (play es (RecordReceived q t p s)).
    change (sent_seqs (calls (Call (Received q t p) :: es)))
      with (sent_seqs (calls es)) in *.
    apply IH.
    + apply ext_sound_received; [lia|done].
    + done.
    + intros q' Hq'. apply ext_lookup_received_None. by apply Hfresh.
    + rewrite ext_size_received. lia.
  - change (play (Interval now :: es) s)
      with (play es (PrintInterval now s).1).
    change (sent_seqs (calls (Interval now :: es)))
      with (sent_seqs (calls es)) in *.
    apply IH.
    + by apply ext_sound_interval.
    + done.
    + intros q' Hq'. rewrite ext_size_interval. by apply Hfresh.
    + rewrite ext_size_interval. lia.
Qed.

Lemma ext_play_new_sound now thr es :
  NoDup (sent_seqs (calls es)) ->
  Z.of_nat (length (sent_seqs (calls es))) < Int.two64 ->
  sound thr (play es (NewStats now thr)).
Proof.
  intros Hnd Hb. apply ext_play_sound.
  - apply ext_sound_new.
  - done.
  - intros q _. apply lookup_empty.
  - simpl. rewrite map_size_empty. lia.
Qed.

Lemma ext_stored_received thr q t p s :
  lateThreshold s = thr ->
  map_Forall (stored thr) (records s) ->
  lateThreshold (RecordReceived q t p s) = thr
  /\ map_Forall (stored thr) (records (RecordReceived q t p s)).
Proof.
  intros Ht Hst.
  destruct (records s !! q) as [r|] eqn:E;
    [|by rewrite ext_received_unknown].
  destruct (Lost r) eqn:El; [|by rewrite (ext_received_resolved q t p s r)].
  pose proof (Hst q r E) as [Hq Hr]. rewrite El in Hr.
  destruct Hr as (_ & _ & _ & _ & Hlate).
  destruct (ext_received_first q t p s r E El) as (Hrec & _).
  split; [unfold RecordReceived; by rewrite E, El|].
  rewrite Hrec. apply map_Forall_insert_2; [|done].
  split; [done|]. cbn [Lost resolve]. split; [done|].
  split; [apply ext_resolve_net|].
  unfold resolve at 1. cbn [Late]. rewrite Ht, Hlate.
  change (LatencyMs (resolve s r t p))
    with (F64.of_Z (Int.isub64 t (SentTime r)) / F64.Millisecond).
  by destruct (thr <? _).
Qed.

Lemma ext_play_stored thr es : forall s,
  lateThreshold s = thr ->
  map_Forall (stored thr) (records s) ->
  lateThreshold (play es s) = thr
  /\ map_Forall (stored thr) (records (play es s)).
Proof.
  induction es as [|e es IH]; intros s Ht Hst; [done|].
  destruct e as [[q t|q t p]|now].
  - change (play (Call (Sent q t) :: es) s)
      with (play es (RecordSent q t s)).
    apply IH; [done|]. simpl.
    apply map_Forall_insert_2; [|done]. by repeat split.
  - change (play (Call (Received q t p) :: es) s)
      with (play es (RecordReceived q t p s)).
    destruct (ext_stored_received thr q t p s Ht Hst). by apply IH.
  - change (play (Interval now :: es) s)
      with (play es (PrintInterval now s).1).
    pose proof (ext_lifetime_interval now s) as Hlife.
    unfold lifetime in Hlife. injection Hlife as Hrec _ _ _ Hthr.
    apply IH; [by rewrite Hthr|by rewrite Hrec].
Qed.

Lemma ext_play_new_size now thr es :
  NoDup (sent_seqs (calls es)) ->
  Z.of_nat (length (sent_seqs (calls es))) < Int.two64 ->
  size (records (play es (NewStats now thr))) = length (sent_seqs (calls es)).
Proof.
  intros Hnd Hb.
  pose proof (ext_lifetime_play es (NewStats now thr) (NewStats now thr)
                eq_refl) as Hlife.
  rewrite (ext_lifetime_records _ _ Hlife).
  destruct (ext_run_consistent (calls es) (NewStats now thr)) as [_ Hsize].
  - apply ext_consistent_new.
  - done.
  - intros q _. apply lookup_empty.
  - simpl. rewrite map_size_empty. lia.
  - rewrite Hsize. simpl. by rewrite map_size_empty.
Qed.

Lemma ext_lost_count s :
  (size (filter (fun kv : Z * PacketRecord => Lost kv.2 = true) (records s))
   + resolved s = size (records s))%nat.
Proof.
  unfold resolved.
  rewrite <- (map_filter_union_complement
                (fun kv : Z * PacketRecord => Lost kv.2 = true) (records s))
    at 3.
  rewrite map_size_disj_union by apply map_disjoint_filter_complement.
  f_equal. f_equal. apply map_filter_ext. intros i x _. simpl.
  by destruct (Lost x).
Qed.

End ExtendedPlayFacts.

(** X12. The interval reports do not touch what the summary and the
    export read: after any sequence of [RecordSent], [RecordReceived]
    and [PrintInterval] calls, [PrintSummary], [GetRecords] and the CSV
    rows are those of the same sequence with the [PrintInterval] calls
    left out. Extended variant. *)
Theorem interval_reports_leave_totals :
  forall (es : list Extended.stats.event) (s : Extended.stats.Stats),
    let s1 := Extended.stats.play es s in
    let s2 := Extended.stats.run (Extended.stats.calls es) s in
    Extended.stats.PrintSummary s1 = Extended.stats.PrintSummary s2
    /\ Extended.stats.GetRecords s1 = Extended.stats.GetRecords s2
    /\ Extended.client.saveCSV s1 = Extended.client.saveCSV s2.
Proof.
  intros es s s1 s2.
  assert (H : Extended.stats.lifetime s1 = Extended.stats.lifetime s2)
    by by apply ext_lifetime_play.
  assert (Hrec : Extended.stats.GetRecords s1 = Extended.stats.GetRecords s2).
  { unfold Extended.stats.GetRecords.
    by rewrite (ext_lifetime_records s1 s2 H). }
  split; [by apply ext_lifetime_summary|]. split; [done|].
  unfold Extended.client.saveCSV. by rewrite Hrec.
Qed.

(** X13. The window of the interval report, on an aggregator made by
    [NewStats] and used with pairwise distinct sequence numbers, fewer
    than 2^64 of them: [windowReceived] is the number of window
    samples, [windowLate] the number of those above the late threshold
    and so at most [windowReceived], the three window lists have one
    length, and the window samples are among the lifetime samples in
    their order. A report that prints shows that late count and leaves
    the window empty, opened at the time of the report. *)
Theorem window_holds_receipts_since_last_report :
  forall (now : Z) (thr : float) (es : list Extended.stats.event),
    NoDup (Extended.stats.sent_seqs (Extended.stats.calls es)) ->
    Z.of_nat (length (Extended.stats.sent_seqs (Extended.stats.calls es)))
      < Int.two64 ->
    let s := Extended.stats.play es (Extended.stats.NewStats now thr) in
    Extended.stats.windowReceived s
      = Z.of_nat (length (Extended.stats.windowLatencies s))
    /\ Extended.stats.windowLate s
       = Z.of_nat (Extended.stats.above thr (Extended.stats.windowLatencies s))
    /\ Extended.stats.windowLate s <= Extended.stats.windowReceived s
    /\ length (Extended.stats.windowNetLatency s)
       = length (Extended.stats.windowLatencies s)
    /\ length (Extended.stats.windowServerProc s)
       = length (Extended.stats.windowLatencies s)
    /\ sublist (Extended.stats.windowLatencies s) (Extended.stats.latencies s)
    /\ forall (now' : Z) (line : Extended.stats.IntervalLine),
         (Extended.stats.PrintInterval now' s).2 = Some line ->
         let s' := (Extended.stats.PrintInterval now' s).1 in
         Extended.stats.iv_late line
           = Z.of_nat (Extended.stats.above thr
                         (Extended.stats.windowLatencies s))
         /\ Extended.stats.windowStartNs s' = now'
         /\ Extended.stats.windowSent s' = 0
         /\ Extended.stats.windowReceived s' = 0
         /\ Extended.stats.windowLate s' = 0
         /\ Extended.stats.windowLatencies s' = []
         /\ Extended.stats.windowNetLatency s' = []
         /\ Extended.stats.windowServerProc s' = [].
Proof.
  intros now thr es Hnd Hb s.
  destruct (ext_play_new_sound now thr es Hnd Hb)
    as (_ & _ & _ & (Hwr & Hwl & Hwn & Hwp & Hsub) & _).
  fold s in Hwr, Hwl, Hwn, Hwp, Hsub.
  pose proof (ext_above_le thr (Extended.stats.windowLatencies s)) as Hle.
  repeat split; try done; try lia.
  all: revert H; unfold Extended.stats.PrintInterval;
    destruct (_ <? _)%Z; [done|];
    destruct (Extended.stats.calcStats _) as [[[? ?] ?] ?]; simpl;
    intros [= <-]; simpl; done.
Qed.

Lemma window_holds_receipts_since_last_report_witness :
  let es := [Extended.stats.Call (Extended.stats.Sent 1 0);
             Extended.stats.Call (Extended.stats.Sent 2 1000);
             Extended.stats.Interval 6000000000;
             Extended.stats.Call (Extended.stats.Sent 3 7000000000);
             Extended.stats.Call (Extended.stats.Received 2 300000000 0);
             Extended.stats.Call (Extended.stats.Received 3 7200000000 0);
             Extended.stats.Call (Extended.stats.Received 9 7200000000 0)] in
  let s := Extended.stats.play es (Extended.stats.NewStats 0 100) in
  Extended.stats.windowReceived s
    = Z.of_nat (length (Extended.stats.windowLatencies s))
  /\ Extended.stats.windowLate s
     = Z.of_nat (Extended.stats.above 100 (Extended.stats.windowLatencies s))
  /\ Extended.stats.windowLate s <= Extended.stats.windowReceived s
  /\ length (Extended.stats.windowNetLatency s)
     = length (Extended.stats.windowLatencies s)
  /\ length (Extended.stats.windowServerProc s)
     = length (Extended.stats.windowLatencies s)
  /\ sublist (Extended.stats.windowLatencies s) (Extended.stats.latencies s)
  /\ forall (now' : Z) (line : Extended.stats.IntervalLine),
       (Extended.stats.PrintInterval now' s).2 = Some line ->
       let s' := (Extended.stats.PrintInterval now' s).1 in
       Extended.stats.iv_late line
         = Z.of_nat (Extended.stats.above 100
                       (Extended.stats.windowLatencies s))
       /\ Extended.stats.windowStartNs s' = now'
       /\ Extended.stats.windowSent s' = 0
       /\ Extended.stats.windowReceived s' = 0
       /\ Extended.stats.windowLate s' = 0
       /\ Extended.stats.windowLatencies s' = []
       /\ Extended.stats.windowNetLatency s' = []
       /\ Extended.stats.windowServerProc s' = [].
Proof.
  apply (window_holds_receipts_since_last_report 0 100%float
           [Extended.stats.Call (Extended.stats.Sent 1 0);
            Extended.stats.Call (Extended.stats.Sent 2 1000);
            Extended.stats.Interval 6000000000;
            Extended.stats.Call (Extended.stats.Sent 3 7000000000);
            Extended.stats.Call (Extended.stats.Received 2 300000000 0);
            Extended.stats.Call (Extended.stats.Received 3 7200000000 0);
            Extended.stats.Call (Extended.stats.Received 9 7200000000 0)]).
  - simpl. apply (bool_decide_unpack _). vm_compute. exact I.
  - vm_compute. reflexivity.
Defined.

(** X14. Every record that [GetRecords] returns, after any sequence of
    [RecordSent], [RecordReceived] and [PrintInterval] calls on an
    aggregator made by [NewStats thr], is the one stored under its own
    sequence number. While it is lost it has receive time 0, latencies
    0 and is not late; once it is resolved its latency is the time
    from send to receive in milliseconds, its net latency is not below
    zero, and it is late exactly when its latency is above [thr]. *)
Theorem stored_records_are_well_formed :
  forall (now : Z) (thr : float) (es : list Extended.stats.event)
         (r : Extended.stats.PacketRecord),
    let s := Extended.stats.play es (Extended.stats.NewStats now thr) in
    r ∈ Extended.stats.GetRecords s ->
    Extended.stats.records s !! Extended.stats.SeqNum r = Some r
    /\ (Extended.stats.Lost r = true ->
        Extended.stats.RecvTime r = 0
        /\ Extended.stats.LatencyMs r = 0%float
        /\ Extended.stats.ServerProcMs r = 0%float
        /\ Extended.stats.NetLatencyMs r = 0%float
        /\ Extended.stats.Late r = false)
    /\ (Extended.stats.Lost r = false ->
        Extended.stats.LatencyMs r
        = (F64.of_Z (Int.isub64 (Extended.stats.RecvTime r)
                                (Extended.stats.SentTime r))
           / F64.Millisecond)%float
        /\ (Extended.stats.NetLatencyMs r <? 0)%float = false
        /\ Extended.stats.Late r = (thr <? Extended.stats.LatencyMs r)%float).
Proof.
  intros now thr es r s Hin.
  apply elem_of_GetRecords in Hin as [q Hq].
  destruct (ext_play_stored thr es (Extended.stats.NewStats now thr))
    as [_ Hst]; [done|apply map_Forall_empty|].
  fold s in Hst. destruct (Hst q r Hq) as [Hseq Hr].
  rewrite Hseq. split; [done|].
  destruct (Extended.stats.Lost r); split; intros; done.
Qed.

Lemma stored_records_are_well_formed_witness :
  let s := Extended.stats.play
             [Extended.stats.Call (Extended.stats.Sent 2 1000);
              Extended.stats.Interval 6000000000;
              Extended.stats.Call (Extended.stats.Sent 3 2000);
              Extended.stats.Call (Extended.stats.Received 3 300000000 50)]
             (Extended.stats.NewStats 0 100) in
  let r := Extended.stats.resolve s
             {| Extended.stats.SeqNum := 3; Extended.stats.SentTime := 2000;
                Extended.stats.RecvTime := 0; Extended.stats.LatencyMs := 0;
                Extended.stats.ServerProcMs := 0;
                Extended.stats.NetLatencyMs := 0;
                Extended.stats.Lost := true; Extended.stats.Late := false |}
             300000000 50 in
  r ∈ Extended.stats.GetRecords s
  /\ Extended.stats.records s !! Extended.stats.SeqNum r = Some r
  /\ (Extended.stats.Lost r = true ->
      Extended.stats.RecvTime r = 0
      /\ Extended.stats.LatencyMs r = 0%float
      /\ Extended.stats.ServerProcMs r = 0%float
      /\ Extended.stats.NetLatencyMs r = 0%float
      /\ Extended.stats.Late r = false)
  /\ (Extended.stats.Lost r = false ->
      Extended.stats.LatencyMs r
      = (F64.of_Z (Int.isub64 (Extended.stats.RecvTime r)
                              (Extended.stats.SentTime r))
         / F64.Millisecond)%float
      /\ (Extended.stats.NetLatencyMs r <? 0)%float = false
      /\ Extended.stats.Late r = (100 <? Extended.stats.LatencyMs r)%float).
Proof.
  intros s r.
  assert (Hin : r ∈ Extended.stats.GetRecords s).
  { apply elem_of_GetRecords. exists 3. vm_compute. reflexivity. }
  split; [exact Hin|].
  exact (stored_records_are_well_formed 0 100%float
           [Extended.stats.Call (Extended.stats.Sent 2 1000);
            Extended.stats.Interval 6000000000;
            Extended.stats.Call (Extended.stats.Sent 3 2000);
            Extended.stats.Call (Extended.stats.Received 3 300000000 50)]
           r Hin).
Defined.

(** X15. The packet counts of the summary, on an aggregator made by
    [NewStats thr] and used with pairwise distinct sequence numbers,
    fewer than 2^64 of them: the lost count [sent - received] is the
    number of stored records still marked lost; the late count is the
    number of stored records marked late and the number of latency
    samples above [thr], and it is at most the received count. These
    are the numbers [PrintSummary] prints whenever it prints. *)
Theorem summary_counts_lost_and_late_records :
  forall (now : Z) (thr : float) (es : list Extended.stats.event),
    NoDup (Extended.stats.sent_seqs (Extended.stats.calls es)) ->
    Z.of_nat (length (Extended.stats.sent_seqs (Extended.stats.calls es)))
      < Int.two64 ->
    let s := Extended.stats.play es (Extended.stats.NewStats now thr) in
    let lost :=
      Z.of_nat (size (filter (fun kv : Z * Extended.stats.PacketRecord =>
                                Extended.stats.Lost kv.2 = true)
                             (Extended.stats.records s))) in
    Int.sub64 (Extended.stats.sent s) (Extended.stats.received s) = lost
    /\ Extended.stats.late s = Z.of_nat (Extended.stats.lates s)
    /\ Extended.stats.late s
       = Z.of_nat (Extended.stats.above thr (Extended.stats.latencies s))
    /\ Extended.stats.late s <= Extended.stats.received s
    /\ forall sm : Extended.stats.Summary,
         Extended.stats.PrintSummary s = Ok sm ->
         Extended.stats.sum_lost sm = lost
         /\ Extended.stats.sum_late sm = Z.of_nat (Extended.stats.lates s)
         /\ Extended.stats.sum_received sm + Extended.stats.sum_lost sm
            = Extended.stats.sum_sent sm
         /\ Extended.stats.sum_lateThreshold sm = thr.
Proof.
  intros now thr es Hnd Hb s lost.
  destruct (ext_play_new_sound now thr es Hnd Hb)
    as (Ht & (Hs & Hr & Hlen & _) & _ & _ & _ & Hl & Hla).
  fold s in Ht, Hs, Hr, Hlen, Hl, Hla.
  pose proof (ext_lost_count s) as Hlc.
  pose proof (ext_above_le thr (Extended.stats.latencies s)) as Hab.
  assert (Hsz : Z.of_nat (size (Extended.stats.records s)) < Int.two64).
  { unfold s. rewrite ext_play_new_size by done. lia. }
  assert (Hlost : Int.sub64 (Extended.stats.sent s) (Extended.stats.received s)
                  = lost).
  { unfold Int.sub64, Int.to_uint64, lost. rewrite Hs, Hr.
    change Int.two64 with 18446744073709551616 in *.
    rewrite Z.mod_small by lia. lia. }
  repeat split; try done; try lia.
  all: revert H; unfold Extended.stats.PrintSummary;
    destruct (if (0 <? length (Extended.stats.latencies s))%nat
              then _ else _) as [rtt|]; [|done];
    destruct (if (0 <? length (Extended.stats.netLatencies s))%nat
              then _ else _) as [net|]; [|done];
    cbn [rbind]; intros [= <-]; cbn; try done; lia.
Qed.

Lemma summary_counts_lost_and_late_records_witness :
  let es := [Extended.stats.Call (Extended.stats.Sent 1 0);
             Extended.stats.Call (Extended.stats.Sent 2 1000);
             Extended.stats.Interval 6000000000;
             Extended.stats.Call (Extended.stats.Sent 3 7000000000);
             Extended.stats.Call (Extended.stats.Received 2 300000000 0);
             Extended.stats.Call (Extended.stats.Received 3 7020000000 0);
             Extended.stats.Call (Extended.stats.Received 9 7200000000 0)] in
  let s := Extended.stats.play es (Extended.stats.NewStats 0 100) in
  let lost :=
    Z.of_nat (size (filter (fun kv : Z * Extended.stats.PacketRecord =>
                              Extended.stats.Lost kv.2 = true)
                           (Extended.stats.records s))) in
  Int.sub64 (Extended.stats.sent s) (Extended.stats.received s) = lost
  /\ Extended.stats.late s = Z.of_nat (Extended.stats.lates s)
  /\ Extended.stats.late s
     = Z.of_nat (Extended.stats.above 100 (Extended.stats.latencies s))
  /\ Extended.stats.late s <= Extended.stats.received s
  /\ forall sm : Extended.stats.Summary,
       Extended.stats.PrintSummary s = Ok sm ->
       Extended.stats.sum_lost sm = lost
       /\ Extended.stats.sum_late sm = Z.of_nat (Extended.stats.lates s)
       /\ Extended.stats.sum_received sm + Extended.stats.sum_lost sm
          = Extended.stats.sum_sent sm
       /\ Extended.stats.sum_lateThreshold sm = 100%float.
Proof.
  apply (summary_counts_lost_and_late_records 0 100%float
           [Extended.stats.Call (Extended.stats.Sent 1 0);
            Extended.stats.Call (Extended.stats.Sent 2 1000);
            Extended.stats.Interval 6000000000;
            Extended.stats.Call (Extended.stats.Sent 3 7000000000);
            Extended.stats.Call (Extended.stats.Received 2 300000000 0);
            Extended.stats.Call (Extended.stats.Received 3 7020000000 0);
            Extended.stats.Call (Extended.stats.Received 9 7200000000 0)]).
  - simpl. apply (bool_decide_unpack _). vm_compute. exact I.
  - vm_compute. reflexivity.
Defined.

(** X16. Recording a send and recording the response to another packet
    can be done in either order: for different sequence numbers
    [RecordSent] and [RecordReceived] commute, and so do two
    [RecordSent]. Extended variant. *)
Theorem send_commutes_with_other_packets :
  forall (q t q' t' p : Z) (s : Extended.stats.Stats),
    q <> q' ->
    Extended.stats.RecordReceived q' t' p (Extended.stats.RecordSent q t s)
    = Extended.stats.RecordSent q t (Extended.stats.RecordReceived q' t' p s)
    /\ Extended.stats.RecordSent q' t' (Extended.stats.RecordSent q t s)
       = Extended.stats.RecordSent q t (Extended.stats.RecordSent q' t' s).
Proof.
  intros q t q' t' p s Hne. split.
  - unfold Extended.stats.RecordReceived. simpl.
    rewrite lookup_insert_ne by done.
    destruct (Extended.stats.records s !! q') as [r|]; [|done].
    destruct (Extended.stats.Lost r); [|done].
    unfold Extended.stats.RecordSent. simpl.
    by rewrite insert_insert_ne.
  - unfold Extended.stats.RecordSent. simpl.
    by rewrite insert_insert_ne.
Qed.

Lemma send_commutes_with_other_packets_witness :
  let s := Extended.stats.RecordSent 2 1000 (Extended.stats.NewStats 0 100) in
  Extended.stats.RecordReceived 2 3000000 0 (Extended.stats.RecordSent 1 0 s)
  = Extended.stats.RecordSent 1 0 (Extended.stats.RecordReceived 2 3000000 0 s)
  /\ Extended.stats.RecordSent 2 3000000 (Extended.stats.RecordSent 1 0 s)
     = Extended.stats.RecordSent 1 0 (Extended.stats.RecordSent 2 3000000 s).
Proof.
  intros s.
  apply (send_commutes_with_other_packets 1 0 2 3000000 0 s). lia.
Defined.

(** ** The plot and the exported file *)

Section PlotColumnFacts.

Import plot.

Variable TrimSpace : string -> string.

(** One row of the export: it counts, as lost or as received. *)
Lemma row_csv (ParseFloat : string -> float * bool)
    (r : Extended.stats.PacketRecord) t i :
  let t' := row ParseFloat 0 2 3 4 None None t i
              (Extended.client.csvRow r) in
  totalPackets t' = totalPackets t + 1
  /\ lostPackets t'
     = (if Extended.stats.Lost r then lostPackets t + 1 else lostPackets t)
  /\ receivedCount t'
     = (if Extended.stats.Lost r then receivedCount t
        else receivedCount t + 1).
Proof.
  unfold row, Extended.client.csvRow. simpl.
  by destruct (Extended.stats.Lost r).
Qed.

Lemma rows_csv (ParseFloat : string -> float * bool)
    (recs : list Extended.stats.PacketRecord) : forall t i,
  let t' := rows (row ParseFloat 0 2 3 4 None None) t i
              (map Extended.client.csvRow recs) in
  totalPackets t' = totalPackets t + Z.of_nat (length recs)
  /\ lostPackets t'
     = lostPackets t
       + Z.of_nat (length (filter (fun r => Extended.stats.Lost r = true)
                                  recs))
  /\ receivedCount t'
     = receivedCount t
       + Z.of_nat (length (filter (fun r => Extended.stats.Lost r = false)
                                  recs)).
Proof.
  induction recs as [|r recs IH]; intros t i.
  - simpl. repeat split; lia.
  - simpl map. simpl rows.
    destruct (IH (row ParseFloat 0 2 3 4 None None t i
                    (Extended.client.csvRow r)) (S i)) as (Ht & Hl & Hr).
    destruct (row_csv ParseFloat r t i) as (Ht1 & Hl1 & Hr1).
    cbv zeta. rewrite Ht, Hl, Hr, Ht1, Hl1, Hr1. simpl length.
    destruct (Extended.stats.Lost r) eqn:El.
    + rewrite filter_cons_True by done.
      rewrite (filter_cons_False (fun r => Extended.stats.Lost r = false))
        by congruence.
      simpl length. repeat split; lia.
    + rewrite filter_cons_False by congruence.
      rewrite (filter_cons_True (fun r => Extended.stats.Lost r = false))
        by done.
      simpl length. repeat split; lia.
Qed.

Lemma GetRecords_count (P : Extended.stats.PacketRecord -> Prop)
    `{!forall r, Decision (P r)} (s : Extended.stats.Stats) :
  length (filter P (Extended.stats.GetRecords s))
  = size (filter (fun kv : Z * Extended.stats.PacketRecord => P kv.2)
                 (Extended.stats.records s)).
Proof.
  unfold Extended.stats.GetRecords.
  induction (Extended.stats.records s) as [|i x m Hi Hfst IH]
    using map_first_key_ind.
  - by rewrite map_to_list_empty, map_filter_empty, map_size_empty.
  - rewrite map_to_list_insert_first_key by done. csimpl.
    destruct (decide (P x)) as [Hp|Hp].
    + rewrite filter_cons_True by done.
      rewrite map_filter_insert_True by exact Hp.
      rewrite map_size_insert_None.
      * simpl. by rewrite IH.
      * apply map_lookup_filter_None. by left.
    + rewrite filter_cons_False by done.
      rewrite map_filter_insert_False by exact Hp.
      by rewrite delete_id.
Qed.

(** The header of the export, as [GeneratePlot] indexes it. *)
Lemma csv_header_index :
  let idx := colIndex TrimSpaceASCII Extended.client.csvHeader in
  idx !! "seq"%string = Some 0%nat
  /\ idx !! "recv_time"%string = Some 2%nat
  /\ idx !! "latency_ms"%string = Some 3%nat
  /\ idx !! "lost"%string = Some 4%nat
  /\ idx !! "net_latency_ms"%string = None
  /\ idx !! "server_proc_ms"%string = None.
Proof. vm_compute. done. Qed.

End PlotColumnFacts.

(** X17. [GeneratePlot] produces a page exactly when the file has a
    header and at least one more row and the header names, trimmed,
    include [seq], [recv_time], [latency_ms] and [lost]; no other
    column is required. Otherwise it fails, with the message for the
    missing rows or for the first of the four names that is missing. *)
Theorem plot_needs_four_columns :
  forall (TrimSpace : string -> string) (ParseFloat : string -> float * bool)
         (htmlTemplate : string) (records : list (list string)),
    let names := map TrimSpace (hd [] records) in
    let out := plot.GeneratePlot TrimSpace ParseFloat htmlTemplate records in
    ((exists html, out = plot.Generated html)
     <-> (2 <= length records)%nat
         /\ "seq"%string ∈ names /\ "recv_time"%string ∈ names
         /\ "latency_ms"%string ∈ names /\ "lost"%string ∈ names)
    /\ (out = plot.Failed "CSV file is empty or has no data rows"
        <-> (length records < 2)%nat)
    /\ (out = plot.Failed "CSV missing required column: seq"
        <-> (2 <= length records)%nat /\ "seq"%string ∉ names)
    /\ (out = plot.Failed "CSV missing required column: recv_time"
        <-> (2 <= length records)%nat /\ "seq"%string ∈ names
            /\ "recv_time"%string ∉ names)
    /\ (out = plot.Failed "CSV missing required column: latency_ms"
        <-> (2 <= length records)%nat /\ "seq"%string ∈ names
            /\ "recv_time"%string ∈ names /\ "latency_ms"%string ∉ names)
    /\ (out = plot.Failed "CSV missing required column: lost"
        <-> (2 <= length records)%nat /\ "seq"%string ∈ names
            /\ "recv_time"%string ∈ names /\ "latency_ms"%string ∈ names
            /\ "lost"%string ∉ names).
Proof.
  intros TrimSpace ParseFloat htmlTemplate records names out.
  pose proof (colIndex_is_Some TrimSpace (hd [] records)) as Hin.
  fold names in Hin.
  pose proof (Hin "seq"%string) as Hseq.
  pose proof (Hin "recv_time"%string) as Hrecv.
  pose proof (Hin "latency_ms"%string) as Hlat.
  pose proof (Hin "lost"%string) as Hlost.
  unfold out, plot.GeneratePlot. clear out Hin.
  destruct (length records <? 2)%nat eqn:El;
    [apply Nat.ltb_lt in El|apply Nat.ltb_ge in El; cbv zeta].
  { repeat split; intros; destruct_and?; repeat (match goal with H : ex _ |- _ => destruct H end);
      try discriminate; try lia; done. }
  destruct (plot.colIndex TrimSpace (hd [] records) !! "seq"%string)
    as [seqIdx|].
  2:{ assert ("seq"%string ∉ names)
        by (intros H; apply Hseq in H; by destruct H).
      repeat split; intros; destruct_and?; repeat (match goal with H : ex _ |- _ => destruct H end);
        try discriminate; try lia; done. }
  assert (Hs : "seq"%string ∈ names) by (apply Hseq; by eexists).
  destruct (plot.colIndex TrimSpace (hd [] records) !! "recv_time"%string)
    as [recvIdx|].
  2:{ assert ("recv_time"%string ∉ names)
        by (intros H; apply Hrecv in H; by destruct H).
      repeat split; intros; destruct_and?; repeat (match goal with H : ex _ |- _ => destruct H end);
        try discriminate; try lia; done. }
  assert (Hr : "recv_time"%string ∈ names) by (apply Hrecv; by eexists).
  destruct (plot.colIndex TrimSpace (hd [] records) !! "latency_ms"%string)
    as [latIdx|].
  2:{ assert ("latency_ms"%string ∉ names)
        by (intros H; apply Hlat in H; by destruct H).
      repeat split; intros; destruct_and?; repeat (match goal with H : ex _ |- _ => destruct H end);
        try discriminate; try lia; done. }
  assert (Hl : "latency_ms"%string ∈ names) by (apply Hlat; by eexists).
  destruct (plot.colIndex TrimSpace (hd [] records) !! "lost"%string)
    as [lostIdx|].
  2:{ assert ("lost"%string ∉ names)
        by (intros H; apply Hlost in H; by destruct H).
      repeat split; intros; destruct_and?; repeat (match goal with H : ex _ |- _ => destruct H end);
        try discriminate; try lia; done. }
  assert (Ho : "lost"%string ∈ names) by (apply Hlost; by eexists).
  repeat split; intros; destruct_and?; repeat (match goal with H : ex _ |- _ => destruct H end);
    try discriminate; try lia; try done. by eexists.
Qed.

(** X18. The column [GeneratePlot] reads for a name is the rightmost
    column of the header with that name, trimmed: the index it finds
    is [j] exactly when column [j] has the name and no column after
    it has. *)
Theorem plot_reads_rightmost_column_of_a_name :
  forall (TrimSpace : string -> string) (header : list string)
         (name : string) (j : nat),
    plot.colIndex TrimSpace header !! name = Some j
    <-> map TrimSpace header !! j = Some name
        /\ forall k, (j < k)%nat -> map TrimSpace header !! k <> Some name.
Proof. intros. apply colIndex_lookup. Qed.

(** X19. The plot of the exported file. For an aggregator made by
    [NewStats] and used with pairwise distinct sequence numbers, fewer
    than 2^64 of them, [GeneratePlot] applied to the rows [saveCSV]
    writes (as the CSV reader gives them back) fails for want of data
    rows when nothing was sent; otherwise it produces the page without
    net and server columns, for totals whose packet count is [sent],
    whose lost count is [sent - received] and whose received count is
    [received]. *)
Theorem plot_accepts_exported_csv :
  forall (ParseFloat : string -> float * bool) (htmlTemplate : string)
         (now : Z) (thr : float) (es : list Extended.stats.event),
    NoDup (Extended.stats.sent_seqs (Extended.stats.calls es)) ->
    Z.of_nat (length (Extended.stats.sent_seqs (Extended.stats.calls es)))
      < Int.two64 ->
    let s := Extended.stats.play es (Extended.stats.NewStats now thr) in
    let out := plot.GeneratePlot plot.TrimSpaceASCII ParseFloat htmlTemplate
                 (Extended.client.saveCSV s) in
    (Extended.stats.sent s = 0 ->
     out = plot.Failed "CSV file is empty or has no data rows")
    /\ (0 < Extended.stats.sent s ->
        exists t : plot.totals,
          out = plot.Generated (plot.render htmlTemplate false false t)
          /\ plot.totalPackets t = Extended.stats.sent s
          /\ plot.lostPackets t
             = Int.sub64 (Extended.stats.sent s) (Extended.stats.received s)
          /\ plot.receivedCount t = Extended.stats.received s).
Proof.
  intros ParseFloat htmlTemplate now thr es Hnd Hb s out.
  destruct (ext_play_new_sound now thr es Hnd Hb)
    as (_ & (Hs & Hr & _) & _).
  fold s in Hs, Hr.
  pose proof (length_GetRecords s) as Hlen.
  pose proof (ext_lost_count s) as Hlc.
  pose proof (ext_resolved_le s) as Hle.
  pose proof (GetRecords_count
                (fun r => Extended.stats.Lost r = true) s) as Hcl.
  pose proof (GetRecords_count
                (fun r => Extended.stats.Lost r = false) s) as Hcr.
  unfold Extended.stats.resolved in *. simpl in Hcl, Hcr.
  assert (Hsz : Z.of_nat (size (Extended.stats.records s)) < Int.two64).
  { unfold s. rewrite ext_play_new_size by done. lia. }
  unfold out, Extended.client.saveCSV, plot.GeneratePlot.
  simpl length. rewrite length_map, Hlen.
  destruct (S (size (Extended.stats.records s)) <? 2)%nat eqn:E2;
    [apply Nat.ltb_lt in E2|apply Nat.ltb_ge in E2].
  { split; [done|lia]. }
  split; [lia|]. intros _. cbv zeta. simpl hd. simpl tail.
  destruct csv_header_index as (-> & -> & -> & -> & -> & ->).
  eexists. split; [reflexivity|].
  destruct (rows_csv ParseFloat (Extended.stats.GetRecords s)
              {| plot.dataJSON := "["; plot.totalPackets := 0;
                 plot.lostPackets := 0; plot.totalLatency := 0;
                 plot.maxLatency := 0; plot.totalNet := 0;
                 plot.totalServer := 0; plot.receivedCount := 0 |} 0%nat)
    as (Ht & Hl & Hrc).
  rewrite Ht, Hl, Hrc, Hcl, Hcr, Hlen. simpl.
  unfold Int.sub64, Int.to_uint64. rewrite Hs, Hr.
  change Int.two64 with 18446744073709551616 in *.
  rewrite Z.mod_small by lia. lia.
Qed.

Lemma plot_accepts_exported_csv_witness :
  let es := [Extended.stats.Call (Extended.stats.Sent 1 0);
             Extended.stats.Call (Extended.stats.Sent 2 1000);
             Extended.stats.Interval 6000000000;
             Extended.stats.Call (Extended.stats.Received 2 300000000 0)] in
  let s := Extended.stats.play es (Extended.stats.NewStats 0 100) in
  let out := plot.GeneratePlot plot.TrimSpaceASCII plot.ParseDecimal
               "T={{TOTAL_PACKETS}} L={{LOSS_PERCENT}} D={{DATA_JSON}}"
               (Extended.client.saveCSV s) in
  (Extended.stats.sent s = 0 ->
   out = plot.Failed "CSV file is empty or has no data rows")
  /\ (0 < Extended.stats.sent s ->
      exists t : plot.totals,
        out = plot.Generated
                (plot.render
                   "T={{TOTAL_PACKETS}} L={{LOSS_PERCENT}} D={{DATA_JSON}}"
                   false false t)
        /\ plot.totalPackets t = Extended.stats.sent s
        /\ plot.lostPackets t
           = Int.sub64 (Extended.stats.sent s) (Extended.stats.received s)
        /\ plot.receivedCount t = Extended.stats.received s).
Proof.
  apply (plot_accepts_exported_csv plot.ParseDecimal
           "T={{TOTAL_PACKETS}} L={{LOSS_PERCENT}} D={{DATA_JSON}}"
           0 100%float
           [Extended.stats.Call (Extended.stats.Sent 1 0);
            Extended.stats.Call (Extended.stats.Sent 2 1000);
            Extended.stats.Interval 6000000000;
            Extended.stats.Call (Extended.stats.Received 2 300000000 0)]).
  - simpl. apply (bool_decide_unpack _). vm_compute. exact I.
  - vm_compute. reflexivity.
Defined.

(** ** The rows of the export *)

Section CsvRowFacts.

Import Extended.stats.

Lemma FormatUint_inj q q' :
  strconv.FormatUint q = strconv.FormatUint q' -> q = q'.
Proof.
  intros H.
  assert (Some q = Some q') as [= ->]; [|done].
  rewrite <- (ParseInt_FormatInt q), <- (ParseInt_FormatInt q').
  unfold strconv.FormatUint in H. unfold strconv.FormatInt. by rewrite H.
Qed.

Lemma ext_play_domain es : forall s q,
  is_Some (records (play es s) !! q)
  <-> is_Some (records s !! q) \/ q ∈ sent_seqs (calls es).
Proof.
  induction es as [|e es IH]; intros s q.
  - simpl. split; [by left|]. intros [H|H]; [done|].
    by apply elem_of_nil in H.
  - destruct e as [[q' t|q' t p]|now].
    + change (play (Call (Sent q' t) :: es) s)
        with (play es (RecordSent q' t s)).
      change (sent_seqs (calls (Call (Sent q' t) :: es)))
        with (q' :: sent_seqs (calls es)).
      rewrite IH, elem_of_cons. simpl.
      destruct (decide (q = q')) as [->|Hne].
      * rewrite lookup_insert_eq. split; [intros _; right; by left|].
        intros _. left. by eexists.
      * rewrite lookup_insert_ne by done. tauto.
    + change (play (Call (Received q' t p) :: es) s)
        with (play es (RecordReceived q' t p s)).
      change (sent_seqs (calls (Call (Received q' t p) :: es)))
        with (sent_seqs (calls es)).
      rewrite IH.
      assert (is_Some (records (RecordReceived q' t p s) !! q)
              <-> is_Some (records s !! q)) as ->; [|done].
      destruct (records s !! q') as [r|] eqn:E;
        [|by rewrite ext_received_unknown].
      destruct (Lost r) eqn:El;
        [|by rewrite (ext_received_resolved q' t p s r)].
      destruct (ext_received_first q' t p s r E El) as (-> & _).
      destruct (decide (q = q')) as [->|Hne].
      * rewrite lookup_insert_eq, E. split; intros _; by eexists.
      * by rewrite lookup_insert_ne.
    + change (play (Interval now :: es) s)
        with (play es (PrintInterval now s).1).
      change (sent_seqs (calls (Interval now :: es)))
        with (sent_seqs (calls es)).
      by rewrite IH, ext_size_interval.
Qed.

Lemma ext_seq_numbers thr s :
  map_Forall (stored thr) (records s) ->
  SeqNum <$> GetRecords s = (map_to_list (records s)).*1.
Proof.
  intros Hst. unfold GetRecords. rewrite <- list_fmap_compose.
  apply list_fmap_ext. intros i [q r] Hi. simpl.
  apply list_elem_of_lookup_2, elem_of_map_to_list in Hi.
  by destruct (Hst q r Hi).
Qed.

End CsvRowFacts.

(** X20. The rows of the export, after any sequence of [RecordSent],
    [RecordReceived] and [PrintInterval] calls on an aggregator made by
    [NewStats]: there is exactly one row for every sequence number
    passed to [RecordSent] (the [seq] cells are pairwise different and
    are the decimal forms of those numbers), every row has six cells,
    and a row whose [lost] cell is [true] has [recv_time] 0,
    [latency_ms] 0.00 and [late] false. *)
Theorem csv_has_one_row_per_sequence_number :
  forall (now : Z) (thr : float) (es : list Extended.stats.event),
    let s := Extended.stats.play es (Extended.stats.NewStats now thr) in
    let rows := tail (Extended.client.saveCSV s) in
    NoDup (map (hd EmptyString) rows)
    /\ (forall q : Z,
           q ∈ Extended.stats.sent_seqs (Extended.stats.calls es)
           <-> strconv.FormatUint q ∈ map (hd EmptyString) rows)
    /\ (forall row : list string,
           row ∈ rows ->
           length row = 6%nat
           /\ (row !! 4%nat = Some "true"%string ->
               row !! 2%nat = Some "0"%string
               /\ row !! 3%nat = Some "0.00"%string
               /\ row !! 5%nat = Some "false"%string)).
Proof.
  intros now thr es s rows.
  destruct (ext_play_stored thr es (Extended.stats.NewStats now thr))
    as [_ Hst]; [done|apply map_Forall_empty|].
  fold s in Hst.
  assert (Hcells : map (hd EmptyString) rows
                   = strconv.FormatUint
                       <$> (map_to_list (Extended.stats.records s)).*1).
  { rewrite <- (ext_seq_numbers thr s Hst).
    unfold rows, Extended.client.saveCSV. simpl tail.
    rewrite map_map, <- list_fmap_compose. done. }
  rewrite Hcells. split; [|split].
  - apply NoDup_fmap_2_strong; [|apply NoDup_fst_map_to_list].
    intros q q' _ _. apply FormatUint_inj.
  - intros q.
    pose proof (ext_play_domain es (Extended.stats.NewStats now thr) q)
      as Hd.
    fold s in Hd.
    assert (Hdom : is_Some (Extended.stats.records s !! q)
                   <-> q ∈ (map_to_list (Extended.stats.records s)).*1).
    { rewrite list_elem_of_fmap. split.
      - intros [r Hr]. exists (q, r). split; [done|].
        by apply elem_of_map_to_list.
      - intros ([q' r] & -> & Hr). apply elem_of_map_to_list in Hr.
        by eexists. }
    split.
    + intros H. apply list_elem_of_fmap. exists q. split; [done|].
      apply Hdom, Hd. by right.
    + intros H. apply list_elem_of_fmap in H as (q' & Hq & Hin).
      apply FormatUint_inj in Hq as ->.
      apply Hdom, Hd in Hin as [Hin|Hin]; [|done].
      simpl in Hin. rewrite lookup_empty in Hin. by destruct Hin.
  - intros row Hrow. unfold rows, Extended.client.saveCSV in Hrow.
    simpl tail in Hrow. apply list_elem_of_In, in_map_iff in Hrow.
    destruct Hrow as (r & <- & Hr).
    apply list_elem_of_In, elem_of_GetRecords in Hr as [q Hq].
    destruct (Hst q r Hq) as [_ Hr]. split; [done|].
    unfold Extended.client.csvRow. simpl.
    destruct (Extended.stats.Lost r); [|done].
    destruct Hr as (-> & -> & _ & _ & ->). done.
Qed.

(** ** The basic interval line and the ticker of the steady loop *)

Section BasicIntervalFacts.

Import Basic.stats.

Lemma basic_run_startTime cs : forall s, startTime (run cs s) = startTime s.
Proof.
  induction cs as [|c cs IH]; intros s; [done|].
  change (run (c :: cs) s) with (run cs (step s c)). rewrite IH.
  destruct c as [q t|q t]; [done|]. simpl. unfold RecordReceived.
  destruct (records s !! q) as [r|]; [|done]. by destruct (Lost r).
Qed.

End BasicIntervalFacts.

(** X21. The interval line of the basic variant is cumulative. After
    [RecordSent] calls with pairwise distinct sequence numbers (fewer
    than 2^64) and any [RecordReceived] calls on a fresh aggregator,
    [GetIntervalStats] returns the time since the start, the loss
    percentage of the summary and the minimum, average, maximum and
    jitter of the summary's latency line, or zeros where the summary
    has no latency line. *)
Theorem basic_interval_stats_are_cumulative :
  forall (printed started now : Z) (cs : list Basic.stats.call),
    NoDup (Basic.stats.sent_seqs cs) ->
    Z.of_nat (length (Basic.stats.sent_seqs cs)) < Int.two64 ->
    let s := Basic.stats.run cs (Basic.stats.NewStats printed started) in
    let st := Basic.stats.GetIntervalStats now s in
    let sm := Basic.stats.PrintSummary s in
    Basic.stats.is_elapsed st = now - started
    /\ Basic.stats.is_loss st = Basic.stats.sum_lossPercent sm
    /\ match Basic.stats.sum_latency sm with
       | Some l =>
           Basic.stats.is_min st = Basic.stats.ln_min l
           /\ Basic.stats.is_avg st = Basic.stats.ln_avg l
           /\ Basic.stats.is_max st = Basic.stats.ln_max l
           /\ Basic.stats.is_jitter st = Basic.stats.ln_jitter l
       | None =>
           Basic.stats.is_min st = 0%float
           /\ Basic.stats.is_avg st = 0%float
           /\ Basic.stats.is_max st = 0%float
           /\ Basic.stats.is_jitter st = 0%float
       end.
Proof.
  intros printed started now cs Hnd Hb s st sm.
  destruct (basic_run_consistent cs (Basic.stats.NewStats printed started))
    as [(Hs & Hr & Hl) _].
  { apply basic_consistent_new. }
  { done. }
  { intros q _. apply lookup_empty. }
  { simpl. rewrite map_size_empty. lia. }
  fold s in Hs, Hr, Hl. pose proof (basic_resolved_le s) as Hle.
  pose proof (basic_run_startTime cs (Basic.stats.NewStats printed started))
    as Hst.
  fold s in Hst. simpl in Hst.
  unfold st, sm, Basic.stats.GetIntervalStats, Basic.stats.PrintSummary.
  rewrite Hst.
  destruct (Z.eqb_spec (Basic.stats.sent s) 0) as [H0|H0].
  - assert (Hnil : length (Basic.stats.latencies s) = 0%nat) by lia.
    rewrite H0, Hnil. simpl. done.
  - assert (Hpos : (0 <? Basic.stats.sent s) = true) by (apply Z.ltb_lt; lia).
    rewrite Hpos. cbn [Basic.stats.is_elapsed Basic.stats.is_loss
                       Basic.stats.sum_lossPercent Basic.stats.sum_latency].
    destruct (length (Basic.stats.latencies s)) as [|n] eqn:En; simpl; done.
Qed.

Lemma basic_interval_stats_are_cumulative_witness :
  let s := Basic.stats.run
             [Basic.stats.Sent 1 0; Basic.stats.Received 1 3000000;
              Basic.stats.Received 1 4000000; Basic.stats.Sent 2 1000]
             (Basic.stats.NewStats 0 0) in
  let st := Basic.stats.GetIntervalStats 5000000000 s in
  let sm := Basic.stats.PrintSummary s in
  Basic.stats.is_elapsed st = 5000000000 - 0
  /\ Basic.stats.is_loss st = Basic.stats.sum_lossPercent sm
  /\ match Basic.stats.sum_latency sm with
     | Some l =>
         Basic.stats.is_min st = Basic.stats.ln_min l
         /\ Basic.stats.is_avg st = Basic.stats.ln_avg l
         /\ Basic.stats.is_max st = Basic.stats.ln_max l
         /\ Basic.stats.is_jitter st = Basic.stats.ln_jitter l
     | None =>
         Basic.stats.is_min st = 0%float
         /\ Basic.stats.is_avg st = 0%float
         /\ Basic.stats.is_max st = 0%float
         /\ Basic.stats.is_jitter st = 0%float
     end.
Proof.
  apply (basic_interval_stats_are_cumulative 0 0 5000000000
           [Basic.stats.Sent 1 0; Basic.stats.Received 1 3000000;
            Basic.stats.Received 1 4000000; Basic.stats.Sent 2 1000]).
  - simpl. apply (bool_decide_unpack _). vm_compute. exact I.
  - vm_compute. reflexivity.
Defined.

(** X22. [main] checks the packet size but not the rate, and the steady
    loop of the client divides one second by the rate to make its
    ticker: the flags are passed on as they are, and the ticker is made
    exactly when the rate is between 1 and 10^9; a rate of 0 and any
    other rate make the client panic. The period [d] is one second
    over the rate, rounded down. *)
Theorem steady_client_needs_rate_from_1_to_1e9 :
  forall (HeaderSize : Z) (f : main.flags) (cfg : main.ClientConfig),
    Int.is_int64 (main.rate f) ->
    main.main HeaderSize f = main.Client cfg ->
    main.Rate cfg = main.rate f
    /\ ((exists d, Basic.client.steadyTicker (main.Rate cfg) = Ok d)
        <-> 1 <= main.rate f <= 1000000000)
    /\ (forall d, Basic.client.steadyTicker (main.Rate cfg) = Ok d ->
                  d * main.rate f <= 1000000000 < (d + 1) * main.rate f).
Proof.
  intros HeaderSize f cfg Hr Hm.
  assert (Hrate : main.Rate cfg = main.rate f).
  { revert Hm. unfold main.main.
    repeat (match goal with |- context [if ?b then _ else _] =>
                              destruct b end; try discriminate).
    by intros [= <-]. }
  split; [done|]. rewrite Hrate. clear Hm Hrate.
  unfold Basic.client.steadyTicker, time.NewTicker, Int.idiv64, Int.to_int64,
    Int.is_int64, time.Second, Int.two63, Int.two64 in *.
  change (2 ^ 64) with 18446744073709551616 in *.
  change (2 ^ 63) with 9223372036854775808 in *.
  destruct (Z.eqb_spec (main.rate f) 0) as [H0|H0].
  { split; [|done]. split; [by intros [d ?]|lia]. }
  assert (Hq : -1000000000 <= Z.quot 1000000000 (main.rate f) <= 1000000000).
  { Z.to_euclidean_division_equations; nia. }
  assert (Hint : (if Z.quot 1000000000 (main.rate f) mod 18446744073709551616
                     <? 9223372036854775808
                  then Z.quot 1000000000 (main.rate f) mod 18446744073709551616
                  else Z.quot 1000000000 (main.rate f) mod 18446744073709551616
                       - 18446744073709551616)
                 = Z.quot 1000000000 (main.rate f)).
  { destruct (Z.ltb_spec (Z.quot 1000000000 (main.rate f)
                          mod 18446744073709551616) 9223372036854775808);
      Z.div_mod_to_equations; lia. }
  rewrite Hint.
  destruct (Z.leb_spec (Z.quot 1000000000 (main.rate f)) 0) as [Hle|Hgt].
  - split; [|done]. split; [by intros [d ?]|].
    intros Hrange. exfalso. revert Hle.
    Z.to_euclidean_division_equations; nia.
  - split.
    + split; [intros _|by eexists].
      revert Hgt. Z.to_euclidean_division_equations; nia.
    + intros d [= <-]. revert Hgt.
      Z.to_euclidean_division_equations; nia.
Qed.

Lemma steady_client_needs_rate_from_1_to_1e9_witness :
  let f := {| main.serverMode := false; main.clientMode := true;
              main.host := "localhost"; main.port := 9999;
              main.packetSize := 128; main.rate := 3;
              main.duration := 30; main.output := EmptyString;
              main.burst := false; main.burstSize := 10;
              main.noPlot := false; main.lateThreshold := 100;
              main.plotFile := EmptyString |} in
  let cfg := {| main.Host := "localhost"; main.Port := 9999;
                main.PacketSize := 128; main.Rate := 3;
                main.Duration := 30; main.OutputFile := EmptyString;
                main.Burst := false; main.BurstSize := 10;
                main.NoPlot := false; main.LateThreshold := 100 |} in
  main.Rate cfg = main.rate f
  /\ ((exists d, Basic.client.steadyTicker (main.Rate cfg) = Ok d)
      <-> 1 <= main.rate f <= 1000000000)
  /\ (forall d, Basic.client.steadyTicker (main.Rate cfg) = Ok d ->
                d * main.rate f <= 1000000000 < (d + 1) * main.rate f).
Proof.
  intros f cfg.
  apply (steady_client_needs_rate_from_1_to_1e9 24 f cfg).
  - unfold Int.is_int64, Int.two63. simpl. lia.
  - reflexivity.
Defined.
